(** * Third-party login handshake and webhook push of TangSengDaoDaoServer

    A shallow embedding of [modules/user/api_gitee.go] (the handshake
    handlers [thirdAuthcode], [thirdAuthStatus], [giteeOAuth], [mallOAuth]
    and their helpers) and of the webhook [EchoooPush.Push], followed by the
    properties of the handshake protocol that the code does or does not have.

    Handlers are written in a small state monad over a [World] that holds
    the Redis connection's contents, a clock and the trace of every call a
    handler makes to a collaborator (HTTP, database, file service, logger,
    the gin response writer).  What a collaborator answers is read from an
    environment [Env]; the handlers themselves are translated statement by
    statement.  The diagnostic prints to standard output ([fmt.Println]) and
    the fields attached to a log entry are not part of the trace. *)

From Stdlib Require Import ZArith String Ascii List Lia DecimalString.
From stdpp Require Import base option strings gmap.

Local Open Scope Z_scope.
Local Open Scope string_scope.

(** ** Go runtime and standard library *)

Module Go.

(** [error] values are identified with their message. *)
Definition error : Type := string.

(** A call that returns [(T, error)] and keeps to the convention that the
    value is meaningful exactly when the error is nil. *)
Inductive Result (A : Type) : Type :=
| Ok (a : A)
| Err (e : error).
Arguments Ok {A} a.
Arguments Err {A} e.

(** [time.Duration]: a count of nanoseconds. *)
Definition Duration : Type := Z.
Definition Second : Duration := 1000000000.
Definition Minute : Duration := 60 * Second.

(** An [interface{}] produced by decoding JSON into [map[string]interface{}]. *)
#[local] Unset Elimination Schemes.
Inductive iface : Type :=
| INil
| IString (s : string)
| IFloat64 (mantissa exponent : Z)
| IBool (b : bool)
| ISlice (l : list iface)
| IMap (l : list (string * iface)).
#[local] Set Elimination Schemes.

(** [m[k]] on a [map[string]interface{}]: the nil interface when absent. *)
Definition index (m : gmap string iface) (k : string) : iface :=
  default INil (m !! k).

Definition is_nil (v : iface) : bool :=
  match v with INil => true | _ => false end.

(** The dynamic type of a decoded value, as the runtime names it in the
    message of a failed type assertion. *)
Definition typeName (v : iface) : string :=
  match v with
  | INil => "nil"
  | IString _ => "string"
  | IFloat64 _ _ => "float64"
  | IBool _ => "bool"
  | ISlice _ => "[]interface {}"
  | IMap _ => "map[string]interface {}"
  end.

(** [fmt]'s [%d] verb. *)
Definition fmt_d (z : Z) : string := NilZero.string_of_int (Z.to_int z).

(** [len(s) == 0]. *)
Definition is_empty (s : string) : bool := Nat.eqb (String.length s) 0.

(** [len(s) > 0]. *)
Definition not_empty (s : string) : bool := Nat.ltb 0 (String.length s).

(** [strings.HasSuffix]. *)
Definition HasSuffix (s suffix : string) : bool :=
  Nat.leb (String.length suffix) (String.length s)
  && String.eqb
       (substring (String.length s - String.length suffix)
                  (String.length suffix) s)
       suffix.

(** [strings.Split(s, ",")]: the fields between the commas, the empty ones
    included; a string without a comma is its own single field. *)
Fixpoint Split_comma (s : string) : list string :=
  match s with
  | EmptyString => [EmptyString]
  | String c r =>
      if Ascii.eqb c ","%char then EmptyString :: Split_comma r
      else match Split_comma r with
           | f :: fs => String c f :: fs
           | [] => [String c EmptyString]
           end
  end.

(** *** [strings.TrimSpace]

    White space is what [unicode.IsSpace] accepts, recognised on the UTF-8
    encoding: the six ASCII characters, U+0085 and U+00A0 (two bytes), and
    U+1680, U+2000..U+200A, U+2028, U+2029, U+202F, U+205F, U+3000 (three
    bytes). *)
Definition asciiSpace (b : N) : bool :=
  (N.leb 9 b && N.leb b 13) || N.eqb b 32.

Definition space2 (b1 b2 : N) : bool :=
  N.eqb b1 194 && (N.eqb b2 133 || N.eqb b2 160).

Definition space3 (b1 b2 b3 : N) : bool :=
  (N.eqb b1 225 && N.eqb b2 154 && N.eqb b3 128)
  || (N.eqb b1 226 && N.eqb b2 128
      && ((N.leb 128 b3 && N.leb b3 138)
          || N.eqb b3 168 || N.eqb b3 169 || N.eqb b3 175))
  || (N.eqb b1 226 && N.eqb b2 129 && N.eqb b3 159)
  || (N.eqb b1 227 && N.eqb b2 128 && N.eqb b3 128).

(** Drops the white space at the front.  With [backwards] the bytes are
    those of the reversed string, so a rune's bytes come last byte first. *)
Fixpoint trim_front (backwards : bool) (s : string) : string :=
  match s with
  | EmptyString => s
  | String c1 r1 =>
      let b1 := N_of_ascii c1 in
      if asciiSpace b1 then trim_front backwards r1 else
      match r1 with
      | EmptyString => s
      | String c2 r2 =>
          let b2 := N_of_ascii c2 in
          if (if backwards then space2 b2 b1 else space2 b1 b2)
          then trim_front backwards r2 else
          match r2 with
          | EmptyString => s
          | String c3 r3 =>
              let b3 := N_of_ascii c3 in
              if (if backwards then space3 b3 b2 b1 else space3 b1 b2 b3)
              then trim_front backwards r3 else s
          end
      end
  end.

Definition TrimSpace (s : string) : string :=
  String.rev (trim_front true (String.rev (trim_front false s))).

(** *** [hash/crc32], IEEE polynomial, bit by bit *)
Definition crc32_bit (c : Z) : Z :=
  if Z.testbit c 0 then Z.lxor (Z.shiftr c 1) 3988292384 else Z.shiftr c 1.

Definition crc32_byte (crc : Z) (b : ascii) : Z :=
  let c := Z.lxor crc (Z.of_N (N_of_ascii b)) in
  crc32_bit (crc32_bit (crc32_bit (crc32_bit
    (crc32_bit (crc32_bit (crc32_bit (crc32_bit c))))))).

Definition ChecksumIEEE (s : string) : Z :=
  Z.lxor (fold_left crc32_byte (list_ascii_of_string s) 4294967295) 4294967295.

(** Conversions between integer types wrap. *)
Definition uint32 (z : Z) : Z := z mod 2 ^ 32.
Definition uint8 (z : Z) : Z := z mod 2 ^ 8.

End Go.

Import Go.

(** ** The Redis connection

    [GetRedisConn()] is a key-value store with an expiry per key.  An entry
    that has reached its deadline is no longer seen by [GetString], which
    answers the empty string for a key it does not find (the handlers read
    the empty string as "expired"). *)

Module Redis.

Record entry : Type := Entry { value : string; deadline : Z }.

Definition live (now : Z) (e : entry) : bool := Z.ltb now (deadline e).

Definition GetString (now : Z) (db : gmap string entry) (key : string) : string :=
  match db !! key with
  | Some e => if live now e then value e else ""
  | None => ""
  end.

Definition SetAndExpire (now : Z) (db : gmap string entry)
    (key val : string) (expire : Duration) : gmap string entry :=
  <[key := Entry val (now + expire)]> db.

Definition Del (db : gmap string entry) (key : string) : gmap string entry :=
  delete key db.

End Redis.

(** ** Data of the user module *)

Definition ThirdAuthcodePrefix : string := "thirdlogin:authcode:".

Module giteeUserInfo.
Record t : Type := Build {
  AvatarURL : string; Bio : string; Blog : string; CreatedAt : string;
  Email : string; EventsURL : string; Followers : Z; FollowersURL : string;
  Following : Z; FollowingURL : string; GistsURL : string; HtmlURL : string;
  ID : Z; Login : string; MemberRole : string; Name : string;
  OrganizationsURL : string; PublicGists : Z; PublicRepos : Z;
  ReceivedEventsURL : string; Remark : string; ReposURL : string;
  Stared : Z; StarredURL : string; SubscriptionsURL : string;
  Type_ : string; UpdatedAt : string; URL : string; Watched : Z;
  Weibo : string }.
End giteeUserInfo.

Module MallUser.
Record t : Type := Build {
  ID : Z; UserID : string; Nickname : option string;
  Description : option string; Gender : string; Birthday : option string;
  Photo : string; PhoneNumber : option string; Email : string;
  ThirdPartyEmail : option string; SignUpType : Z; Platform : string;
  GoogleUsername : option string; AppleUsername : option string;
  CreateTime : string; UserType : Z; Deleted : Z; Status : Z }.
End MallUser.

Module MallResponse.
Record t : Type := Build {
  Code : Z; Message : string; Data : MallUser.t; TraceID : string;
  Placeholder : iface; Success : bool }.
End MallResponse.

(** The row of the gitee table (declared in another file of the module),
    with the fields [toModel] fills. *)
Module gitUserInfoModel.
Record t : Type := Build {
  Login : string; Name : string; AvatarURL : string; Bio : string;
  Blog : string; Email : string; Remark : string; EventsURL : string;
  Followers : Z; Following : Z; GistsURL : string; HtmlURL : string;
  MemberRole : string; OrganizationsURL : string; PublicGists : Z;
  PublicRepos : Z; ReceivedEventsURL : string; ReposURL : string;
  Stared : Z; StarredURL : string; SubscriptionsURL : string;
  Type_ : string; Weibo : string; Watched : Z; GiteeCreatedAt : string;
  GiteeUpdatedAt : string; Id : Z }.
End gitUserInfoModel.

(** The account to create (declared in another file of the module), with
    the fields the two callbacks set; a field they leave out has Go's zero
    value. *)
Module createUserModel.
Record t : Type := Build {
  UID : string; Zone : string; Phone : string; Password : string;
  Name : string; GiteeUID : string; Flag : Z; IsUploadAvatar : Z }.

Definition set_IsUploadAvatar (v : Z) (m : t) : t :=
  Build (UID m) (Zone m) (Phone m) (Password m) (Name m) (GiteeUID m)
        (Flag m) v.
End createUserModel.

(** The account row [queryWithGiteeUID] finds (declared in another file of
    the module), with the fields the callbacks read. *)
Module Model.
Record t : Type := Build { UID : string; IsDestroy : Z }.
End Model.

Module SendSinglePushReq.
Record t : Type := Build {
  UserId : string; DeviceId : string; Lang : string; PushType : Z;
  TemplateId : Z; Params : gmap string iface }.
End SendSinglePushReq.

Definition giteeUserInfo_toModel (g : giteeUserInfo.t) : gitUserInfoModel.t :=
  {| gitUserInfoModel.Login := giteeUserInfo.Login g;
     gitUserInfoModel.Name := giteeUserInfo.Name g;
     gitUserInfoModel.AvatarURL := giteeUserInfo.AvatarURL g;
     gitUserInfoModel.Bio := giteeUserInfo.Bio g;
     gitUserInfoModel.Blog := giteeUserInfo.Blog g;
     gitUserInfoModel.Email := giteeUserInfo.Email g;
     gitUserInfoModel.Remark := giteeUserInfo.Remark g;
     gitUserInfoModel.EventsURL := giteeUserInfo.EventsURL g;
     gitUserInfoModel.Followers := giteeUserInfo.Followers g;
     gitUserInfoModel.Following := giteeUserInfo.Following g;
     gitUserInfoModel.GistsURL := giteeUserInfo.GistsURL g;
     gitUserInfoModel.HtmlURL := giteeUserInfo.HtmlURL g;
     gitUserInfoModel.MemberRole := giteeUserInfo.MemberRole g;
     gitUserInfoModel.OrganizationsURL := giteeUserInfo.OrganizationsURL g;
     gitUserInfoModel.PublicGists := giteeUserInfo.PublicGists g;
     gitUserInfoModel.PublicRepos := giteeUserInfo.PublicRepos g;
     gitUserInfoModel.ReceivedEventsURL := giteeUserInfo.ReceivedEventsURL g;
     gitUserInfoModel.ReposURL := giteeUserInfo.ReposURL g;
     gitUserInfoModel.Stared := giteeUserInfo.Stared g;
     gitUserInfoModel.StarredURL := giteeUserInfo.StarredURL g;
     gitUserInfoModel.SubscriptionsURL := giteeUserInfo.SubscriptionsURL g;
     gitUserInfoModel.Type_ := giteeUserInfo.Type_ g;
     gitUserInfoModel.Weibo := giteeUserInfo.Weibo g;
     gitUserInfoModel.Watched := giteeUserInfo.Watched g;
     gitUserInfoModel.GiteeCreatedAt := giteeUserInfo.CreatedAt g;
     gitUserInfoModel.GiteeUpdatedAt := giteeUserInfo.UpdatedAt g;
     gitUserInfoModel.Id := giteeUserInfo.ID g |}.

Definition MallUser_toModel (g : MallUser.t) : gitUserInfoModel.t :=
  {| gitUserInfoModel.Login := MallUser.UserID g;
     gitUserInfoModel.Name := MallUser.UserID g;
     gitUserInfoModel.AvatarURL := MallUser.Photo g;
     gitUserInfoModel.Bio := MallUser.Gender g;
     gitUserInfoModel.Blog := "";
     gitUserInfoModel.Email := MallUser.Email g;
     gitUserInfoModel.Remark := "";
     gitUserInfoModel.EventsURL := "g.EventsURL";
     gitUserInfoModel.Followers := 1;
     gitUserInfoModel.Following := 1;
     gitUserInfoModel.GistsURL := "g.GistsURL";
     gitUserInfoModel.HtmlURL := "g.HtmlURL";
     gitUserInfoModel.MemberRole := "g.MemberRole";
     gitUserInfoModel.OrganizationsURL := "g.OrganizationsURL";
     gitUserInfoModel.PublicGists := 1;
     gitUserInfoModel.PublicRepos := 1;
     gitUserInfoModel.ReceivedEventsURL := "g.ReceivedEventsURL";
     gitUserInfoModel.ReposURL := "g.ReposURL";
     gitUserInfoModel.Stared := 1;
     gitUserInfoModel.StarredURL := "g.StarredURL";
     gitUserInfoModel.SubscriptionsURL := "g.SubscriptionsURL";
     gitUserInfoModel.Type_ := "1";
     gitUserInfoModel.Weibo := "g.Weibo";
     gitUserInfoModel.Watched := 1;
     gitUserInfoModel.GiteeCreatedAt := MallUser.CreateTime g;
     gitUserInfoModel.GiteeUpdatedAt := "g.UpdatedAt";
     gitUserInfoModel.Id := MallUser.ID g |}.

(** The part of the configuration the handlers read. *)
Record Config : Type := {
  External_APIBaseURL : string;
  Gitee_ClientID : string;
  Gitee_ClientSecret : string;
  Avatar_Partition : Z }.

(** The gin context: the query parameters of the request. *)
Record Context : Type := { params : gmap string string }.

(** [c.Query(key)]: the empty string for a parameter that is not there. *)
Definition Query (c : Context) (key : string) : string :=
  default "" (params c !! key).

(** [util.ToJson] and [util.ReadJsonByByte] at a type that is decoded
    through a pointer to a pointer: the JSON text [null] decodes to nil. *)
Class Json (A : Type) : Type := {
  ToJson : A → string;
  ReadJsonByByte : string → Result (option A) }.

(** ** Worlds, traces and the handler monad *)

(** The bytes of a downloaded image. *)
Definition Image : Type := string.

Record HttpResponse : Type := { StatusCode : Z; Body : string }.

(** How a statement ends: falls through, executes [return], or panics. *)
Inductive Flow (R A : Type) : Type :=
| Continue (a : A)
| Returned (r : R)
| Panicked (msg : string).
Arguments Continue {R A} a.
Arguments Returned {R A} r.
Arguments Panicked {R A} msg.

(** How a function ends. *)
Inductive Outcome (R : Type) : Type :=
| Finished (r : R)
| Panic (msg : string).
Arguments Finished {R} r.
Arguments Panic {R} msg.

Section Server.

(** The login result ([loginUserDetailResp] in the user module) and its
    JSON codec. *)
Variable loginUserDetailResp : Type.
Context {codec : Json loginUserDetailResp}.

(** The bodies given to [c.Response]. *)
Inductive H : Type :=
| H_authcode (authcode : string)
| H_status (status : Z)
| H_status_result (status : Z) (result : option loginUserDetailResp).

(** What a handler writes on the gin context. *)
Inductive Reply : Type :=
| ReplyError (msg : error)
| ReplyJSON (body : H)
| ReplyString (code : Z) (text : string).

(** Every call a handler makes to something outside itself. *)
Inductive Event : Type :=
| Log (msg : string)
| Respond (r : Reply)
| RedisGetString (key : string)
| RedisSetAndExpire (key val : string) (expire : Duration)
| RedisDel (key : string)
| HttpPostForm (url : string) (form : gmap string string)
| HttpGet (url : string)
| HttpDo (method url : string) (header : list (string * string))
| HttpPost (url contentType : string) (req : SendSinglePushReq.t)
| CloseBody
| DBQueryWithGiteeUID (login : string)
| SpanStart (name : string)
| SpanSetTag (key val : string)
| SpanFinish (name : string)
| ExecLogin (m : Model.t) (flag : Z)
| GoSentWelcomeMsg (publicIP uid : string)
| DownloadImage (url : string) (timeout : Duration)
| UploadFile (path contentType : string) (content : Image)
| CloseImage
| TxBegin
| TxInsertGitee (m : gitUserInfoModel.t)
| CreateUserWithRespAndTx (m : createUserModel.t) (publicIP inviteVercode : string)
| TxCommit
| TxRollback.

Record World : Type := {
  clock : Z;
  redis : gmap string Redis.entry;
  trace : list Event }.

(** Time passing between two requests. *)
Definition advance (d : Duration) (w : World) : World :=
  {| clock := clock w + d; redis := redis w; trace := trace w |}.

(** A [defer] statement: a plain call, or the transaction guard
    [defer func() { if err := recover(); err != nil { tx.Rollback(); panic(err) } }()]. *)
Inductive Deferred : Type :=
| DeferCall (e : Event)
| DeferRecoverRollback.

(** A running function: the world and its stack of deferred calls. *)
Record Frame : Type := { world : World; pending : list Deferred }.

(** Statements of a function whose result type is [R]. *)
Definition Handler (R A : Type) : Type := Frame → Flow R A * Frame.

#[global] Instance Handler_ret {R} : MRet (Handler R) :=
  λ A a fr, (Continue a, fr).

#[global] Instance Handler_bind {R} : MBind (Handler R) :=
  λ A B k m fr,
    match m fr with
    | (Continue a, fr') => k a fr'
    | (Returned r, fr') => (Returned r, fr')
    | (Panicked msg, fr') => (Panicked msg, fr')
    end.

Definition Return {R A} (r : R) : Handler R A := λ fr, (Returned r, fr).

Definition panic {R A} (msg : string) : Handler R A := λ fr, (Panicked msg, fr).

Definition get_world {R} : Handler R World := λ fr, (Continue (world fr), fr).

Definition put_world {R} (w : World) : Handler R unit :=
  λ fr, (Continue tt, {| world := w; pending := pending fr |}).

Definition emit {R} (e : Event) : Handler R unit :=
  w ← get_world;
  put_world {| clock := clock w; redis := redis w; trace := trace w ++ [e] |}.

Definition defer {R} (d : Deferred) : Handler R unit :=
  λ fr, (Continue tt, {| world := world fr; pending := d :: pending fr |}).

Definition when {R} (b : bool) (h : Handler R unit) : Handler R unit :=
  if b then h else mret tt.

(** [if err != nil { ... }]. *)
Definition if_err {R} (err : option error) (h : error → Handler R unit)
    : Handler R unit :=
  match err with Some e => h e | None => mret tt end.

(** The deferred calls of a function run when it ends, last one first. *)
Fixpoint unwind (panicking : bool) (ds : list Deferred) (tr : list Event)
    : list Event :=
  match ds with
  | [] => tr
  | DeferCall e :: ds' => unwind panicking ds' (tr ++ [e])
  | DeferRecoverRollback :: ds' =>
      unwind panicking ds' (if panicking then tr ++ [TxRollback] else tr)
  end.

(** The end of a function: its deferred calls run, and it has returned its
    result or is panicking. *)
Definition finish {R} (res : Flow R R * Frame) : Outcome R * World :=
  let '(f, fr) := res in
  let unwound (p : bool) :=
    {| clock := clock (world fr); redis := redis (world fr);
       trace := unwind p (pending fr) (trace (world fr)) |} in
  match f with
  | Continue r | Returned r => (Finished r, unwound false)
  | Panicked msg => (Panic msg, unwound true)
  end.

(** Runs a function body to its end on a world. *)
Definition run {R} (body : Handler R R) (w : World) : Outcome R * World :=
  finish (body {| world := w; pending := [] |}).

(** A call of one function of the module from another. *)
Definition call {R R'} (body : Handler R' R') : Handler R R' :=
  λ fr,
    match run body (world fr) with
    | (Finished r, w) => (Continue r, {| world := w; pending := pending fr |})
    | (Panic msg, w) => (Panicked msg, {| world := w; pending := pending fr |})
    end.

(** ** The collaborators

    What each collaborator answers during one request.  The Redis connection
    can fail on any of its three operations; a failed operation leaves the
    store as it was. *)

Record CreateOutcome : Type := {
  calls_commit : bool;
  created : Result (option loginUserDetailResp) }.

Record Env : Type := {
  cfg : Config;
  config_APP : Z;
  util_GenerUUID : string;
  util_GetClientPublicIP : string;
  redis_GetString_err : option error;
  redis_SetAndExpire_err : option error;
  redis_Del_err : option error;
  network_PostForWWWForm : string → gmap string string → Result (gmap string iface);
  network_Get : string → Result HttpResponse;
  json_giteeUserInfo : string → Result (option giteeUserInfo.t);
  http_Do : string → list (string * string) → Result (Result string);
  json_MallResponse : string → Result MallResponse.t;
  db_queryWithGiteeUID : string → Result (option Model.t);
  user_execLogin : Model.t → Z → Result (option loginUserDetailResp);
  fileService_DownloadImage : string → option Image;
  fileService_UploadFile : string → string → Image → option error;
  db_Begin : option error;
  giteeDB_insertTx : gitUserInfoModel.t → option error;
  user_createUserWithRespAndTx : createUserModel.t → string → CreateOutcome;
  tx_Commit : option error;
  http_Post : nat → string → string → SendSinglePushReq.t
              → option HttpResponse * option error }.

Variable env : Env.

(** *** Calls on the gin context, the logger and the Redis connection *)

Definition ResponseError {R} (err : error) : Handler R unit :=
  emit (Respond (ReplyError err)).

Definition Response {R} (body : H) : Handler R unit :=
  emit (Respond (ReplyJSON body)).

Definition String_ {R} (code : Z) (text : string) : Handler R unit :=
  emit (Respond (ReplyString code text)).

Definition GetString {R} (key : string) : Handler R (string * option error) :=
  emit (RedisGetString key);;
  w ← get_world;
  match redis_GetString_err env with
  | Some e => mret ("", Some e)
  | None => mret (Redis.GetString (clock w) (redis w) key, None)
  end.

Definition SetAndExpire {R} (key val : string) (expire : Duration)
    : Handler R (option error) :=
  emit (RedisSetAndExpire key val expire);;
  w ← get_world;
  match redis_SetAndExpire_err env with
  | Some e => mret (Some e)
  | None =>
      put_world {| clock := clock w;
                   redis := Redis.SetAndExpire (clock w) (redis w) key val expire;
                   trace := trace w |};;
      mret None
  end.

Definition Del {R} (key : string) : Handler R (option error) :=
  emit (RedisDel key);;
  w ← get_world;
  match redis_Del_err env with
  | Some e => mret (Some e)
  | None =>
      put_world {| clock := clock w; redis := Redis.Del (redis w) key;
                   trace := trace w |};;
      mret None
  end.

(** [time.Sleep]. *)
Definition Sleep {R} (d : Duration) : Handler R unit :=
  w ← get_world;
  put_world (advance d w).

(** ** The user module: [api_gitee.go] *)

Definition thirdAuthcode (c : Context) : Handler unit unit :=
  let authcode := util_GenerUUID env in
  err ← SetAndExpire (ThirdAuthcodePrefix ++ authcode) "1" (Minute * 5);
  if_err err (λ _,
    emit (Log "redis set error");;
    ResponseError "redis set error";;
    Return tt);;
  Response (H_authcode authcode).

Definition thirdAuthStatus (c : Context) : Handler unit unit :=
  let authcode := Query c "authcode" in
  let key := ThirdAuthcodePrefix ++ authcode in
  '(result, err) ← GetString key;
  if_err err (λ _,
    emit (Log "获取登录状态失败！");;
    ResponseError "获取登录状态失败！";;
    Return tt);;
  when (is_empty result) (
    ResponseError "登录状态已过期！";;
    Return tt);;
  when (String.eqb result "1") (
    Response (H_status 0);;
    Return tt);;
  when (String.eqb result "0") (
    Response (H_status 2);;
    Return tt);;
  err ← Del key;
  if_err err (λ _, emit (Log "redis del error"));;
  match ReadJsonByByte result with
  | Err e =>
      ResponseError e;;
      Return tt
  | Ok loginResp => Response (H_status_result 1 loginResp)
  end.

(** The URLs, the form and the header of the requests to the providers. *)
Definition profileURL (accessToken : string) : string :=
  "https://gitee.com/api/v5/user?access_token=" ++ accessToken.

Definition exchangeURL : string :=
  "https://gitee.com/oauth/token?grant_type=authorization_code".

Definition exchangeForm (code : string) : gmap string string :=
  <["code" := code]>
  (<["client_id" := Gitee_ClientID (cfg env)]>
  (<["redirect_uri" := External_APIBaseURL (cfg env) ++ "/user/oauth/gitee"]>
  (<["client_secret" := Gitee_ClientSecret (cfg env)]> ∅))).

Definition mallURL (env_ : string) : string :=
  let url := "https://mall-api.valleysound.xyz/user-service/user/get" in
  if String.eqb env_ "dev"
  then "https://mall-api.valleysound.xyz/user-service/user/get"
  else if String.eqb env_ "prd"
  then "https://api.alvinclub.ca/user-service/user/get"
  else if String.eqb env_ "stage"
  then "https://stage-api.alvinclub.ca/user-service/user/get"
  else url.

Definition mallHeader (code : string) : list (string * string) :=
  [("Accept", "*/*"); ("Accept-Language", "zh_hant"); ("Platform", "IM");
   ("User-Agent", "EchoooIMv1.0.0"); ("Connection", "keep-alive");
   ("Content-Type", "application/json"); ("Authorization", code)].

Definition requestGiteeUserInfo (accessToken : string)
    : Handler (option giteeUserInfo.t * option error)
              (option giteeUserInfo.t * option error) :=
  let url := profileURL accessToken in
  emit (HttpGet url);;
  match network_Get env url with
  | Err e => Return (None, Some e)
  | Ok resp =>
      when (negb (Z.eqb (StatusCode resp) 200)) (
        Return (None, Some ("获取gitee用户信息失败，状态码："
                            ++ fmt_d (StatusCode resp))));;
      match json_giteeUserInfo env (Body resp) with
      | Err e => Return (None, Some e)
      | Ok userInfo => Return (userInfo, None)
      end
  end.

Definition requestGiteeAccessToken (code : string)
    : Handler (string * option error) (string * option error) :=
  let url := exchangeURL in
  let form := exchangeForm code in
  emit (HttpPostForm url form);;
  match network_PostForWWWForm env url form with
  | Err e => Return ("", Some e)
  | Ok result =>
      let accessToken := "" in
      accessToken ←
        (if negb (is_nil (index result "access_token")) then
           match index result "access_token" with
           | IString s => mret s
           | v => panic ("interface conversion: interface {} is "
                         ++ typeName v ++ ", not string")
           end
         else mret accessToken);
      Return (accessToken, None)
  end.

Definition requestMallAccessToken (code env_ : string)
    : Handler (option MallUser.t * option error)
              (option MallUser.t * option error) :=
  let url := mallURL env_ in
  (* http.NewRequest does not fail on the method GET and these URLs *)
  let header := mallHeader code in
  emit (HttpDo "GET" url header);;
  match http_Do env url header with
  | Err e => Return (None, Some e)
  | Ok resp =>
      defer (DeferCall CloseBody);;
      match resp with
      | Err e => Return (None, Some e)
      | Ok body =>
          match json_MallResponse env body with
          | Err e => Return (None, Some e)
          | Ok response =>
              when (negb (Z.eqb (MallResponse.Code response) 200)) (
                Return (None,
                  Some ("获取电商用户信息失败, unexpected response code: "
                        ++ fmt_d (MallResponse.Code response)
                        ++ ", message: " ++ MallResponse.Message response)));;
              Return (Some (MallResponse.Data response), None)
          end
      end
  end.

(** The avatar of a new account (the same statements in both callbacks):
    download under a deadline of five seconds, upload under a path made of
    the shard of the uid, and set the flag when the upload went through. *)
Definition fetchAvatar (avatarURL uid : string) (model : createUserModel.t)
    : Handler unit createUserModel.t :=
  if negb (String.eqb avatarURL "")
     && negb (HasSuffix avatarURL "no_portrait.png")
  then
    emit (DownloadImage avatarURL (5 * Second));;
    match fileService_DownloadImage env avatarURL with
    | Some imgReader =>
        let partition := uint32 (Avatar_Partition (cfg env)) in
        when (Z.eqb partition 0) (
          panic "runtime error: integer divide by zero");;
        let avatarID := ChecksumIEEE uid mod partition in
        let path := "avatar/" ++ fmt_d avatarID ++ "/" ++ uid ++ ".png" in
        emit (UploadFile path "image/png" imgReader);;
        let err := fileService_UploadFile env path "image/png" imgReader in
        defer (DeferCall CloseImage);;
        match err with
        | None => mret (createUserModel.set_IsUploadAvatar 1 model)
        | Some _ => mret model
        end
    | None => mret model
    end
  else mret model.

(** The commit callback handed to [createUserWithRespAndTx]; it returns nil
    whether or not the commit went through. *)
Definition commitCallback : Handler unit (option error) :=
  emit TxCommit;;
  if_err (tx_Commit env) (λ _,
    emit TxRollback;;
    emit (Log "数据库事物提交失败");;
    ResponseError "数据库事物提交失败");;
  mret None.

(** [createUserWithRespAndTx] is not part of this file: what it returns and
    whether it runs the commit callback are the environment's. *)
Definition createUserWithRespAndTx (model : createUserModel.t)
    (publicIP inviteVercode : string)
    : Handler unit (Result (option loginUserDetailResp)) :=
  emit (CreateUserWithRespAndTx model publicIP inviteVercode);;
  let outcome := user_createUserWithRespAndTx env model publicIP in
  (if calls_commit outcome then commitCallback else mret None);;
  mret (created outcome).

(** The transaction of a new account (the same statements in both
    callbacks, up to the provider's name in the messages). *)
Definition provision (provider : string) (row : gitUserInfoModel.t)
    (model : createUserModel.t) : Handler unit (option loginUserDetailResp) :=
  emit TxBegin;;
  let err := db_Begin env in
  defer DeferRecoverRollback;;
  if_err err (λ _,
    emit (Log "开启事务失败！");;
    ResponseError "开启事务失败！";;
    Return tt);;
  emit (TxInsertGitee row);;
  if_err (giteeDB_insertTx env row) (λ _,
    emit TxRollback;;
    emit (Log ("插入" ++ provider ++ " user失败！"));;
    ResponseError ("插入" ++ provider ++ " user失败！");;
    Return tt);;
  let publicIP := util_GetClientPublicIP env in
  r ← createUserWithRespAndTx model publicIP "";
  match r with
  | Err e =>
      emit TxRollback;;
      ResponseError e;;
      Return tt
  | Ok loginResp => mret loginResp
  end.

(** The end of both callbacks: the login result, or "0" when there is none,
    goes under the authcode's key for one minute. *)
Definition storeLoginResult (authcode : string)
    (loginResp : option loginUserDetailResp) : Handler unit unit :=
  let loginRespStr :=
    match loginResp with
    | Some r => ToJson r
    | None => "0"
    end in
  err ← SetAndExpire (ThirdAuthcodePrefix ++ authcode) loginRespStr (Minute * 1);
  if_err err (λ _,
    emit (Log "redis set error");;
    ResponseError "redis set error";;
    Return tt);;
  Sleep (Second * 3);;
  String_ 200 "登录失败！".

(** The login of an account that exists (the same statements in both
    callbacks).  The test [userInfo == nil] of the source is false here: both
    callbacks have returned on a nil [userInfo] before. *)
Definition loginExisting (userInfoM : Model.t) (deviceFlag : Z)
    : Handler unit (option loginUserDetailResp) :=
  when (Z.eqb (Model.IsDestroy userInfoM) 1) (
    ResponseError "用户不存在";;
    Return tt);;
  emit (ExecLogin userInfoM deviceFlag);;
  match user_execLogin env userInfoM deviceFlag with
  | Err e =>
      ResponseError e;;
      Return tt
  | Ok loginResp =>
      let publicIP := util_GetClientPublicIP env in
      emit (GoSentWelcomeMsg publicIP (Model.UID userInfoM));;
      mret loginResp
  end.

Definition giteeOAuth (c : Context) : Handler unit unit :=
  let code := Query c "code" in
  when (is_empty code) (
    ResponseError "code不能为空";;
    Return tt);;
  let authcode := Query c "state" in
  '(accessToken, err) ← call (requestGiteeAccessToken code);
  if_err err (λ e, ResponseError e;; Return tt);;
  '(userInfo, err) ← call (requestGiteeUserInfo accessToken);
  if_err err (λ e, ResponseError e;; Return tt);;
  match userInfo with
  | None =>
      ResponseError "获取gitee用户信息失败";;
      Return tt
  | Some userInfo =>
      emit (DBQueryWithGiteeUID (giteeUserInfo.Login userInfo));;
      match db_queryWithGiteeUID env (giteeUserInfo.Login userInfo) with
      | Err _ =>
          emit (Log "查询gitee用户信息失败！");;
          ResponseError "查询gitee用户信息失败！";;
          Return tt
      | Ok userInfoM =>
          emit (SpanStart "giteelogin");;
          let deviceFlag := config_APP env in
          emit (SpanSetTag "username" (giteeUserInfo.Login userInfo));;
          defer (DeferCall (SpanFinish "giteelogin"));;
          loginResp ←
            match userInfoM with
            | Some userInfoM => loginExisting userInfoM deviceFlag
            | None =>
                let uid := util_GenerUUID env in
                let name := giteeUserInfo.Name userInfo in
                let name :=
                  if String.eqb (TrimSpace name) ""
                  then giteeUserInfo.Login userInfo else name in
                let model :=
                  {| createUserModel.UID := uid;
                     createUserModel.Zone := "";
                     createUserModel.Phone := "";
                     createUserModel.Password := "";
                     createUserModel.Name := name;
                     createUserModel.GiteeUID := giteeUserInfo.Login userInfo;
                     createUserModel.Flag := uint8 deviceFlag;
                     createUserModel.IsUploadAvatar := 0 |} in
                model ← fetchAvatar (giteeUserInfo.AvatarURL userInfo) uid model;
                provision "gitee" (giteeUserInfo_toModel userInfo) model
            end;
          storeLoginResult authcode loginResp
      end
  end.

Definition mallOAuth (c : Context) : Handler unit unit :=
  let code := Query c "token" in
  let env_ := Query c "env" in
  when (is_empty code) (
    ResponseError "电商token不能为空";;
    Return tt);;
  let authcode := Query c "state" in
  '(userInfo, err) ← call (requestMallAccessToken code env_);
  if_err err (λ e, ResponseError e;; Return tt);;
  match userInfo with
  | None =>
      ResponseError "获取gitee用户信息失败";;
      Return tt
  | Some userInfo =>
      emit (DBQueryWithGiteeUID (MallUser.UserID userInfo));;
      match db_queryWithGiteeUID env (MallUser.UserID userInfo) with
      | Err _ =>
          emit (Log "查询mall用户信息失败！");;
          ResponseError "查询mall用户信息失败！";;
          Return tt
      | Ok userInfoM =>
          emit (SpanStart "malllogin");;
          let deviceFlag := config_APP env in
          emit (SpanSetTag "username" (MallUser.UserID userInfo));;
          defer (DeferCall (SpanFinish "malllogin"));;
          loginResp ←
            match userInfoM with
            | Some userInfoM => loginExisting userInfoM deviceFlag
            | None =>
                let uid := util_GenerUUID env in
                let name := MallUser.UserID userInfo in
                let name :=
                  if String.eqb (TrimSpace name) ""
                  then MallUser.UserID userInfo else name in
                let model :=
                  {| createUserModel.UID := uid;
                     createUserModel.Zone := "";
                     createUserModel.Phone := "";
                     createUserModel.Password := "";
                     createUserModel.Name := name;
                     createUserModel.GiteeUID := MallUser.UserID userInfo;
                     createUserModel.Flag := uint8 deviceFlag;
                     createUserModel.IsUploadAvatar := 0 |} in
                model ← fetchAvatar (MallUser.Photo userInfo) uid model;
                provision "mall" (MallUser_toModel userInfo) model
            end;
          storeLoginResult authcode loginResp
      end
  end.

(** ** The webhook module: [EchoooPush.Push] *)

Definition ECHOOO_PUSH_UID : string := "tsdd:echooo:push_uid:".

(** The request of one push, and where it is posted. *)
Definition pushRequest (uid content : string) : SendSinglePushReq.t :=
  let params : gmap string iface := <["im_content" := IString content]> ∅ in
  {| SendSinglePushReq.UserId := uid;
     SendSinglePushReq.DeviceId := "";
     SendSinglePushReq.Lang := "";
     SendSinglePushReq.PushType := 3;
     SendSinglePushReq.TemplateId := 27;
     SendSinglePushReq.Params := params |}.

Definition pushURL (server : string) : string :=
  "http://" ++ server ++ "/inner/push/sendNotice".

(** The body of the loop over the servers, from the [n]-th request on.
    [defer resp.Body.Close()] comes before the test of [err], and evaluating
    [resp.Body] on a nil [resp] panics. *)
Fixpoint pushToServers (key uid content : string) (n : nat)
    (servers : list string) : Handler (option error) unit :=
  match servers with
  | [] => mret tt
  | server :: rest =>
      emit (Log "echooo inner Push server");;
      let reqParam := pushRequest uid content in
      let url := pushURL server in
      emit (HttpPost url "application/json" reqParam);;
      let '(resp, err) := http_Post env n url "application/json" reqParam in
      match resp with
      | None => panic "runtime error: invalid memory address or nil pointer dereference"
      | Some _ => defer (DeferCall CloseBody)
      end;;
      match err with
      | Some _ =>
          emit (Log "Error reading response body:");;
          pushToServers key uid content (S n) rest
      | None =>
          SetAndExpire key "1" (Minute * 5);;
          emit (Log "echooo inner Push success server")
      end
  end.

Definition Push (serverAddresses uid content : string)
    : Handler (option error) (option error) :=
  emit (Log "EchoooPush serverAddresses");;
  let key := ECHOOO_PUSH_UID ++ uid in
  '(result, err) ← GetString key;
  if_err err (λ e,
    emit (Log "pushToEchoooApi to get cache key error");;
    Return (Some e));;
  when (not_empty result) (
    emit (Log ("uid " ++ uid ++ " has push in five minutes. "));;
    Return None);;
  when (not_empty serverAddresses) (
    let servers := Split_comma serverAddresses in
    pushToServers key uid content 0 servers);;
  Return None.

End Server.

Arguments H_authcode {_}.
Arguments H_status {_}.
Arguments H_status_result {_}.
Arguments ReplyError {_}.
Arguments ReplyJSON {_}.
Arguments ReplyString {_}.
Arguments Log {_}.
Arguments Respond {_}.
Arguments RedisGetString {_}.
Arguments RedisSetAndExpire {_}.
Arguments RedisDel {_}.
Arguments HttpPostForm {_}.
Arguments HttpGet {_}.
Arguments HttpDo {_}.
Arguments HttpPost {_}.
Arguments CloseBody {_}.
Arguments DBQueryWithGiteeUID {_}.
Arguments SpanStart {_}.
Arguments SpanSetTag {_}.
Arguments SpanFinish {_}.
Arguments ExecLogin {_}.
Arguments GoSentWelcomeMsg {_}.
Arguments DownloadImage {_}.
Arguments UploadFile {_}.
Arguments CloseImage {_}.
Arguments TxBegin {_}.
Arguments TxInsertGitee {_}.
Arguments CreateUserWithRespAndTx {_}.
Arguments TxCommit {_}.
Arguments TxRollback {_}.
Arguments clock {_}.
Arguments redis {_}.
Arguments trace {_}.
Arguments advance {_}.
Arguments DeferCall {_}.
Arguments DeferRecoverRollback {_}.
Arguments world {_}.
Arguments pending {_}.
Arguments finish {_ R}.
Arguments run {_ R}.
Arguments call {_ R R'}.
Arguments unwind {_}.
Arguments calls_commit {_}.
Arguments created {_}.
Arguments cfg {_}.
Arguments config_APP {_}.
Arguments util_GenerUUID {_}.
Arguments util_GetClientPublicIP {_}.
Arguments redis_GetString_err {_}.
Arguments redis_SetAndExpire_err {_}.
Arguments redis_Del_err {_}.
Arguments network_PostForWWWForm {_}.
Arguments network_Get {_}.
Arguments json_giteeUserInfo {_}.
Arguments http_Do {_}.
Arguments json_MallResponse {_}.
Arguments db_queryWithGiteeUID {_}.
Arguments user_execLogin {_}.
Arguments fileService_DownloadImage {_}.
Arguments fileService_UploadFile {_}.
Arguments db_Begin {_}.
Arguments giteeDB_insertTx {_}.
Arguments user_createUserWithRespAndTx {_}.
Arguments tx_Commit {_}.
Arguments http_Post {_}.
Arguments Return {_ R A}.
Arguments panic {_ R A}.
Arguments get_world {_ R}.
Arguments put_world {_ R}.
Arguments emit {_ R}.
Arguments defer {_ R}.
Arguments when {_ R}.
Arguments if_err {_ R}.
Arguments ResponseError {_ R}.
Arguments Response {_ R}.
Arguments String_ {_ R}.
Arguments Sleep {_ R}.
Arguments GetString {_} env {R}.
Arguments SetAndExpire {_} env {R}.
Arguments Del {_} env {R}.
Arguments thirdAuthcode {_}.
Arguments thirdAuthStatus {_ _}.
Arguments exchangeForm {_}.
Arguments requestGiteeUserInfo {_}.
Arguments requestGiteeAccessToken {_}.
Arguments requestMallAccessToken {_}.
Arguments fetchAvatar {_}.
Arguments commitCallback {_}.
Arguments createUserWithRespAndTx {_}.
Arguments provision {_}.
Arguments storeLoginResult {_ _}.
Arguments loginExisting {_}.
Arguments giteeOAuth {_ _}.
Arguments mallOAuth {_ _}.
Arguments pushToServers {_}.
Arguments Push {_}.

(** ** Observations on a run *)

(** The calls a function makes when run on [w], in order. *)
Definition calls {L R} (body : Handler L R R) (w : World L) : list (Event L) :=
  drop (length (trace w)) (trace (snd (run body w))).

(** What a list of calls wrote on the gin context. *)
Definition replies {L} (evs : list (Event L)) : list (Reply L) :=
  omap (λ e, match e with Respond r => Some r | _ => None end) evs.

(** The function returns [r] when run on [w]. *)
Definition returns {L R} (body : Handler L R R) (w : World L) (r : R) : Prop :=
  fst (run body w) = Finished r.

(** The external identity a callback has resolved, as it uses it: the
    login that links the account, the name, the avatar's URL and the row for
    the gitee table. *)
Record Profile : Type := {
  login : string; name : string; avatar : string; row : gitUserInfoModel.t;
  provider : string }.

Definition giteeProfile (userInfo : giteeUserInfo.t) : Profile :=
  {| login := giteeUserInfo.Login userInfo;
     name := if String.eqb (TrimSpace (giteeUserInfo.Name userInfo)) ""
             then giteeUserInfo.Login userInfo
             else giteeUserInfo.Name userInfo;
     avatar := giteeUserInfo.AvatarURL userInfo;
     row := giteeUserInfo_toModel userInfo;
     provider := "gitee" |}.

Definition mallProfile (userInfo : MallUser.t) : Profile :=
  {| login := MallUser.UserID userInfo;
     name := MallUser.UserID userInfo;
     avatar := MallUser.Photo userInfo;
     row := MallUser_toModel userInfo;
     provider := "mall" |}.

(** The callback [callback], run on [w] for the request [c], gets through
    the provider and resolves the profile [p]. *)
Inductive Resolves {L} `{!Json L} (env : Env L) (c : Context) (w : World L)
    : (Context → Handler L unit unit) → Profile → Prop :=
| Resolves_gitee tok userInfo :
    Query c "code" ≠ "" →
    returns (requestGiteeAccessToken env (Query c "code")) w (tok, None) →
    returns (requestGiteeUserInfo env tok) w (Some userInfo, None) →
    Resolves env c w (giteeOAuth env) (giteeProfile userInfo)
| Resolves_mall userInfo :
    Query c "token" ≠ "" →
    returns (requestMallAccessToken env (Query c "token") (Query c "env")) w
            (Some userInfo, None) →
    Resolves env c w (mallOAuth env) (mallProfile userInfo).

(** The callback does not get through the provider: the token exchange or
    the fetch of the profile returns the error [e], or the profile decodes
    to nil. *)
Inductive ResolveFails {L} `{!Json L} (env : Env L) (c : Context) (w : World L)
    : (Context → Handler L unit unit) → error → Prop :=
| ExchangeFails tok e :
    Query c "code" ≠ "" →
    returns (requestGiteeAccessToken env (Query c "code")) w (tok, Some e) →
    ResolveFails env c w (giteeOAuth env) e
| ProfileFails tok userInfo e :
    Query c "code" ≠ "" →
    returns (requestGiteeAccessToken env (Query c "code")) w (tok, None) →
    returns (requestGiteeUserInfo env tok) w (userInfo, Some e) →
    ResolveFails env c w (giteeOAuth env) e
| ProfileMissing tok :
    Query c "code" ≠ "" →
    returns (requestGiteeAccessToken env (Query c "code")) w (tok, None) →
    returns (requestGiteeUserInfo env tok) w (None, None) →
    ResolveFails env c w (giteeOAuth env) "获取gitee用户信息失败"
| MallFails userInfo e :
    Query c "token" ≠ "" →
    returns (requestMallAccessToken env (Query c "token") (Query c "env")) w
            (userInfo, Some e) →
    ResolveFails env c w (mallOAuth env) e.

(** The account a callback asks to create for a profile. *)
Definition newAccount {L} (env : Env L) (p : Profile) (isUploadAvatar : Z)
    : createUserModel.t :=
  {| createUserModel.UID := util_GenerUUID env;
     createUserModel.Zone := "";
     createUserModel.Phone := "";
     createUserModel.Password := "";
     createUserModel.Name := name p;
     createUserModel.GiteeUID := login p;
     createUserModel.Flag := uint8 (config_APP env);
     createUserModel.IsUploadAvatar := isUploadAvatar |}.

(** The path under which the avatar of [uid] is uploaded. *)
Definition avatarPath {L} (env : Env L) (uid : string) : string :=
  "avatar/"
  ++ fmt_d (ChecksumIEEE uid mod uint32 (Avatar_Partition (cfg env)))
  ++ "/" ++ uid ++ ".png".

(** The key of an authcode in the Redis connection. *)
Definition authKey (authcode : string) : string :=
  ThirdAuthcodePrefix ++ authcode.

(** The phases of a callback that creates an account, by its calls:
    resolving the profile, fetching the avatar, the deferred calls that
    close what was opened, and the rest (the transaction, the store, the
    response). *)
Inductive Phase : Type := Resolution | AvatarFetch | Closing | Rest.

Definition phase {L} (e : Event L) : Phase :=
  match e with
  | HttpPostForm _ _ | HttpGet _ | HttpDo _ _ _ | CloseBody
  | DBQueryWithGiteeUID _ | SpanStart _ | SpanSetTag _ _ => Resolution
  | DownloadImage _ _ | UploadFile _ _ _ => AvatarFetch
  | CloseImage | SpanFinish _ => Closing
  | _ => Rest
  end.

(** The avatar pipeline fails: the download gives nothing (an error or the
    deadline), or the upload returns an error. *)
Definition avatarFails {L} (env : Env L) (url uid : string) : Prop :=
  fileService_DownloadImage env url = None
  ∨ ∃ img e,
      fileService_DownloadImage env url = Some img
      ∧ uint32 (Avatar_Partition (cfg env)) ≠ 0
      ∧ fileService_UploadFile env (avatarPath env uid) "image/png" img = Some e.

(** The statements of a callback from the transaction on, and from the
    avatar on. *)
Definition provisionAndStore {L} `{!Json L} (env : Env L) (provider : string)
    (row : gitUserInfoModel.t) (model : createUserModel.t) (authcode : string)
    : Handler L unit unit :=
  loginResp ← provision env provider row model;
  storeLoginResult env authcode loginResp.

Definition provisionWithAvatar {L} `{!Json L} (env : Env L) (p : Profile)
    (authcode : string) : Handler L unit unit :=
  loginResp ←
    (model ← fetchAvatar env (avatar p) (util_GenerUUID env) (newAccount env p 0);
     provision env (provider p) (row p) model);
  storeLoginResult env authcode loginResp.

(** What the transaction and the write of its result add to a trace [evs],
    starting at time [clock0] on the store [redis0] and ending at [clock']
    on [redis']. *)
Definition TailFacts {L} `{!Json L} (env : Env L) (row : gitUserInfoModel.t)
    (model : createUserModel.t) (authcode : string)
    (clock0 : Z) (redis0 : gmap string Redis.entry)
    (evs : list (Event L)) (clock' : Z) (redis' : gmap string Redis.entry)
    : Prop :=
  TxBegin ∈ evs
  ∧ (∀ m ip iv, CreateUserWithRespAndTx m ip iv ∈ evs → m = model)
  ∧ (∀ e, e ∈ evs → phase e = Rest)
  ∧ (db_Begin env = None → giteeDB_insertTx env row = None →
       CreateUserWithRespAndTx model (util_GetClientPublicIP env) "" ∈ evs)
  ∧ (db_Begin env = None → giteeDB_insertTx env row = None →
     ∀ r, user_createUserWithRespAndTx env model (util_GetClientPublicIP env)
            = {| calls_commit := true; created := Ok (Some r) |} →
          tx_Commit env = None → redis_SetAndExpire_err env = None →
          TxCommit ∈ evs ∧ (TxRollback ∉ evs)
          ∧ clock' = clock0 + Second * 3
          ∧ redis' = <[authKey authcode := Redis.Entry (ToJson r)
                         (clock0 + Minute * 1)]> redis0).

(** [w] with more calls on its trace. *)
Definition logged {L} (evs : list (Event L)) (w : World L) : World L :=
  {| clock := clock w; redis := redis w; trace := trace w ++ evs |}.


(** ** A concrete instance

    A login result of two fields with its JSON text, and an environment in
    which every collaborator answers; the properties below are instantiated
    on them. *)

Module Demo.

Record session : Type := Session { uid : string; token : string }.

Definition quote : string := String (ascii_of_nat 34) EmptyString.

Definition encode (s : session) : string :=
  "{" ++ quote ++ "uid" ++ quote ++ ":" ++ quote ++ uid s ++ quote ++ ","
  ++ quote ++ "token" ++ quote ++ ":" ++ quote ++ token s ++ quote ++ "}".

(** [s] without the prefix [p]. *)
Fixpoint strip (p s : string) : option string :=
  match p, s with
  | EmptyString, _ => Some s
  | String a p', String b s' => if Ascii.eqb a b then strip p' s' else None
  | _, _ => None
  end.

(** [s] cut at its first quotation mark. *)
Fixpoint cut (s : string) : option (string * string) :=
  match s with
  | EmptyString => None
  | String ch r =>
      if Ascii.eqb ch (ascii_of_nat 34) then Some (EmptyString, r)
      else '(a, b) ← cut r; Some (String ch a, b)
  end.

Definition decode (s : string) : Result (option session) :=
  if String.eqb s "null" then Ok None else
  match (r ← strip ("{" ++ quote ++ "uid" ++ quote ++ ":" ++ quote) s;
         '(u, r) ← cut r;
         r ← strip ("," ++ quote ++ "token" ++ quote ++ ":" ++ quote) r;
         '(t, r) ← cut r;
         if String.eqb r "}" then Some (Session u t) else None) with
  | Some v => Ok (Some v)
  | None => Err "invalid character"
  end.

#[global] Instance session_json : Json session :=
  {| ToJson := encode; ReadJsonByByte := decode |}.

Definition config : Config :=
  {| External_APIBaseURL := "https://api.example.org";
     Gitee_ClientID := "client"; Gitee_ClientSecret := "secret";
     Avatar_Partition := 100 |}.

Definition alice : giteeUserInfo.t :=
  {| giteeUserInfo.AvatarURL := "https://gitee.example/alice.png";
     giteeUserInfo.Bio := ""; giteeUserInfo.Blog := "";
     giteeUserInfo.CreatedAt := "2020-01-01"; giteeUserInfo.Email := "";
     giteeUserInfo.EventsURL := ""; giteeUserInfo.Followers := 0;
     giteeUserInfo.FollowersURL := ""; giteeUserInfo.Following := 0;
     giteeUserInfo.FollowingURL := ""; giteeUserInfo.GistsURL := "";
     giteeUserInfo.HtmlURL := ""; giteeUserInfo.ID := 7;
     giteeUserInfo.Login := "alice"; giteeUserInfo.MemberRole := "";
     giteeUserInfo.Name := "Alice"; giteeUserInfo.OrganizationsURL := "";
     giteeUserInfo.PublicGists := 0; giteeUserInfo.PublicRepos := 0;
     giteeUserInfo.ReceivedEventsURL := ""; giteeUserInfo.Remark := "";
     giteeUserInfo.ReposURL := ""; giteeUserInfo.Stared := 0;
     giteeUserInfo.StarredURL := ""; giteeUserInfo.SubscriptionsURL := "";
     giteeUserInfo.Type_ := "User"; giteeUserInfo.UpdatedAt := "2020-01-02";
     giteeUserInfo.URL := ""; giteeUserInfo.Watched := 0;
     giteeUserInfo.Weibo := "" |}.

Definition bob : MallUser.t :=
  {| MallUser.ID := 9; MallUser.UserID := "bob"; MallUser.Nickname := None;
     MallUser.Description := None; MallUser.Gender := "m";
     MallUser.Birthday := None;
     MallUser.Photo := "https://mall.example/bob.png";
     MallUser.PhoneNumber := None; MallUser.Email := "";
     MallUser.ThirdPartyEmail := None; MallUser.SignUpType := 0;
     MallUser.Platform := "IM"; MallUser.GoogleUsername := None;
     MallUser.AppleUsername := None; MallUser.CreateTime := "2021-01-01";
     MallUser.UserType := 0; MallUser.Deleted := 0; MallUser.Status := 0 |}.

(** A gitee user with the provider's placeholder portrait, and a mall user
    without a photo. *)
Definition faceless : giteeUserInfo.t :=
  {| giteeUserInfo.AvatarURL := "https://gitee.com/assets/no_portrait.png";
     giteeUserInfo.Bio := ""; giteeUserInfo.Blog := "";
     giteeUserInfo.CreatedAt := "2020-01-01"; giteeUserInfo.Email := "";
     giteeUserInfo.EventsURL := ""; giteeUserInfo.Followers := 0;
     giteeUserInfo.FollowersURL := ""; giteeUserInfo.Following := 0;
     giteeUserInfo.FollowingURL := ""; giteeUserInfo.GistsURL := "";
     giteeUserInfo.HtmlURL := ""; giteeUserInfo.ID := 8;
     giteeUserInfo.Login := "carol"; giteeUserInfo.MemberRole := "";
     giteeUserInfo.Name := "   "; giteeUserInfo.OrganizationsURL := "";
     giteeUserInfo.PublicGists := 0; giteeUserInfo.PublicRepos := 0;
     giteeUserInfo.ReceivedEventsURL := ""; giteeUserInfo.Remark := "";
     giteeUserInfo.ReposURL := ""; giteeUserInfo.Stared := 0;
     giteeUserInfo.StarredURL := ""; giteeUserInfo.SubscriptionsURL := "";
     giteeUserInfo.Type_ := "User"; giteeUserInfo.UpdatedAt := "2020-01-02";
     giteeUserInfo.URL := ""; giteeUserInfo.Watched := 0;
     giteeUserInfo.Weibo := "" |}.

Definition photoless : MallUser.t :=
  {| MallUser.ID := 10; MallUser.UserID := "dave"; MallUser.Nickname := None;
     MallUser.Description := None; MallUser.Gender := "m";
     MallUser.Birthday := None; MallUser.Photo := "";
     MallUser.PhoneNumber := None; MallUser.Email := "";
     MallUser.ThirdPartyEmail := None; MallUser.SignUpType := 0;
     MallUser.Platform := "IM"; MallUser.GoogleUsername := None;
     MallUser.AppleUsername := None; MallUser.CreateTime := "2021-01-01";
     MallUser.UserType := 0; MallUser.Deleted := 0; MallUser.Status := 0 |}.

(** Every collaborator answers; nobody is linked yet. *)
Definition fair : Env session :=
  {| cfg := config;
     config_APP := 0;
     util_GenerUUID := "abc123";
     util_GetClientPublicIP := "203.0.113.5";
     redis_GetString_err := None;
     redis_SetAndExpire_err := None;
     redis_Del_err := None;
     network_PostForWWWForm := λ _ _, Ok (<["access_token" := IString "tok"]> ∅);
     network_Get := λ _, Ok {| StatusCode := 200; Body := "{}" |};
     json_giteeUserInfo := λ _, Ok (Some alice);
     http_Do := λ _ _, Ok (Ok "{}");
     json_MallResponse := λ _,
       Ok (MallResponse.Build 200 "ok" bob "" INil true);
     db_queryWithGiteeUID := λ _, Ok None;
     user_execLogin := λ m _, Ok (Some (Session (Model.UID m) "t0"));
     fileService_DownloadImage := λ _, Some "PNG";
     fileService_UploadFile := λ _ _ _, None;
     db_Begin := None;
     giteeDB_insertTx := λ _, None;
     user_createUserWithRespAndTx := λ m _,
       {| calls_commit := true;
          created := Ok (Some (Session (createUserModel.UID m) "t1")) |};
     tx_Commit := None;
     http_Post := λ _ _ _ _, (Some {| StatusCode := 200; Body := "" |}, None) |}.

(** [e] with other answers for some of the collaborators. *)
Definition with_exchange (f : Result (gmap string iface)) (e : Env session)
    : Env session :=
  {| cfg := cfg e; config_APP := config_APP e;
     util_GenerUUID := util_GenerUUID e;
     util_GetClientPublicIP := util_GetClientPublicIP e;
     redis_GetString_err := redis_GetString_err e;
     redis_SetAndExpire_err := redis_SetAndExpire_err e;
     redis_Del_err := redis_Del_err e;
     network_PostForWWWForm := λ _ _, f;
     network_Get := network_Get e;
     json_giteeUserInfo := json_giteeUserInfo e;
     http_Do := http_Do e; json_MallResponse := json_MallResponse e;
     db_queryWithGiteeUID := db_queryWithGiteeUID e;
     user_execLogin := user_execLogin e;
     fileService_DownloadImage := fileService_DownloadImage e;
     fileService_UploadFile := fileService_UploadFile e;
     db_Begin := db_Begin e; giteeDB_insertTx := giteeDB_insertTx e;
     user_createUserWithRespAndTx := user_createUserWithRespAndTx e;
     tx_Commit := tx_Commit e; http_Post := http_Post e |}.

Definition with_profile (f : Result HttpResponse) (e : Env session)
    : Env session :=
  {| cfg := cfg e; config_APP := config_APP e;
     util_GenerUUID := util_GenerUUID e;
     util_GetClientPublicIP := util_GetClientPublicIP e;
     redis_GetString_err := redis_GetString_err e;
     redis_SetAndExpire_err := redis_SetAndExpire_err e;
     redis_Del_err := redis_Del_err e;
     network_PostForWWWForm := network_PostForWWWForm e;
     network_Get := λ _, f;
     json_giteeUserInfo := json_giteeUserInfo e;
     http_Do := http_Do e; json_MallResponse := json_MallResponse e;
     db_queryWithGiteeUID := db_queryWithGiteeUID e;
     user_execLogin := user_execLogin e;
     fileService_DownloadImage := fileService_DownloadImage e;
     fileService_UploadFile := fileService_UploadFile e;
     db_Begin := db_Begin e; giteeDB_insertTx := giteeDB_insertTx e;
     user_createUserWithRespAndTx := user_createUserWithRespAndTx e;
     tx_Commit := tx_Commit e; http_Post := http_Post e |}.

Definition with_linked (m : Model.t) (e : Env session) : Env session :=
  {| cfg := cfg e; config_APP := config_APP e;
     util_GenerUUID := util_GenerUUID e;
     util_GetClientPublicIP := util_GetClientPublicIP e;
     redis_GetString_err := redis_GetString_err e;
     redis_SetAndExpire_err := redis_SetAndExpire_err e;
     redis_Del_err := redis_Del_err e;
     network_PostForWWWForm := network_PostForWWWForm e;
     network_Get := network_Get e;
     json_giteeUserInfo := json_giteeUserInfo e;
     http_Do := http_Do e; json_MallResponse := json_MallResponse e;
     db_queryWithGiteeUID := λ _, Ok (Some m);
     user_execLogin := user_execLogin e;
     fileService_DownloadImage := fileService_DownloadImage e;
     fileService_UploadFile := fileService_UploadFile e;
     db_Begin := db_Begin e; giteeDB_insertTx := giteeDB_insertTx e;
     user_createUserWithRespAndTx := user_createUserWithRespAndTx e;
     tx_Commit := tx_Commit e; http_Post := http_Post e |}.

Definition with_avatar (download : option Image) (upload : option error)
    (e : Env session) : Env session :=
  {| cfg := cfg e; config_APP := config_APP e;
     util_GenerUUID := util_GenerUUID e;
     util_GetClientPublicIP := util_GetClientPublicIP e;
     redis_GetString_err := redis_GetString_err e;
     redis_SetAndExpire_err := redis_SetAndExpire_err e;
     redis_Del_err := redis_Del_err e;
     network_PostForWWWForm := network_PostForWWWForm e;
     network_Get := network_Get e;
     json_giteeUserInfo := json_giteeUserInfo e;
     http_Do := http_Do e; json_MallResponse := json_MallResponse e;
     db_queryWithGiteeUID := db_queryWithGiteeUID e;
     user_execLogin := user_execLogin e;
     fileService_DownloadImage := λ _, download;
     fileService_UploadFile := λ _ _ _, upload;
     db_Begin := db_Begin e; giteeDB_insertTx := giteeDB_insertTx e;
     user_createUserWithRespAndTx := user_createUserWithRespAndTx e;
     tx_Commit := tx_Commit e; http_Post := http_Post e |}.

Definition with_profile_of (g : giteeUserInfo.t) (u : MallUser.t)
    (e : Env session) : Env session :=
  {| cfg := cfg e; config_APP := config_APP e;
     util_GenerUUID := util_GenerUUID e;
     util_GetClientPublicIP := util_GetClientPublicIP e;
     redis_GetString_err := redis_GetString_err e;
     redis_SetAndExpire_err := redis_SetAndExpire_err e;
     redis_Del_err := redis_Del_err e;
     network_PostForWWWForm := network_PostForWWWForm e;
     network_Get := network_Get e;
     json_giteeUserInfo := λ _, Ok (Some g);
     http_Do := http_Do e;
     json_MallResponse := λ _, Ok (MallResponse.Build 200 "ok" u "" INil true);
     db_queryWithGiteeUID := db_queryWithGiteeUID e;
     user_execLogin := user_execLogin e;
     fileService_DownloadImage := fileService_DownloadImage e;
     fileService_UploadFile := fileService_UploadFile e;
     db_Begin := db_Begin e; giteeDB_insertTx := giteeDB_insertTx e;
     user_createUserWithRespAndTx := user_createUserWithRespAndTx e;
     tx_Commit := tx_Commit e; http_Post := http_Post e |}.

Definition with_post
    (f : nat → option HttpResponse * option error) (e : Env session)
    : Env session :=
  {| cfg := cfg e; config_APP := config_APP e;
     util_GenerUUID := util_GenerUUID e;
     util_GetClientPublicIP := util_GetClientPublicIP e;
     redis_GetString_err := redis_GetString_err e;
     redis_SetAndExpire_err := redis_SetAndExpire_err e;
     redis_Del_err := redis_Del_err e;
     network_PostForWWWForm := network_PostForWWWForm e;
     network_Get := network_Get e;
     json_giteeUserInfo := json_giteeUserInfo e;
     http_Do := http_Do e; json_MallResponse := json_MallResponse e;
     db_queryWithGiteeUID := db_queryWithGiteeUID e;
     user_execLogin := user_execLogin e;
     fileService_DownloadImage := fileService_DownloadImage e;
     fileService_UploadFile := fileService_UploadFile e;
     db_Begin := db_Begin e; giteeDB_insertTx := giteeDB_insertTx e;
     user_createUserWithRespAndTx := user_createUserWithRespAndTx e;
     tx_Commit := tx_Commit e; http_Post := λ n _ _ _, f n |}.

(** The first push server answers with an error, the others accept. *)
Definition second_server_up : Env session :=
  with_post (λ n, match n with
                  | O => (Some {| StatusCode := 502; Body := "" |},
                          Some "redirect loop")
                  | _ => (Some {| StatusCode := 200; Body := "" |}, None)
                  end) fair.

(** A request with the given query parameters. *)
Definition request (l : list (string * string)) : Context :=
  {| params := list_to_map l |}.

(** A world at time zero whose store holds [val] for the authcode "abc123"
    until [deadline]. *)
Definition holding (val : string) (deadline : Z) : World session :=
  {| clock := 0;
     redis := <[authKey "abc123" := Redis.Entry val deadline]> ∅;
     trace := [] |}.

Definition nothing : World session := {| clock := 0; redis := ∅; trace := [] |}.

End Demo.

(** ** What a function may call

    Classes of calls, to say of a function what it never does. *)

(** The calls of a poll: the store is read and a key deleted, never written. *)
Definition pollCall {L} (e : Event L) : bool :=
  match e with
  | Log _ | Respond _ | RedisGetString _ | RedisDel _ => true
  | _ => false
  end.

(** The calls of a callback: the store is written, never read or deleted
    from, and no push is sent. *)
Definition callbackCall {L} (e : Event L) : bool :=
  match e with
  | RedisGetString _ | RedisDel _ | HttpPost _ _ _ => false
  | _ => true
  end.

(** The calls of a push. *)
Definition pushCall {L} (e : Event L) : bool :=
  match e with
  | Log _ | RedisGetString _ | RedisSetAndExpire _ _ _ | HttpPost _ _ _
  | CloseBody => true
  | _ => false
  end.

(** A deferred call stays within [ok]; the transaction guard may roll back. *)
Definition deferredWithin {L} (ok : Event L → bool) (d : Deferred L) : bool :=
  match d with
  | DeferCall e => ok e
  | DeferRecoverRollback => ok TxRollback
  end.

(** The frame [fr'] comes from [fr] by calls within [ok], made or deferred,
    and their stores differ at most under [key]. *)
Definition only {L} (ok : Event L → bool) (key : string) (fr fr' : Frame L)
    : Prop :=
  (∃ evs : list (Event L),
     trace (world fr') = (trace (world fr) ++ evs)%list
     ∧ Forall (λ e, ok e = true) evs)
  ∧ (∃ ds : list (Deferred L),
       pending fr' = (ds ++ pending fr)%list
       ∧ Forall (λ d, deferredWithin ok d = true) ds)
  ∧ ∀ k : string, k ≠ key →
      redis (world fr') !! k = redis (world fr) !! k.

(** Every run of the statements [h] stays within [ok] and [key]. *)
Definition keeps {L R A} (ok : Event L → bool) (key : string)
    (h : Handler L R A) : Prop :=
  ∀ fr, only ok key fr (h fr).2.

(** ** More observations on a run *)

(** The guard of the callbacks on the avatar's URL. *)
Definition hasAvatar (url : string) : bool :=
  negb (String.eqb url "") && negb (HasSuffix url "no_portrait.png").

(** The avatar pipeline comes to an end: there is nothing to fetch, or the
    download gives nothing, or the partition count is not zero. *)
Definition avatarSettles {L} (env : Env L) (url : string) : Prop :=
  hasAvatar url = false
  ∨ fileService_DownloadImage env url = None
  ∨ uint32 (Avatar_Partition (cfg env)) ≠ 0.

(** The avatar is downloaded and uploaded. *)
Definition avatarStored {L} (env : Env L) (url uid : string) (img : Image)
    : Prop :=
  hasAvatar url = true
  ∧ fileService_DownloadImage env url = Some img
  ∧ uint32 (Avatar_Partition (cfg env)) ≠ 0
  ∧ fileService_UploadFile env (avatarPath env uid) "image/png" img = None.

(** The transaction of a new account fails with the message [msg], before
    the account is committed: at its begin, at the insertion of the linked
    record (rolled back), or in the creation of the account (rolled back). *)
Inductive StorageFails {L} (env : Env L) (p : Profile) : error → bool → Prop :=
| BeginFails e :
    db_Begin env = Some e →
    StorageFails env p "开启事务失败！" false
| InsertFails e :
    db_Begin env = None →
    giteeDB_insertTx env (row p) = Some e →
    StorageFails env p ("插入" ++ provider p ++ " user失败！") true
| CreateFails e :
    db_Begin env = None →
    giteeDB_insertTx env (row p) = None →
    (∀ flag, user_createUserWithRespAndTx env (newAccount env p flag)
               (util_GetClientPublicIP env)
             = {| calls_commit := false; created := Err e |}) →
    StorageFails env p e true.

(** The transaction gets to the creation of the account, which runs the
    commit callback and returns the login result [r], whatever the avatar. *)
Definition CreatesAccount {L} (env : Env L) (p : Profile) (r : L) : Prop :=
  db_Begin env = None
  ∧ giteeDB_insertTx env (row p) = None
  ∧ ∀ flag, user_createUserWithRespAndTx env (newAccount env p flag)
              (util_GetClientPublicIP env)
            = {| calls_commit := true; created := Ok (Some r) |}.

(** The calls of one request of [Push] to a server, and the calls of
    requests that all come back with a response and an error. *)
Definition attempt {L} (uid content server : string) : list (Event L) :=
  [Log "echooo inner Push server";
   HttpPost (pushURL server) "application/json" (pushRequest uid content)].

Definition failedAttempts {L} (uid content : string) (servers : list string)
    : list (Event L) :=
  flat_map (λ server, attempt uid content server
                      ++ [Log "Error reading response body:"])%list servers.

(** The URLs a list of calls has posted to, in order. *)
Definition posted {L} (evs : list (Event L)) : list string :=
  omap (λ e, match e with HttpPost url _ _ => Some url | _ => None end) evs.

(** ** More concrete instances

    The environment of [Demo] with other answers of the store, of the login,
    of the lookup of the link, of the transaction, and another partition
    count. *)

Module Cases.
Import Demo.

Definition with_redis (get set del : option error) (e : Env session)
    : Env session :=
  {| cfg := cfg e; config_APP := config_APP e;
     util_GenerUUID := util_GenerUUID e;
     util_GetClientPublicIP := util_GetClientPublicIP e;
     redis_GetString_err := get; redis_SetAndExpire_err := set;
     redis_Del_err := del; network_PostForWWWForm := network_PostForWWWForm e;
     network_Get := network_Get e; json_giteeUserInfo := json_giteeUserInfo e;
     http_Do := http_Do e; json_MallResponse := json_MallResponse e;
     db_queryWithGiteeUID := db_queryWithGiteeUID e;
     user_execLogin := user_execLogin e;
     fileService_DownloadImage := fileService_DownloadImage e;
     fileService_UploadFile := fileService_UploadFile e;
     db_Begin := db_Begin e; giteeDB_insertTx := giteeDB_insertTx e;
     user_createUserWithRespAndTx := user_createUserWithRespAndTx e;
     tx_Commit := tx_Commit e; http_Post := http_Post e |}.

Definition with_login (f : Result (option session)) (e : Env session)
    : Env session :=
  {| cfg := cfg e; config_APP := config_APP e;
     util_GenerUUID := util_GenerUUID e;
     util_GetClientPublicIP := util_GetClientPublicIP e;
     redis_GetString_err := redis_GetString_err e;
     redis_SetAndExpire_err := redis_SetAndExpire_err e;
     redis_Del_err := redis_Del_err e;
     network_PostForWWWForm := network_PostForWWWForm e;
     network_Get := network_Get e; json_giteeUserInfo := json_giteeUserInfo e;
     http_Do := http_Do e; json_MallResponse := json_MallResponse e;
     db_queryWithGiteeUID := db_queryWithGiteeUID e;
     user_execLogin := λ _ _, f;
     fileService_DownloadImage := fileService_DownloadImage e;
     fileService_UploadFile := fileService_UploadFile e;
     db_Begin := db_Begin e; giteeDB_insertTx := giteeDB_insertTx e;
     user_createUserWithRespAndTx := user_createUserWithRespAndTx e;
     tx_Commit := tx_Commit e; http_Post := http_Post e |}.

Definition with_lookup (f : Result (option Model.t)) (e : Env session)
    : Env session :=
  {| cfg := cfg e; config_APP := config_APP e;
     util_GenerUUID := util_GenerUUID e;
     util_GetClientPublicIP := util_GetClientPublicIP e;
     redis_GetString_err := redis_GetString_err e;
     redis_SetAndExpire_err := redis_SetAndExpire_err e;
     redis_Del_err := redis_Del_err e;
     network_PostForWWWForm := network_PostForWWWForm e;
     network_Get := network_Get e; json_giteeUserInfo := json_giteeUserInfo e;
     http_Do := http_Do e; json_MallResponse := json_MallResponse e;
     db_queryWithGiteeUID := λ _, f; user_execLogin := user_execLogin e;
     fileService_DownloadImage := fileService_DownloadImage e;
     fileService_UploadFile := fileService_UploadFile e;
     db_Begin := db_Begin e; giteeDB_insertTx := giteeDB_insertTx e;
     user_createUserWithRespAndTx := user_createUserWithRespAndTx e;
     tx_Commit := tx_Commit e; http_Post := http_Post e |}.

Definition with_storage (begin insert commit : option error) (e : Env session)
    : Env session :=
  {| cfg := cfg e; config_APP := config_APP e;
     util_GenerUUID := util_GenerUUID e;
     util_GetClientPublicIP := util_GetClientPublicIP e;
     redis_GetString_err := redis_GetString_err e;
     redis_SetAndExpire_err := redis_SetAndExpire_err e;
     redis_Del_err := redis_Del_err e;
     network_PostForWWWForm := network_PostForWWWForm e;
     network_Get := network_Get e; json_giteeUserInfo := json_giteeUserInfo e;
     http_Do := http_Do e; json_MallResponse := json_MallResponse e;
     db_queryWithGiteeUID := db_queryWithGiteeUID e;
     user_execLogin := user_execLogin e;
     fileService_DownloadImage := fileService_DownloadImage e;
     fileService_UploadFile := fileService_UploadFile e; db_Begin := begin;
     giteeDB_insertTx := λ _, insert;
     user_createUserWithRespAndTx := user_createUserWithRespAndTx e;
     tx_Commit := commit; http_Post := http_Post e |}.

Definition with_partition (n : Z) (e : Env session)
    : Env session :=
  {| cfg := {| External_APIBaseURL := External_APIBaseURL (cfg e);
            Gitee_ClientID := Gitee_ClientID (cfg e);
            Gitee_ClientSecret := Gitee_ClientSecret (cfg e);
            Avatar_Partition := n |};
     config_APP := config_APP e; util_GenerUUID := util_GenerUUID e;
     util_GetClientPublicIP := util_GetClientPublicIP e;
     redis_GetString_err := redis_GetString_err e;
     redis_SetAndExpire_err := redis_SetAndExpire_err e;
     redis_Del_err := redis_Del_err e;
     network_PostForWWWForm := network_PostForWWWForm e;
     network_Get := network_Get e; json_giteeUserInfo := json_giteeUserInfo e;
     http_Do := http_Do e; json_MallResponse := json_MallResponse e;
     db_queryWithGiteeUID := db_queryWithGiteeUID e;
     user_execLogin := user_execLogin e;
     fileService_DownloadImage := fileService_DownloadImage e;
     fileService_UploadFile := fileService_UploadFile e;
     db_Begin := db_Begin e; giteeDB_insertTx := giteeDB_insertTx e;
     user_createUserWithRespAndTx := user_createUserWithRespAndTx e;
     tx_Commit := tx_Commit e; http_Post := http_Post e |}.

End Cases.

(** ** Go's [unicode/utf8] and [encoding/json] on strings *)

Module Utf8.
Local Open Scope Z_scope.

Definition byte (c : ascii) : Z := Z.of_N (N_of_ascii c).
Definition chr (z : Z) : ascii := ascii_of_N (Z.to_N z).
Definition bytes (l : list Z) : string := string_of_list_ascii (map chr l).

Definition RuneError : Z := 65533.

(** [s[:n]] and [s[n:]], for [n] up to the length. *)
Fixpoint keep (n : nat) (s : string) : string :=
  match n, s with
  | S n, String c r => String c (keep n r)
  | _, _ => EmptyString
  end.

Fixpoint skip (n : nat) (s : string) : string :=
  match n, s with
  | S n, String _ r => skip n r
  | _, _ => s
  end.

Definition inRange (lo hi : Z) (c : ascii) : bool :=
  (lo <=? byte c) && (byte c <=? hi).

(** [utf8.DecodeRuneInString], its width: the number of bytes of the
    well-formed sequence [s] starts with.  The result [(RuneError, 1)], for
    a first byte that starts no well-formed sequence, is the width 0 here
    (as is the empty string).  The tables [first] and [acceptRanges] are
    written out as the tests on the first and on the second byte. *)
Definition width (s : string) : nat :=
  match s with
  | EmptyString => 0%nat
  | String c0 r0 =>
      let b0 := byte c0 in
      if b0 <? 128 then 1%nat
      else if b0 <? 194 then 0%nat
      else if b0 <? 224 then
        match r0 with
        | String c1 _ => if inRange 128 191 c1 then 2%nat else 0%nat
        | _ => 0%nat
        end
      else if b0 <? 240 then
        match r0 with
        | String c1 (String c2 _) =>
            let lo := if b0 =? 224 then 160 else 128 in
            let hi := if b0 =? 237 then 159 else 191 in
            if inRange lo hi c1 && inRange 128 191 c2 then 3%nat else 0%nat
        | _ => 0%nat
        end
      else if b0 <? 245 then
        match r0 with
        | String c1 (String c2 (String c3 _)) =>
            let lo := if b0 =? 240 then 144 else 128 in
            let hi := if b0 =? 244 then 143 else 191 in
            if inRange lo hi c1 && inRange 128 191 c2 && inRange 128 191 c3
            then 4%nat else 0%nat
        | _ => 0%nat
        end
      else 0%nat
  end.

(** What a loop over a string meets, rune by rune: an ASCII byte, a
    well-formed sequence of two to four bytes, or a byte that starts none
    ([RuneError] of width 1). *)
Inductive rune : Type :=
| One (c : ascii)
| Many (enc : string)
| Bad (c : ascii).

Fixpoint runes_go (fuel : nat) (s : string) : list rune :=
  match fuel with
  | O => []
  | S fuel =>
      match s with
      | EmptyString => []
      | String c r =>
          if byte c <? 128 then One c :: runes_go fuel r
          else match width s with
               | O => Bad c :: runes_go fuel r
               | n => Many (keep n s) :: runes_go fuel (skip n s)
               end
      end
  end.

Definition runes (s : string) : list rune := runes_go (String.length s) s.



(** [utf8.EncodeRune]: the surrogates and what is above U+10FFFF are
    written as [RuneError]. *)
Definition EncodeRune (r : Z) : string :=
  if (0 <=? r) && (r <=? 127) then bytes [r]
  else if (0 <=? r) && (r <=? 2047) then
    bytes [Z.lor 192 (Z.shiftr r 6); Z.lor 128 (Z.land r 63)]
  else if (r <? 0) || (1114111 <? r) || ((55296 <=? r) && (r <=? 57343)) then
    bytes [239; 191; 189]
  else if r <=? 65535 then
    bytes [Z.lor 224 (Z.shiftr r 12); Z.lor 128 (Z.land (Z.shiftr r 6) 63);
           Z.lor 128 (Z.land r 63)]
  else
    bytes [Z.lor 240 (Z.shiftr r 18); Z.lor 128 (Z.land (Z.shiftr r 12) 63);
           Z.lor 128 (Z.land (Z.shiftr r 6) 63); Z.lor 128 (Z.land r 63)].





End Utf8.

Module EncodingJson.
Import Utf8.
Local Open Scope Z_scope.

Definition dquote : ascii := chr 34.
Definition backslash : ascii := chr 92.

Definition hex (n : Z) : ascii :=
  nth (Z.to_nat n) (list_ascii_of_string "0123456789abcdef") "0"%char.

(** The table [htmlSafeSet]: the ASCII bytes from the space on, without the
    quotation mark, the backslash and the characters escaped for HTML. *)
Definition htmlSafe (b : Z) : bool :=
  (32 <=? b) && (b <? 128)
  && negb ((b =? 34) || (b =? 92) || (b =? 60) || (b =? 62) || (b =? 38)).

(** [appendString] with [escapeHTML], rune by rune: what it appends for a
    byte below [utf8.RuneSelf], for a byte that starts no well-formed
    sequence, and for a well-formed sequence (U+2028 and U+2029, the runes
    encoded E2 80 A8 and E2 80 A9, are escaped).  The backspace and the
    form feed are written with their short escapes, as from Go 1.22 on;
    before, they are written as the escapes of U+0008 and U+000C, which
    read back the same. *)
Definition appendByte (c : ascii) : string :=
  let b := byte c in
  if htmlSafe b then String c EmptyString
  else if (b =? 92) || (b =? 34) then String backslash (String c EmptyString)
  else if b =? 8 then String backslash "b"
  else if b =? 12 then String backslash "f"
  else if b =? 10 then String backslash "n"
  else if b =? 13 then String backslash "r"
  else if b =? 9 then String backslash "t"
  else String backslash
         ("u00" ++ String (hex (Z.shiftr b 4))
                     (String (hex (Z.land b 15)) EmptyString)).

Definition appendRune (r : rune) : string :=
  match r with
  | One c => appendByte c
  | Bad _ => String backslash "ufffd"
  | Many enc =>
      if String.eqb enc (bytes [226; 128; 168]) then String backslash "u2028"
      else if String.eqb enc (bytes [226; 128; 169]) then String backslash "u2029"
      else enc
  end.

(** The JSON text of a Go string. *)
Definition appendString (s : string) : string :=
  String dquote
    (fold_right (λ r t, appendRune r ++ t) (String dquote EmptyString)
       (runes s)).

Definition unhex (c : ascii) : option Z :=
  let b := byte c in
  if (48 <=? b) && (b <=? 57) then Some (b - 48)
  else if (97 <=? b) && (b <=? 102) then Some (b - 87)
  else if (65 <=? b) && (b <=? 70) then Some (b - 55)
  else None.

(** [getu4]: the number of the escape [\uXXXX] that [s] starts with, and
    what follows the escape. *)
Definition getu4 (s : string) : option (Z * string) :=
  match s with
  | String b (String u (String h1 (String h2 (String h3 (String h4 r))))) =>
      if (byte b =? 92) && (byte u =? 117) then
        d1 ← unhex h1; d2 ← unhex h2; d3 ← unhex h3; d4 ← unhex h4;
        Some (((d1 * 16 + d2) * 16 + d3) * 16 + d4, r)
      else None
  | _ => None
  end.

Definition push (b : string) (k : option (string * string))
    : option (string * string) :=
  '(t, r) ← k; Some (b ++ t, r).

(** A string literal from behind its opening quotation mark: the scanner's
    walk to the closing mark together with [unquoteBytes].  The result is
    the string and what follows the closing mark; there is none when the
    literal is not closed, holds a control character, or has an escape the
    scanner refuses.  A half of a surrogate pair that is not followed by
    the other half becomes U+FFFD, and so does a byte that starts no
    well-formed sequence ([DecodeRune] then [EncodeRune]: a well-formed
    sequence is copied). *)
Fixpoint unquote_go (fuel : nat) (s : string) : option (string * string) :=
  match fuel with
  | O => None
  | S fuel =>
      match s with
      | EmptyString => None
      | String c r =>
          let b := byte c in
          if b =? 34 then Some (EmptyString, r)
          else if b =? 92 then
            match r with
            | EmptyString => None
            | String e r' =>
                let x := byte e in
                if (x =? 34) || (x =? 92) || (x =? 47) then
                  push (String e EmptyString) (unquote_go fuel r')
                else if x =? 98 then push (bytes [8]) (unquote_go fuel r')
                else if x =? 102 then push (bytes [12]) (unquote_go fuel r')
                else if x =? 110 then push (bytes [10]) (unquote_go fuel r')
                else if x =? 114 then push (bytes [13]) (unquote_go fuel r')
                else if x =? 116 then push (bytes [9]) (unquote_go fuel r')
                else if x =? 117 then
                  match getu4 s with
                  | None => None
                  | Some (rr, r1) =>
                      if (55296 <=? rr) && (rr <? 57344) then
                        match getu4 r1 with
                        | Some (rr1, r2) =>
                            if (rr <? 56320) && (56320 <=? rr1) && (rr1 <? 57344)
                            then push (EncodeRune
                                         (Z.lor (Z.shiftl (rr - 55296) 10)
                                                (rr1 - 56320) + 65536))
                                      (unquote_go fuel r2)
                            else push (EncodeRune RuneError) (unquote_go fuel r1)
                        | None => push (EncodeRune RuneError) (unquote_go fuel r1)
                        end
                      else push (EncodeRune rr) (unquote_go fuel r1)
                  end
                else None
            end
          else if b <? 32 then None
          else if b <? 128 then push (String c EmptyString) (unquote_go fuel r)
          else match width s with
               | O => push (EncodeRune RuneError) (unquote_go fuel r)
               | n => push (keep n s) (unquote_go fuel (skip n s))
               end
      end
  end.

(** A string literal at the front of [s], with what follows it. *)
Definition readString (s : string) : option (string * string) :=
  match s with
  | String c r =>
      if byte c =? 34 then unquote_go (S (String.length r)) r else None
  | EmptyString => None
  end.


End EncodingJson.

(** ** The login result and its JSON text *)

Module LoginResult.
Import Utf8 EncodingJson.

(** Modelled from the spec: the login result, "a serializable session/login
    payload" of an account (the type [loginUserDetailResp] is not under
    src/), taken as the account's uid and the session's token. *)
Record t : Type := Build { UID : string; Token : string }.

Definition key (name : string) : string :=
  String dquote (name ++ String dquote EmptyString).

(** Modelled from the spec: [util.ToJson] (the util library is not under
    src/) on a login result, "a JSON-serialized login result": the text
    Go's [json.Marshal] writes for a struct of the two strings, tagged
    [uid] and [token]. *)
Definition Marshal (r : t) : string :=
  "{" ++ key "uid" ++ ":" ++ appendString (UID r)
  ++ "," ++ key "token" ++ ":" ++ appendString (Token r) ++ "}".





(** An environment for this login result: the collaborators of [Demo.fair],
    with a login result made of the account's uid. *)
Definition fair : Env t :=
  {| cfg := cfg Demo.fair; config_APP := config_APP Demo.fair;
     util_GenerUUID := util_GenerUUID Demo.fair;
     util_GetClientPublicIP := util_GetClientPublicIP Demo.fair;
     redis_GetString_err := None;
     redis_SetAndExpire_err := None;
     redis_Del_err := None;
     network_PostForWWWForm := network_PostForWWWForm Demo.fair;
     network_Get := network_Get Demo.fair;
     json_giteeUserInfo := json_giteeUserInfo Demo.fair;
     http_Do := http_Do Demo.fair;
     json_MallResponse := json_MallResponse Demo.fair;
     db_queryWithGiteeUID := db_queryWithGiteeUID Demo.fair;
     user_execLogin := λ m _, Ok (Some (Build (Model.UID m) "t0"));
     fileService_DownloadImage := fileService_DownloadImage Demo.fair;
     fileService_UploadFile := fileService_UploadFile Demo.fair;
     db_Begin := None; giteeDB_insertTx := λ _, None;
     user_createUserWithRespAndTx := λ m _,
       {| calls_commit := true;
          created := Ok (Some (Build (createUserModel.UID m) "t1")) |};
     tx_Commit := None; http_Post := http_Post Demo.fair |}.

(** A world at time zero whose store holds the pending mark for the
    authcode "abc123". *)
Definition pending : World t :=
  {| clock := 0;
     redis := <[authKey "abc123" := Redis.Entry "1" (5 * Minute)]> ∅;
     trace := [] |}.


End LoginResult.

(** * Properties *)

(** ** The Go library functions on examples *)

Example fmt_d_examples : fmt_d 401 = "401" ∧ fmt_d 0 = "0" ∧ fmt_d (-7) = "-7".
Proof. repeat split; reflexivity. Qed.

Example ChecksumIEEE_check : ChecksumIEEE "123456789" = 3421780262.
Proof. vm_compute. reflexivity. Qed.

Example HasSuffix_examples :
  HasSuffix "https://gitee.com/assets/no_portrait.png" "no_portrait.png" = true
  ∧ HasSuffix "a.png" "no_portrait.png" = false
  ∧ HasSuffix "no_portrait.png?x" "no_portrait.png" = false.
Proof. repeat split; reflexivity. Qed.

Example Split_comma_examples :
  Split_comma "a:1,b:2" = ["a:1"; "b:2"] ∧ Split_comma "a," = ["a"; ""]
  ∧ Split_comma "h" = ["h"].
Proof. repeat split; reflexivity. Qed.

Example TrimSpace_examples :
  TrimSpace "  a b  " = "a b" ∧ TrimSpace "　 " = "" ∧ TrimSpace "" = "".
Proof. repeat split; vm_compute; reflexivity. Qed.

Example decode_encode_example :
  Demo.decode (Demo.encode (Demo.Session "u1" "t")) = Ok (Some (Demo.Session "u1" "t")).
Proof. vm_compute. reflexivity. Qed.

(** ** Strings and the store *)

Lemma is_empty_spec (s : string) : is_empty s = true ↔ s = "".
Proof. destruct s; cbn; split; congruence. Qed.

Lemma is_empty_false (s : string) : s ≠ "" → is_empty s = false.
Proof. destruct s; cbn; congruence. Qed.

Lemma not_empty_false (s : string) : s = "" → not_empty s = false.
Proof. by intros ->. Qed.

Lemma not_empty_true (s : string) : s ≠ "" → not_empty s = true.
Proof. destruct s; cbn; congruence. Qed.

Lemma GetString_SetAndExpire (now now' : Z) db key v (ttl : Z) :
  now' < now + ttl →
  Redis.GetString now' (Redis.SetAndExpire now db key v ttl) key = v.
Proof.
  intros Hlt. unfold Redis.GetString, Redis.SetAndExpire.
  rewrite lookup_insert_eq. unfold Redis.live. cbn.
  destruct (Z.ltb_spec now' (now + ttl)); [done | lia].
Qed.

Lemma GetString_entry (now : Z) (db : gmap string Redis.entry) key v (dl : Z) :
  db !! key = Some (Redis.Entry v dl) → now < dl →
  Redis.GetString now db key = v.
Proof.
  intros Hk Hlt. unfold Redis.GetString. rewrite Hk. unfold Redis.live. cbn.
  destruct (Z.ltb_spec now dl); [done | lia].
Qed.

Lemma GetString_expired (now : Z) (db : gmap string Redis.entry) key v (dl : Z) :
  db !! key = Some (Redis.Entry v dl) → (dl <= now)%Z →
  Redis.GetString now db key = "".
Proof.
  intros Hk Hle. unfold Redis.GetString. rewrite Hk. unfold Redis.live. cbn.
  destruct (Z.ltb_spec now dl); [lia | done].
Qed.

Lemma GetString_Del (now : Z) db key :
  Redis.GetString now (Redis.Del db key) key = "".
Proof. unfold Redis.GetString, Redis.Del. by rewrite lookup_delete_eq. Qed.

Lemma GetString_lookup (now : Z) (db db' : gmap string Redis.entry) key :
  db' !! key = db !! key →
  Redis.GetString now db' key = Redis.GetString now db key.
Proof. unfold Redis.GetString. by intros ->. Qed.

(** ** Running the handlers *)

Ltac exec_unfold :=
  unfold finish, SetAndExpire, GetString, Del, Sleep, ResponseError, Response, String_,
    emit, defer, when, if_err, Return, panic, get_world, put_world,
    mbind, mret, Handler_bind, Handler_ret in *.

Section Properties.

Context {L : Type} {codec : Json L}.
Implicit Types (env : Env L) (w : World L) (c : Context).

Lemma calls_logged {R} (body : Handler L R R) w o (evs : list (Event L)) :
  run body w = (o, logged evs w) → calls body w = evs.
Proof. unfold calls. intros ->. cbn. apply drop_app_length. Qed.

Lemma calls_trace {R} (body : Handler L R R) w o w' (evs : list (Event L)) :
  run body w = (o, w') → trace w' = (trace w ++ evs)%list → calls body w = evs.
Proof. unfold calls. intros -> Ht. cbn. rewrite Ht. apply drop_app_length. Qed.

(** *** [thirdAuthStatus], by what it reads *)

Lemma thirdAuthStatus_GetString_error env c w e :
  redis_GetString_err env = Some e →
  run (thirdAuthStatus env c) w =
    (Finished tt,
     logged [RedisGetString (authKey (Query c "authcode"));
             Log "获取登录状态失败！";
             Respond (ReplyError "获取登录状态失败！")] w).
Proof.
  intros Hget. unfold run, thirdAuthStatus, logged, authKey. exec_unfold.
  cbn. rewrite Hget. cbn. rewrite <- !app_assoc. reflexivity.
Qed.

Lemma thirdAuthStatus_NotFound env c w :
  redis_GetString_err env = None →
  Redis.GetString (clock w) (redis w) (authKey (Query c "authcode")) = "" →
  run (thirdAuthStatus env c) w =
    (Finished tt,
     logged [RedisGetString (authKey (Query c "authcode"));
             Respond (ReplyError "登录状态已过期！")] w).
Proof.
  intros Hget Hv. unfold run, thirdAuthStatus, logged, authKey in *. exec_unfold.
  cbn. rewrite Hget. cbn. rewrite Hv. cbn. rewrite <- !app_assoc. reflexivity.
Qed.

Lemma thirdAuthStatus_Pending env c w :
  redis_GetString_err env = None →
  Redis.GetString (clock w) (redis w) (authKey (Query c "authcode")) = "1" →
  run (thirdAuthStatus env c) w =
    (Finished tt,
     logged [RedisGetString (authKey (Query c "authcode"));
             Respond (ReplyJSON (H_status 0))] w).
Proof.
  intros Hget Hv. unfold run, thirdAuthStatus, logged, authKey in *. exec_unfold.
  cbn. rewrite Hget. cbn. rewrite Hv. cbn. rewrite <- !app_assoc. reflexivity.
Qed.

Lemma thirdAuthStatus_Failed env c w :
  redis_GetString_err env = None →
  Redis.GetString (clock w) (redis w) (authKey (Query c "authcode")) = "0" →
  run (thirdAuthStatus env c) w =
    (Finished tt,
     logged [RedisGetString (authKey (Query c "authcode"));
             Respond (ReplyJSON (H_status 2))] w).
Proof.
  intros Hget Hv. unfold run, thirdAuthStatus, logged, authKey in *. exec_unfold.
  cbn. rewrite Hget. cbn. rewrite Hv. cbn. rewrite <- !app_assoc. reflexivity.
Qed.

(** Any other value is deleted, then decoded. *)
Lemma thirdAuthStatus_result env c w v :
  redis_GetString_err env = None →
  Redis.GetString (clock w) (redis w) (authKey (Query c "authcode")) = v →
  v ≠ "" → v ≠ "1" → v ≠ "0" →
  run (thirdAuthStatus env c) w =
    (Finished tt,
     {| clock := clock w;
        redis := match redis_Del_err env with
                 | None => delete (authKey (Query c "authcode")) (redis w)
                 | Some _ => redis w
                 end;
        trace := trace w ++
          [RedisGetString (authKey (Query c "authcode"));
           RedisDel (authKey (Query c "authcode"))]
          ++ match redis_Del_err env with
             | None => []
             | Some _ => [Log "redis del error"]
             end
          ++ [Respond (match ReadJsonByByte v with
                       | Err e => ReplyError e
                       | Ok r => ReplyJSON (H_status_result 1 r)
                       end)] |}).
Proof.
  intros Hget Hv H0 H1 H2.
  unfold run, thirdAuthStatus, logged, authKey in *. exec_unfold.
  cbn. rewrite Hget. cbn. rewrite Hv, (is_empty_false _ H0).
  apply String.eqb_neq in H1, H2. rewrite H1, H2. cbn.
  destruct (redis_Del_err env); cbn;
    destruct (ReadJsonByByte v); cbn; rewrite <- !app_assoc; reflexivity.
Qed.

(** *** Beginning a handshake *)

(** C3. [thirdAuthcode] writes "1" under the prefixed key of the token it
    generated, to expire five minutes later, and answers with that token;
    it answers with an error only when the write fails, and then the store
    is as before.  After a successful begin, a poll for that token on any
    world in which the key still holds what the begin wrote and the five
    minutes have not passed answers status 0 (pending) and changes nothing
    in the store. *)
Theorem begin_then_poll_is_pending env c w :
  let authcode := util_GenerUUID env in
  let began := run (thirdAuthcode env c) w in
  match redis_SetAndExpire_err env with
  | Some _ =>
      began =
        (Finished tt,
         logged [RedisSetAndExpire (authKey authcode) "1" (Minute * 5);
                 Log "redis set error";
                 Respond (ReplyError "redis set error")] w)
  | None =>
      began =
        (Finished tt,
         {| clock := clock w;
            redis := <[authKey authcode := Redis.Entry "1" (clock w + 5 * Minute)]>
                       (redis w);
            trace := trace w ++
              [RedisSetAndExpire (authKey authcode) "1" (Minute * 5);
               Respond (ReplyJSON (H_authcode authcode))] |})
      ∧ ∀ env' c' w',
          redis_GetString_err env' = None →
          Query c' "authcode" = authcode →
          redis w' !! authKey authcode = redis (snd began) !! authKey authcode →
          clock w' < clock w + 5 * Minute →
          run (thirdAuthStatus env' c') w' =
            (Finished tt,
             logged [RedisGetString (authKey authcode);
                     Respond (ReplyJSON (H_status 0))] w')
  end.
Proof.
  intros authcode began.
  assert (Hrun : began =
    match redis_SetAndExpire_err env with
    | Some _ =>
        (Finished tt,
         logged [RedisSetAndExpire (authKey authcode) "1" (Minute * 5);
                 Log "redis set error";
                 Respond (ReplyError "redis set error")] w)
    | None =>
        (Finished tt,
         {| clock := clock w;
            redis := <[authKey authcode := Redis.Entry "1" (clock w + 5 * Minute)]>
                       (redis w);
            trace := trace w ++
              [RedisSetAndExpire (authKey authcode) "1" (Minute * 5);
               Respond (ReplyJSON (H_authcode authcode))] |})
    end).
  { subst began authcode. unfold run, thirdAuthcode, logged, authKey.
    exec_unfold. cbn.
    destruct (redis_SetAndExpire_err env); cbn; rewrite <- !app_assoc;
      [reflexivity |].
    unfold Redis.SetAndExpire. by rewrite (Z.mul_comm Minute 5). }
  destruct (redis_SetAndExpire_err env) as [e|]; [exact Hrun |].
  split; [exact Hrun |].
  intros env' c' w' Hget Hq Hkey Hclock.
  rewrite Hrun in Hkey. cbn in Hkey. rewrite lookup_insert_eq in Hkey.
  rewrite <- Hq. apply thirdAuthStatus_Pending; [done |].
  rewrite Hq. by apply (GetString_entry _ _ _ _ _ Hkey).
Qed.

(** *** Polling a resolved handshake *)

(** The sibling path: a poll that reads a login result deletes the entry,
    and a poll after it finds nothing. *)
Lemma result_poll_deletes_entry env env' c w v d :
  redis_GetString_err env = None → redis_Del_err env = None →
  redis_GetString_err env' = None →
  Redis.GetString (clock w) (redis w) (authKey (Query c "authcode")) = v →
  v ≠ "" → v ≠ "1" → v ≠ "0" →
  let polled := run (thirdAuthStatus env c) w in
  redis (snd polled) = delete (authKey (Query c "authcode")) (redis w)
  ∧ replies (calls (thirdAuthStatus env' c) (advance d (snd polled)))
    = [ReplyError "登录状态已过期！"].
Proof.
  intros Hget Hdel Hget' Hv H0 H1 H2 polled. subst polled.
  rewrite (thirdAuthStatus_result env c w v Hget Hv H0 H1 H2), Hdel.
  split; [reflexivity |].
  erewrite calls_logged; [| apply thirdAuthStatus_NotFound; [done |]; cbn;
                             apply GetString_Del].
  reflexivity.
Qed.

(** C1, on the failure sentinel.  A poll that reads "0" answers status 2
    (failed) without deleting anything: the store is as before, and as long
    as the entry has not expired every further poll answers status 2
    again, not "expired". *)
Theorem failed_poll_keeps_entry env c w :
  redis_GetString_err env = None →
  Redis.GetString (clock w) (redis w) (authKey (Query c "authcode")) = "0" →
  let polled := run (thirdAuthStatus env c) w in
  calls (thirdAuthStatus env c) w
    = [RedisGetString (authKey (Query c "authcode"));
       Respond (ReplyJSON (H_status 2))]
  ∧ redis (snd polled) = redis w
  ∧ ∀ env' d,
      redis_GetString_err env' = None →
      Redis.GetString (clock w + d) (redis w) (authKey (Query c "authcode")) = "0" →
      replies (calls (thirdAuthStatus env' c) (advance d (snd polled)))
      = [ReplyJSON (H_status 2)].
Proof.
  intros Hget Hv polled. subst polled.
  rewrite (thirdAuthStatus_Failed env c w Hget Hv).
  split; [| split].
  - eapply calls_logged. by apply thirdAuthStatus_Failed.
  - reflexivity.
  - intros env' d Hget' Hv'.
    erewrite calls_logged; [| by apply thirdAuthStatus_Failed].
    reflexivity.
Qed.

(** *** A callback without a code *)

(** C6. A callback whose code ([code] for gitee, [token] for the mall) is
    empty answers with the error at once and does nothing else: no call to
    any collaborator, the store and the clock as before.  So a poll that
    would have read "1" without the callback still answers status 0. *)
Theorem empty_code_leaves_handshake env c w
    (callback : Context → Handler L unit unit) (param : string) (msg : error) :
  (callback = giteeOAuth env ∧ param = "code" ∧ msg = "code不能为空")
  ∨ (callback = mallOAuth env ∧ param = "token" ∧ msg = "电商token不能为空") →
  Query c param = "" →
  run (callback c) w = (Finished tt, logged [Respond (ReplyError msg)] w)
  ∧ ∀ env' c' d,
      redis_GetString_err env' = None →
      Redis.GetString (clock w + d) (redis w) (authKey (Query c' "authcode")) = "1" →
      run (thirdAuthStatus env' c') (advance d (snd (run (callback c) w)))
      = (Finished tt,
         logged [RedisGetString (authKey (Query c' "authcode"));
                 Respond (ReplyJSON (H_status 0))]
           (advance d (snd (run (callback c) w)))).
Proof.
  intros Hcb Hq.
  assert (Hrun : run (callback c) w
                 = (Finished tt, logged [Respond (ReplyError msg)] w)).
  { destruct Hcb as [(-> & -> & ->) | (-> & -> & ->)].
    - unfold run, giteeOAuth, logged. exec_unfold. by rewrite Hq.
    - unfold run, mallOAuth, logged. exec_unfold. by rewrite Hq. }
  split; [exact Hrun |].
  intros env' c' d Hget Hv. rewrite Hrun. cbn.
  by apply thirdAuthStatus_Pending.
Qed.

(** *** The login result through the store *)

(** What [storeLoginResult] does to the world. *)
Lemma storeLoginResult_run env authcode (loginResp : option L) w :
  let str := match loginResp with Some r => ToJson r | None => "0" end in
  run (storeLoginResult env authcode loginResp) w =
    match redis_SetAndExpire_err env with
    | Some _ =>
        (Finished tt,
         logged [RedisSetAndExpire (authKey authcode) str (Minute * 1);
                 Log "redis set error";
                 Respond (ReplyError "redis set error")] w)
    | None =>
        (Finished tt,
         {| clock := clock w + Second * 3;
            redis := <[authKey authcode := Redis.Entry str (clock w + Minute * 1)]>
                       (redis w);
            trace := trace w ++
              [RedisSetAndExpire (authKey authcode) str (Minute * 1);
               Respond (ReplyString 200 "登录失败！")] |})
    end.
Proof.
  intros str. unfold run, storeLoginResult, logged, authKey, advance.
  exec_unfold. cbn. fold str.
  destruct (redis_SetAndExpire_err env); cbn; rewrite <- !app_assoc;
    reflexivity.
Qed.


(** *** The requests to the providers *)

Lemma requestGiteeAccessToken_run env code w :
  run (requestGiteeAccessToken env code) w =
    (match network_PostForWWWForm env exchangeURL (exchangeForm env code) with
     | Err e => Finished ("", Some e)
     | Ok result =>
         match index result "access_token" with
         | INil => Finished ("", None)
         | IString s => Finished (s, None)
         | v => Panic ("interface conversion: interface {} is "
                       ++ typeName v ++ ", not string")
         end
     end,
     logged [HttpPostForm exchangeURL (exchangeForm env code)] w).
Proof.
  unfold run, requestGiteeAccessToken, logged. exec_unfold. cbn.
  destruct (network_PostForWWWForm env exchangeURL _) as [result|e]; cbn;
    [| reflexivity].
  destruct (index result "access_token"); reflexivity.
Qed.

Lemma requestGiteeUserInfo_run env accessToken w :
  run (requestGiteeUserInfo env accessToken) w =
    (match network_Get env (profileURL accessToken) with
     | Err e => Finished (None, Some e)
     | Ok resp =>
         if Z.eqb (StatusCode resp) 200
         then match json_giteeUserInfo env (Body resp) with
              | Err e => Finished (None, Some e)
              | Ok userInfo => Finished (userInfo, None)
              end
         else Finished (None, Some ("获取gitee用户信息失败，状态码："
                                    ++ fmt_d (StatusCode resp)))
     end,
     logged [HttpGet (profileURL accessToken)] w).
Proof.
  unfold run, requestGiteeUserInfo, logged. exec_unfold. cbn.
  destruct (network_Get env _) as [resp|e]; cbn; [| reflexivity].
  destruct (Z.eqb (StatusCode resp) 200); cbn; [| reflexivity].
  destruct (json_giteeUserInfo env (Body resp)); reflexivity.
Qed.

Lemma requestMallAccessToken_run env code (env_ : string) w :
  run (requestMallAccessToken env code env_) w =
    match http_Do env (mallURL env_) (mallHeader code) with
    | Err e =>
        (Finished (None, Some e),
         logged [HttpDo "GET" (mallURL env_) (mallHeader code)] w)
    | Ok resp =>
        (match resp with
         | Err e => Finished (None, Some e)
         | Ok body =>
             match json_MallResponse env body with
             | Err e => Finished (None, Some e)
             | Ok response =>
                 if Z.eqb (MallResponse.Code response) 200
                 then Finished (Some (MallResponse.Data response), None)
                 else Finished (None,
                   Some ("获取电商用户信息失败, unexpected response code: "
                         ++ fmt_d (MallResponse.Code response)
                         ++ ", message: " ++ MallResponse.Message response))
             end
         end,
         logged [HttpDo "GET" (mallURL env_) (mallHeader code); CloseBody] w)
    end.
Proof.
  unfold run, requestMallAccessToken, logged. exec_unfold. cbn.
  destruct (http_Do env _ _) as [[body|e]|e]; cbn; rewrite <- ?app_assoc;
    try reflexivity.
  destruct (json_MallResponse env body) as [response|e]; cbn;
    rewrite <- ?app_assoc; [| reflexivity].
  destruct (Z.eqb (MallResponse.Code response) 200); cbn;
    rewrite <- ?app_assoc; reflexivity.
Qed.

(** The result of a request does not depend on the world it is made in. *)
Lemma returns_anywhere_exchange env code w w' r :
  returns (requestGiteeAccessToken env code) w r →
  returns (requestGiteeAccessToken env code) w' r.
Proof. unfold returns. by rewrite !requestGiteeAccessToken_run. Qed.

Lemma returns_anywhere_profile env tok w w' r :
  returns (requestGiteeUserInfo env tok) w r →
  returns (requestGiteeUserInfo env tok) w' r.
Proof. unfold returns. by rewrite !requestGiteeUserInfo_run. Qed.

Lemma returns_anywhere_mall env code (env_ : string) w w' r :
  returns (requestMallAccessToken env code env_) w r →
  returns (requestMallAccessToken env code env_) w' r.
Proof.
  unfold returns. rewrite !requestMallAccessToken_run.
  by destruct (http_Do env _ _).
Qed.

(** *** The callbacks, step by step *)

#[local] Arguments run : simpl never.
#[local] Arguments not_empty : simpl never.

Ltac exec :=
  repeat (exec_unfold; unfold call; cbn;
          rewrite ?requestGiteeAccessToken_run, ?requestGiteeUserInfo_run,
            ?requestMallAccessToken_run).

(** Closes [e ∉ l] and [e ∈ l → P] for a list [l] that is written out. *)
Ltac in_list H :=
  repeat (apply elem_of_cons in H as [H | H]; [simplify_eq |]);
  try (by apply elem_of_nil in H).

Lemma mall_returns_Ok env code (env_ : string) w userInfo :
  returns (requestMallAccessToken env code env_) w (Some userInfo, None) →
  ∃ resp, http_Do env (mallURL env_) (mallHeader code) = Ok resp
  ∧ match resp with
    | Err e => Finished (None, Some e)
    | Ok body =>
        match json_MallResponse env body with
        | Err e => Finished (None, Some e)
        | Ok response =>
            if Z.eqb (MallResponse.Code response) 200
            then Finished (Some (MallResponse.Data response), None)
            else Finished (None,
              Some ("获取电商用户信息失败, unexpected response code: "
                    ++ fmt_d (MallResponse.Code response)
                    ++ ", message: " ++ MallResponse.Message response))
        end
    end = Finished (Some userInfo, None).
Proof.
  unfold returns. rewrite requestMallAccessToken_run.
  destruct (http_Do env _ _) as [resp|e]; cbn; [eauto | discriminate].
Qed.

Lemma giteeOAuth_destroyed env c w tok userInfo m :
  Query c "code" ≠ "" →
  returns (requestGiteeAccessToken env (Query c "code")) w (tok, None) →
  returns (requestGiteeUserInfo env tok) w (Some userInfo, None) →
  db_queryWithGiteeUID env (giteeUserInfo.Login userInfo) = Ok (Some m) →
  Model.IsDestroy m = 1 →
  run (giteeOAuth env c) w =
    (Finished tt,
     logged [HttpPostForm exchangeURL (exchangeForm env (Query c "code"));
             HttpGet (profileURL tok);
             DBQueryWithGiteeUID (giteeUserInfo.Login userInfo);
             SpanStart "giteelogin";
             SpanSetTag "username" (giteeUserInfo.Login userInfo);
             Respond (ReplyError "用户不存在");
             SpanFinish "giteelogin"] w).
Proof.
  intros Hc Hx Hp Hq Hd. unfold returns in *.
  rewrite requestGiteeAccessToken_run in Hx.
  rewrite requestGiteeUserInfo_run in Hp. cbn in Hx, Hp.
  unfold giteeOAuth, logged. rewrite (is_empty_false _ Hc).
  unfold run at 1. exec. rewrite Hx. exec. rewrite Hp. exec.
  rewrite Hq. unfold loginExisting. exec. rewrite Hd. exec.
  by rewrite <- !app_assoc.
Qed.

Lemma mallOAuth_destroyed env c w userInfo m :
  Query c "token" ≠ "" →
  returns (requestMallAccessToken env (Query c "token") (Query c "env")) w
          (Some userInfo, None) →
  db_queryWithGiteeUID env (MallUser.UserID userInfo) = Ok (Some m) →
  Model.IsDestroy m = 1 →
  run (mallOAuth env c) w =
    (Finished tt,
     logged [HttpDo "GET" (mallURL (Query c "env")) (mallHeader (Query c "token"));
             CloseBody;
             DBQueryWithGiteeUID (MallUser.UserID userInfo);
             SpanStart "malllogin";
             SpanSetTag "username" (MallUser.UserID userInfo);
             Respond (ReplyError "用户不存在");
             SpanFinish "malllogin"] w).
Proof.
  intros Hc Hm Hq Hd. apply mall_returns_Ok in Hm as (resp & Hdo & Hm).
  unfold mallOAuth, logged. rewrite (is_empty_false _ Hc).
  unfold run at 1. exec. rewrite Hdo. exec. rewrite Hm. exec.
  rewrite Hq. unfold loginExisting. exec. rewrite Hd. exec.
  by rewrite <- !app_assoc.
Qed.

(** C5. When the identity a callback resolves is linked to an account
    whose [IsDestroy] is 1, the callback answers "用户不存在" (no such user)
    and nothing else: [execLogin] is not called, nothing is written to the
    store. *)
Theorem destroyed_account_gets_no_session env c w callback p m :
  Resolves env c w callback p →
  db_queryWithGiteeUID env (login p) = Ok (Some m) →
  Model.IsDestroy m = 1 →
  fst (run (callback c) w) = Finished tt
  ∧ replies (calls (callback c) w) = [ReplyError "用户不存在"]
  ∧ (∀ m' flag, ExecLogin m' flag ∉ calls (callback c) w)
  ∧ (∀ key val expire, RedisSetAndExpire key val expire ∉ calls (callback c) w)
  ∧ redis (snd (run (callback c) w)) = redis w.
Proof.
  intros Hres Hq Hd.
  destruct Hres as [tok userInfo Hc Hx Hp | userInfo Hc Hm]; cbn in Hq.
  - pose proof (giteeOAuth_destroyed env c w tok userInfo m Hc Hx Hp Hq Hd)
      as Hrun.
    rewrite (calls_logged _ _ _ _ Hrun), Hrun.
    repeat split; try reflexivity; intros; intros Hin; in_list Hin.
  - pose proof (mallOAuth_destroyed env c w userInfo m Hc Hm Hq Hd) as Hrun.
    rewrite (calls_logged _ _ _ _ Hrun), Hrun.
    repeat split; try reflexivity; intros; intros Hin; in_list Hin.
Qed.

(** *** A provider that fails *)

Lemma callback_fails_run env c w callback e :
  ResolveFails env c w callback e →
  ∃ evs : list (Event L),
    run (callback c) w = (Finished tt, logged evs w)
    ∧ replies evs = [ReplyError e]
    ∧ ∀ key val expire, RedisSetAndExpire key val expire ∉ evs.
Proof.
  intros Hfail.
  destruct Hfail as [tok e Hc Hx | tok userInfo e Hc Hx Hp | tok Hc Hx Hp
                    | userInfo e Hc Hm]; unfold returns in *.
  - rewrite requestGiteeAccessToken_run in Hx. cbn in Hx.
    eexists. split; [| split].
    + unfold giteeOAuth, logged. rewrite (is_empty_false _ Hc).
      unfold run at 1. exec. rewrite Hx. exec.
      rewrite <- !app_assoc. reflexivity.
    + reflexivity.
    + intros; intros Hin; in_list Hin.
  - rewrite requestGiteeAccessToken_run in Hx.
    rewrite requestGiteeUserInfo_run in Hp. cbn in Hx, Hp.
    eexists. split; [| split].
    + unfold giteeOAuth, logged. rewrite (is_empty_false _ Hc).
      unfold run at 1. exec. rewrite Hx. exec. rewrite Hp. exec.
      rewrite <- !app_assoc. reflexivity.
    + reflexivity.
    + intros; intros Hin; in_list Hin.
  - rewrite requestGiteeAccessToken_run in Hx.
    rewrite requestGiteeUserInfo_run in Hp. cbn in Hx, Hp.
    eexists. split; [| split].
    + unfold giteeOAuth, logged. rewrite (is_empty_false _ Hc).
      unfold run at 1. exec. rewrite Hx. exec. rewrite Hp. exec.
      rewrite <- !app_assoc. reflexivity.
    + reflexivity.
    + intros; intros Hin; in_list Hin.
  - rewrite requestMallAccessToken_run in Hm.
    destruct (http_Do env _ _) as [resp|e'] eqn:Hdo; cbn in Hm.
    + eexists. split; [| split].
      * unfold mallOAuth, logged. rewrite (is_empty_false _ Hc).
        unfold run at 1. exec. rewrite Hdo. exec. rewrite Hm. exec.
        rewrite <- !app_assoc. reflexivity.
      * reflexivity.
      * intros; intros Hin; in_list Hin.
    + injection Hm as <- <-.
      eexists. split; [| split].
      * unfold mallOAuth, logged. rewrite (is_empty_false _ Hc).
        unfold run at 1. exec. rewrite Hdo. exec.
        rewrite <- !app_assoc. reflexivity.
      * reflexivity.
      * intros; intros Hin; in_list Hin.
Qed.

(** C2, as the code has it.  When the token exchange or the fetch of the
    profile fails, the callback answers with that error on its own response
    and returns: it writes nothing to the store, whose entries and clock are
    as before.  A poll that would have read "1" without the callback still
    reads it and answers status 0 (pending). *)
Theorem provider_failure_leaves_handshake env c w callback e :
  ResolveFails env c w callback e →
  fst (run (callback c) w) = Finished tt
  ∧ replies (calls (callback c) w) = [ReplyError e]
  ∧ (∀ key val expire, RedisSetAndExpire key val expire ∉ calls (callback c) w)
  ∧ redis (snd (run (callback c) w)) = redis w
  ∧ ∀ env' c' d,
      redis_GetString_err env' = None →
      Redis.GetString (clock w + d) (redis w) (authKey (Query c' "authcode")) = "1" →
      replies (calls (thirdAuthStatus env' c')
                     (advance d (snd (run (callback c) w))))
      = [ReplyJSON (H_status 0)].
Proof.
  intros Hfail.
  destruct (callback_fails_run env c w callback e Hfail)
    as (evs & Hrun & Hreplies & Hnoset).
  rewrite (calls_logged _ _ _ _ Hrun), Hrun.
  repeat split; try done.
  intros env' c' d Hget Hv.
  erewrite calls_logged; [| by apply thirdAuthStatus_Pending].
  reflexivity.
Qed.

(** *** The token exchange *)

(** C7, as the code has it.  [requestGiteeAccessToken] returns an error
    exactly when the request to the provider does; when the answer has no
    [access_token] (absent or null) it returns the empty token and a nil
    error, and when the answer has a string there it returns that string. *)
Theorem exchange_errs_only_with_the_request env code w :
  let answer := network_PostForWWWForm env exchangeURL (exchangeForm env code) in
  (∀ e, answer = Err e →
        returns (requestGiteeAccessToken env code) w ("", Some e))
  ∧ (∀ result, answer = Ok result → index result "access_token" = INil →
        returns (requestGiteeAccessToken env code) w ("", None))
  ∧ (∀ result s, answer = Ok result → index result "access_token" = IString s →
        returns (requestGiteeAccessToken env code) w (s, None))
  ∧ (∀ tok e, returns (requestGiteeAccessToken env code) w (tok, Some e) →
        answer = Err e).
Proof.
  intros answer. unfold returns. rewrite requestGiteeAccessToken_run. cbn.
  fold answer. repeat split.
  - by intros e ->.
  - by intros result -> ->.
  - by intros result s -> ->.
  - intros tok e. destruct answer as [result|e']; [| congruence].
    by destruct (index result "access_token").
Qed.

(** *** The webhook push *)

Ltac in_app :=
  repeat first [rewrite elem_of_app | rewrite elem_of_cons]; tauto.

(** Unwinding the deferred calls only adds to the trace: the calls that
    were deferred, and a rollback when the function is panicking. *)
Lemma unwind_extends (p : bool) (ds : list (Deferred L)) (tr : list (Event L)) :
  ∃ evs : list (Event L),
    unwind p ds tr = (tr ++ evs)%list
    ∧ ∀ e, e ∈ evs → (p = true ∧ e = TxRollback) ∨ DeferCall e ∈ ds.
Proof.
  revert tr. induction ds as [|d ds IH]; intros tr.
  - exists []. split; [by rewrite app_nil_r |].
    intros e He. by apply elem_of_nil in He.
  - destruct d as [e0|]; cbn.
    + destruct (IH (tr ++ [e0])%list) as (evs & -> & Hevs).
      exists (e0 :: evs). split; [by rewrite <- app_assoc |].
      intros e [->|He]%elem_of_cons; [right; left |].
      destruct (Hevs e He) as [?|?]; [by left | right; by right].
    + destruct (IH (if p then (tr ++ [TxRollback])%list else tr))
        as (evs & -> & Hevs).
      destruct p.
      * exists (TxRollback :: evs). split; [by rewrite <- app_assoc |].
        intros e [->|He]%elem_of_cons; [by left |].
        destruct (Hevs e He) as [?|?]; [by left | right; by right].
      * exists evs. split; [done |].
        intros e He. destruct (Hevs e He) as [?|?]; [by left | right; by right].
Qed.

(** The loop over the servers, when the servers before the [k]-th answer
    with an error (and a response) and the [k]-th accepts: the request to
    the [k]-th is made, the marker is written, the loop ends. *)
Lemma pushToServers_success env (key uid content : string) servers :
  ∀ (n k : nat) server fr,
    servers !! k = Some server →
    (∀ (j : nat) sj, (j < k)%nat → servers !! j = Some sj →
       ∃ r e, http_Post env (n + j) (pushURL sj) "application/json"
                (pushRequest uid content) = (Some r, Some e)) →
    (∃ r, http_Post env (n + k) (pushURL server) "application/json"
            (pushRequest uid content) = (Some r, None)) →
    ∃ (evs : list (Event L)) (ds : list (Deferred L)),
      pushToServers env key uid content n servers fr =
        (Continue tt,
         {| world :=
              {| clock := clock (world fr);
                 redis := match redis_SetAndExpire_err env with
                          | None => Redis.SetAndExpire (clock (world fr))
                                      (redis (world fr)) key "1" (Minute * 5)
                          | Some _ => redis (world fr)
                          end;
                 trace := trace (world fr) ++ evs |};
            pending := ds ++ pending fr |})
      ∧ HttpPost (pushURL server) "application/json" (pushRequest uid content)
          ∈ evs
      ∧ RedisSetAndExpire key "1" (Minute * 5) ∈ evs
      ∧ ∀ d, d ∈ ds → d = DeferCall CloseBody.
Proof.
  induction servers as [|s rest IH]; intros n k server fr Hk Hbefore (r & Hok).
  - by rewrite lookup_nil in Hk.
  - destruct k as [|k].
    + cbn in Hk. injection Hk as ->. rewrite Nat.add_0_r in Hok.
      cbn [pushToServers]. exec_unfold. cbn. rewrite Hok. cbn.
      destruct (redis_SetAndExpire_err env); cbn.
      * eexists _, [_]. split; [rewrite <- !app_assoc; reflexivity |].
        split; [in_app |]. split; [in_app |].
        intros d Hd. by apply list_elem_of_singleton in Hd.
      * eexists _, [_]. split; [rewrite <- !app_assoc; reflexivity |].
        split; [in_app |]. split; [in_app |].
        intros d Hd. by apply list_elem_of_singleton in Hd.
    + cbn in Hk.
      destruct (Hbefore 0%nat s) as (r0 & e0 & Hfail); [lia | done |].
      rewrite Nat.add_0_r in Hfail.
      cbn [pushToServers]. exec_unfold. cbn. rewrite Hfail. cbn.
      assert (Hbefore' : ∀ (j : nat) sj, (j < k)%nat → rest !! j = Some sj →
                ∃ r e, http_Post env (S n + j) (pushURL sj) "application/json"
                         (pushRequest uid content) = (Some r, Some e)).
      { intros j sj Hj Hsj. rewrite Nat.add_succ_comm.
        apply (Hbefore (S j) sj); [lia | done]. }
      assert (Hok' : ∃ r, http_Post env (S n + k) (pushURL server)
                            "application/json" (pushRequest uid content)
                          = (Some r, None)).
      { exists r. by rewrite Nat.add_succ_comm. }
      match goal with
      | |- context [pushToServers _ _ _ _ _ _ ?fr'] =>
          destruct (IH (S n) k server fr' Hk Hbefore' Hok')
            as (evs & ds & Hrun & Hpost & Hset & Hds)
      end.
      rewrite Hrun. cbn.
      eexists _, (ds ++ [_])%list.
      split; [rewrite <- !app_assoc; reflexivity |].
      split; [in_app |]. split; [in_app |].
      intros d [Hd|Hd]%elem_of_app;
        [by apply Hds | by apply list_elem_of_singleton in Hd].
Qed.

Lemma Push_suppressed env (serverAddresses uid content : string) w :
  redis_GetString_err env = None →
  Redis.GetString (clock w) (redis w) (ECHOOO_PUSH_UID ++ uid) ≠ "" →
  run (Push env serverAddresses uid content) w =
    (Finished None,
     logged [Log "EchoooPush serverAddresses";
             RedisGetString (ECHOOO_PUSH_UID ++ uid);
             Log ("uid " ++ uid ++ " has push in five minutes. ")] w).
Proof.
  intros Hget Hv. unfold run, Push, logged. exec_unfold. cbn.
  rewrite Hget. cbn. rewrite (not_empty_true _ Hv). cbn.
  by rewrite <- !app_assoc.
Qed.

(** C9. With a Redis read that succeeds: when the key of the uid is in the
    cache, [Push] makes no request and returns nil.  When it is not, and a
    server accepts the request after the servers before it have answered
    with an error, [Push] returns nil after that request and a write of "1"
    under the key for five minutes; when that write succeeds, any [Push] for
    the same uid less than five minutes later makes no request and returns
    nil. *)
Theorem push_is_deduplicated env (serverAddresses uid content : string) w :
  redis_GetString_err env = None →
  let key := ECHOOO_PUSH_UID ++ uid in
  let push := Push env serverAddresses uid content in
  (Redis.GetString (clock w) (redis w) key ≠ "" →
     run push w =
       (Finished None,
        logged [Log "EchoooPush serverAddresses"; RedisGetString key;
                Log ("uid " ++ uid ++ " has push in five minutes. ")] w))
  ∧ (Redis.GetString (clock w) (redis w) key = "" →
     serverAddresses ≠ "" →
     ∀ (k : nat) server,
       Split_comma serverAddresses !! k = Some server →
       (∀ (j : nat) sj, (j < k)%nat →
          Split_comma serverAddresses !! j = Some sj →
          ∃ r e, http_Post env j (pushURL sj) "application/json"
                   (pushRequest uid content) = (Some r, Some e)) →
       (∃ r, http_Post env k (pushURL server) "application/json"
               (pushRequest uid content) = (Some r, None)) →
       fst (run push w) = Finished None
       ∧ HttpPost (pushURL server) "application/json" (pushRequest uid content)
           ∈ calls push w
       ∧ RedisSetAndExpire key "1" (Minute * 5) ∈ calls push w
       ∧ (redis_SetAndExpire_err env = None →
            redis (snd (run push w))
              = <[key := Redis.Entry "1" (clock w + 5 * Minute)]> (redis w)
            ∧ ∀ env' (serverAddresses' content' : string) d,
                redis_GetString_err env' = None →
                d < 5 * Minute →
                run (Push env' serverAddresses' uid content')
                    (advance d (snd (run push w)))
                = (Finished None,
                   logged [Log "EchoooPush serverAddresses"; RedisGetString key;
                           Log ("uid " ++ uid ++ " has push in five minutes. ")]
                     (advance d (snd (run push w)))))).
Proof.
  intros Hget key push. split.
  - by apply Push_suppressed.
  - intros Hv Hsa k server Hk Hbefore Hok.
    assert (Hrun : ∃ (evs : list (Event L)),
      run push w =
        (Finished None,
         {| clock := clock w;
            redis := match redis_SetAndExpire_err env with
                     | None => Redis.SetAndExpire (clock w) (redis w) key "1"
                                 (Minute * 5)
                     | Some _ => redis w
                     end;
            trace := trace w ++ evs |})
      ∧ HttpPost (pushURL server) "application/json" (pushRequest uid content)
          ∈ evs
      ∧ RedisSetAndExpire key "1" (Minute * 5) ∈ evs).
    { subst push. unfold run, Push. exec_unfold. cbn.
      rewrite Hget. cbn. fold key. rewrite Hv.
      rewrite (not_empty_false "" eq_refl), (not_empty_true _ Hsa). cbn.
      match goal with
      | |- context [pushToServers _ _ _ _ _ _ ?fr'] =>
          destruct (pushToServers_success env key uid content
                      (Split_comma serverAddresses) 0 k server fr'
                      Hk Hbefore Hok)
            as (evs & ds & Hloop & Hpost & Hset & Hds)
      end.
      rewrite Hloop. cbn. rewrite app_nil_r.
      destruct (unwind_extends false ds
                  (((trace w ++ [Log "EchoooPush serverAddresses"]) ++
                    [RedisGetString key]) ++ evs)) as (evs' & -> & _).
      eexists. split; [rewrite <- !app_assoc; reflexivity |].
      split; in_app. }
    destruct Hrun as (evs & Hrun & Hpost & Hset).
    rewrite (calls_trace _ _ _ _ evs Hrun eq_refl), Hrun. cbn.
    split; [done |]. split; [done |]. split; [done |].
    intros Hwrite. rewrite Hwrite. split.
    + unfold Redis.SetAndExpire. by rewrite (Z.mul_comm Minute 5).
    + intros env' sa' content' d Hget' Hd.
      apply Push_suppressed; [done |]. cbn. fold key.
      rewrite GetString_SetAndExpire; [done |].
      unfold Minute, Second in *. lia.
Qed.

(** *** Creating an account *)

Ltac tail_case :=
  cbn; do 4 eexists;
  split; [rewrite <- ?app_assoc; cbn; reflexivity |];
  split; [first [left; reflexivity | right; reflexivity] |];
  split; [in_app |];
  split; [intros m ip iv Hin; in_list Hin; done |];
  split; [intros ev Hin; in_list Hin; reflexivity |];
  split; [intros; try congruence; try in_app |];
  intros; try congruence.

(** The transaction and the write of its result, on any frame. *)
Lemma provisionAndStore_facts env provider row model authcode fr :
  ∃ (f : Flow unit unit) (evs : list (Event L)) clock' redis',
    provisionAndStore env provider row model authcode fr
      = (f, {| world := {| clock := clock'; redis := redis';
                           trace := trace (world fr) ++ evs |};
               pending := DeferRecoverRollback :: pending fr |})
    ∧ (f = Continue tt ∨ f = Returned tt)
    ∧ TailFacts env row model authcode (clock (world fr)) (redis (world fr))
        evs clock' redis'.
Proof.
  unfold TailFacts, provisionAndStore, provision, storeLoginResult,
    createUserWithRespAndTx, commitCallback, authKey. exec_unfold. cbn.
  destruct (db_Begin env) as [e|]; [tail_case |].
  destruct (giteeDB_insertTx env row) as [e|]; [tail_case |].
  destruct (user_createUserWithRespAndTx env model (util_GetClientPublicIP env))
    as [commits [[r|]|e]]; destruct commits; cbn;
    destruct (tx_Commit env) as [e1|]; cbn;
    destruct (redis_SetAndExpire_err env) as [e2|]; tail_case.
  match goal with H : _ = {| calls_commit := _; created := _ |} |- _ =>
    injection H as ->
  end.
  split; [in_app |]. split; [intros Hin; in_list Hin |]. done.
Qed.

Lemma if_same {A} (b : bool) (x : A) : (if b then x else x) = x.
Proof. by destruct b. Qed.

(** A callback that has resolved a profile that is not linked goes on to the
    avatar and the transaction. *)
Section Blocks.
#[local] Arguments fetchAvatar : simpl never.
#[local] Arguments provision : simpl never.
#[local] Arguments storeLoginResult : simpl never.

Lemma callback_provisions env c w callback p :
  Resolves env c w callback p →
  db_queryWithGiteeUID env (login p) = Ok None →
  ∃ (pre : list (Event L)) (span : string),
    (∀ e, e ∈ pre → phase e = Resolution)
    ∧ run (callback c) w
      = finish (provisionWithAvatar env p (Query c "state")
                  {| world := logged pre w;
                     pending := [DeferCall (SpanFinish span)] |}).
Proof.
  intros Hres Hq.
  destruct Hres as [tok userInfo Hc Hx Hp | userInfo Hc Hm]; cbn in Hq;
    unfold returns in *.
  - rewrite requestGiteeAccessToken_run in Hx.
    rewrite requestGiteeUserInfo_run in Hp. cbn in Hx, Hp.
    eexists _, _. split; cycle 1.
    + unfold giteeOAuth, provisionWithAvatar, logged.
      rewrite (is_empty_false _ Hc).
      unfold run at 1. exec. rewrite Hx. exec. rewrite Hp. exec.
      rewrite Hq. exec. rewrite <- !app_assoc. cbn. reflexivity.
    + intros e He. in_list He; reflexivity.
  - apply mall_returns_Ok in Hm as (resp & Hdo & Hm).
    eexists _, _. split; cycle 1.
    + unfold mallOAuth, provisionWithAvatar, logged.
      rewrite (is_empty_false _ Hc).
      unfold run at 1. exec. rewrite Hdo. exec. rewrite Hm. exec.
      rewrite Hq. exec. rewrite <- !app_assoc. cbn. rewrite if_same.
      reflexivity.
    + intros e He. in_list He; reflexivity.
Qed.
End Blocks.

Lemma fetchAvatar_skips env (url uid : string) model fr :
  url = "" ∨ HasSuffix url "no_portrait.png" = true →
  fetchAvatar env url uid model fr = (Continue model, fr).
Proof.
  intros [-> | Hs]; unfold fetchAvatar; [reflexivity |].
  rewrite Hs. by rewrite andb_false_r.
Qed.

(** An avatar pipeline that fails leaves the account as it was. *)
Lemma fetchAvatar_fails env (url uid : string) model :
  avatarFails env url uid →
  ∃ (evs : list (Event L)) (ds : list (Deferred L)),
    (∀ fr, fetchAvatar env url uid model fr
           = (Continue model,
              {| world := logged evs (world fr); pending := ds ++ pending fr |}))
    ∧ (∀ e, e ∈ evs → phase e = AvatarFetch)
    ∧ (∀ d, d ∈ ds → d = DeferCall CloseImage).
Proof.
  intros Hfail. unfold fetchAvatar, logged.
  destruct (negb (url =? "") && negb (HasSuffix url "no_portrait.png")).
  - destruct Hfail as [Hnone | (img & e & Hsome & Hpart & Hup)].
    + exists [DownloadImage url (5 * Second)], []. split; [| split].
      * intros fr. exec_unfold. cbn. by rewrite Hnone.
      * intros ? Hin; in_list Hin; reflexivity.
      * intros ? Hin; in_list Hin.
    + exists [DownloadImage url (5 * Second);
              UploadFile (avatarPath env uid) "image/png" img],
             [DeferCall CloseImage].
      split; [| split].
      * intros fr. exec_unfold. cbn. rewrite Hsome.
        apply Z.eqb_neq in Hpart. rewrite Hpart. cbn.
        unfold avatarPath in Hup. rewrite Hup.
        by rewrite <- !app_assoc.
      * intros ? Hin; in_list Hin; reflexivity.
      * intros ? Hin; in_list Hin; reflexivity.
  - exists [], []. split; [| split].
    + intros [[] ?]. cbn. by rewrite app_nil_r.
    + intros ? Hin; in_list Hin.
    + intros ? Hin; in_list Hin.
Qed.

Section Outline.
#[local] Arguments fetchAvatar : simpl never.
#[local] Arguments provision : simpl never.
#[local] Arguments storeLoginResult : simpl never.

(** A callback on a profile that is not linked yet: the calls that resolve
    the profile, those for the avatar, the transaction and the write of its
    result, and the deferred calls. *)
Lemma provisioning_outline env c w callback p model
    (evsA : list (Event L)) (dsA : list (Deferred L)) :
  Resolves env c w callback p →
  db_queryWithGiteeUID env (login p) = Ok None →
  (∀ fr, fetchAvatar env (avatar p) (util_GenerUUID env) (newAccount env p 0) fr
         = (Continue model,
            {| world := logged evsA (world fr); pending := dsA ++ pending fr |})) →
  (∀ d, d ∈ dsA → d = DeferCall CloseImage) →
  ∃ (pre evsT post : list (Event L)) clock' redis',
    run (callback c) w
      = (Finished tt,
         {| clock := clock'; redis := redis';
            trace := trace w ++ pre ++ evsA ++ evsT ++ post |})
    ∧ (∀ e, e ∈ pre → phase e = Resolution)
    ∧ (∀ e, e ∈ post → phase e = Closing)
    ∧ TailFacts env (row p) model (Query c "state") (clock w) (redis w)
        evsT clock' redis'.
Proof.
  intros Hres Hq Havatar HdsA.
  destruct (callback_provisions env c w callback p Hres Hq)
    as (pre & span & Hpre & ->).
  unfold provisionWithAvatar. exec_unfold. rewrite Havatar. cbn.
  match goal with
  | |- context [provision _ _ _ _ ?fr1] =>
      destruct (provisionAndStore_facts env (provider p) (row p) model
                  (Query c "state") fr1)
        as (f & evsT & clock' & redis' & Hrun & Hf & Hfacts)
  end.
  unfold provisionAndStore in Hrun. exec_unfold. cbn in Hrun, Hfacts.
  rewrite Hrun.
  assert (Hend : ∃ post : list (Event L),
            unwind false (dsA ++ [DeferCall (SpanFinish span)])
              (((trace w ++ pre) ++ evsA) ++ evsT)
            = (trace w ++ pre ++ evsA ++ evsT ++ post)%list
            ∧ ∀ e, e ∈ post → phase e = Closing).
  { destruct (unwind_extends false (dsA ++ [DeferCall (SpanFinish span)])
                (((trace w ++ pre) ++ evsA) ++ evsT))
      as (post & Hpost & Hclosing).
    exists post. split; [by rewrite Hpost, <- !app_assoc |].
    intros e He. destruct (Hclosing e He) as [(? & _) | Hd]; [done |].
    apply elem_of_app in Hd as [Hd | Hd].
    - apply HdsA in Hd. by injection Hd as ->.
    - apply list_elem_of_singleton in Hd. by injection Hd as ->. }
  destruct Hend as (post & Hpost & Hclosing).
  exists pre, evsT, post, clock', redis'.
  split; [| done].
  destruct Hf as [-> | ->]; cbn; by rewrite Hpost.
Qed.
End Outline.
(** C4. In a callback that creates an account, when the download of the
    avatar gives nothing or its upload fails, the callback goes on as without
    an avatar: it does not panic, it begins the transaction, and every
    account it asks to create is the one with [IsUploadAvatar] 0.  When the
    transaction begins and the linked record is inserted, it asks to create
    that account; when moreover the creation and the commit succeed, the
    transaction is committed, not rolled back, and the login result is
    written to the store. *)
Theorem avatar_failure_never_aborts env c w callback p :
  Resolves env c w callback p →
  db_queryWithGiteeUID env (login p) = Ok None →
  avatarFails env (avatar p) (util_GenerUUID env) →
  let model := newAccount env p 0 in
  let ip := util_GetClientPublicIP env in
  fst (run (callback c) w) = Finished tt
  ∧ TxBegin ∈ calls (callback c) w
  ∧ (∀ m ip' iv, CreateUserWithRespAndTx m ip' iv ∈ calls (callback c) w →
       m = model ∧ createUserModel.IsUploadAvatar m = 0)
  ∧ (db_Begin env = None → giteeDB_insertTx env (row p) = None →
       CreateUserWithRespAndTx model ip "" ∈ calls (callback c) w)
  ∧ (db_Begin env = None → giteeDB_insertTx env (row p) = None →
     ∀ r, user_createUserWithRespAndTx env model ip
            = {| calls_commit := true; created := Ok (Some r) |} →
          tx_Commit env = None → redis_SetAndExpire_err env = None →
          TxCommit ∈ calls (callback c) w
          ∧ (TxRollback ∉ calls (callback c) w)
          ∧ redis (snd (run (callback c) w))
            = <[authKey (Query c "state")
                  := Redis.Entry (ToJson r) (clock w + Minute * 1)]> (redis w)).
Proof.
  intros Hres Hq Hfail model ip.
  destruct (fetchAvatar_fails env (avatar p) (util_GenerUUID env) model Hfail)
    as (evsA & dsA & Havatar & HevsA & HdsA).
  destruct (provisioning_outline env c w callback p model evsA dsA
              Hres Hq Havatar HdsA)
    as (pre & evsT & post & clock' & redis' & Hrun & Hpre & Hpost & Htail).
  destruct Htail as (Hbegin & Hmodel & Hrest & Hcreate & Hdone).
  rewrite (calls_trace _ _ _ _ _ Hrun eq_refl), Hrun. cbn.
  split; [done |]. split; [in_app |]. split; [| split].
  - intros m ip' iv Hin. rewrite !elem_of_app in Hin.
    destruct Hin as [Hin | [Hin | [Hin | Hin]]].
    + apply Hpre in Hin. discriminate Hin.
    + apply HevsA in Hin. discriminate Hin.
    + apply Hmodel in Hin. by subst m.
    + apply Hpost in Hin. discriminate Hin.
  - intros Hb Hi. specialize (Hcreate Hb Hi). in_app.
  - intros Hb Hi r Hr Hc Hs.
    destruct (Hdone Hb Hi r Hr Hc Hs) as (Hcommit & Hnoroll & _ & ->).
    split; [in_app |]. split; [| done].
    intros Hin. rewrite !elem_of_app in Hin.
    destruct Hin as [Hin | [Hin | [Hin | Hin]]].
    + apply Hpre in Hin. discriminate Hin.
    + apply HevsA in Hin. discriminate Hin.
    + done.
    + apply Hpost in Hin. discriminate Hin.
Qed.

(** C10. In a callback that creates an account, when the avatar's URL is
    empty or ends with "no_portrait.png", there is no download and no
    upload, and every account the callback asks to create has
    [IsUploadAvatar] 0; it asks to create it when the transaction begins and
    the linked record is inserted. *)
Theorem placeholder_avatar_is_not_fetched env c w callback p :
  Resolves env c w callback p →
  db_queryWithGiteeUID env (login p) = Ok None →
  avatar p = "" ∨ HasSuffix (avatar p) "no_portrait.png" = true →
  let model := newAccount env p 0 in
  (∀ url t, DownloadImage url t ∉ calls (callback c) w)
  ∧ (∀ pth ct img, UploadFile pth ct img ∉ calls (callback c) w)
  ∧ (∀ m ip iv, CreateUserWithRespAndTx m ip iv ∈ calls (callback c) w →
       m = model ∧ createUserModel.IsUploadAvatar m = 0)
  ∧ (db_Begin env = None → giteeDB_insertTx env (row p) = None →
       CreateUserWithRespAndTx model (util_GetClientPublicIP env) ""
         ∈ calls (callback c) w).
Proof.
  intros Hres Hq Hskip model.
  assert (Havatar : ∀ fr,
    fetchAvatar env (avatar p) (util_GenerUUID env) (newAccount env p 0) fr
    = (Continue model,
       {| world := logged [] (world fr); pending := [] ++ pending fr |})).
  { intros [[] ?]. rewrite (fetchAvatar_skips _ _ _ _ _ Hskip).
    unfold logged. cbn. by rewrite app_nil_r. }
  destruct (provisioning_outline env c w callback p model [] []
              Hres Hq Havatar)
    as (pre & evsT & post & clock' & redis' & Hrun & Hpre & Hpost & Htail).
  { intros d Hd. by apply elem_of_nil in Hd. }
  destruct Htail as (Hbegin & Hmodel & Hrest & Hcreate & Hdone).
  rewrite (calls_trace _ _ _ _ _ Hrun eq_refl).
  split; [| split; [| split]].
  - intros url t Hin. rewrite !elem_of_app in Hin.
    destruct Hin as [Hin | [Hin | [Hin | Hin]]].
    + apply Hpre in Hin. discriminate Hin.
    + by apply elem_of_nil in Hin.
    + apply Hrest in Hin. discriminate Hin.
    + apply Hpost in Hin. discriminate Hin.
  - intros pth ct img Hin. rewrite !elem_of_app in Hin.
    destruct Hin as [Hin | [Hin | [Hin | Hin]]].
    + apply Hpre in Hin. discriminate Hin.
    + by apply elem_of_nil in Hin.
    + apply Hrest in Hin. discriminate Hin.
    + apply Hpost in Hin. discriminate Hin.
  - intros m ip iv Hin. rewrite !elem_of_app in Hin.
    destruct Hin as [Hin | [Hin | [Hin | Hin]]].
    + apply Hpre in Hin. discriminate Hin.
    + by apply elem_of_nil in Hin.
    + apply Hmodel in Hin. by subst m.
    + apply Hpost in Hin. discriminate Hin.
  - intros Hb Hi. specialize (Hcreate Hb Hi). in_app.
Qed.

(** *** What the handlers never do *)

Lemma only_refl (ok : Event L → bool) (key : string) fr : only ok key fr fr.
Proof.
  split; [exists []; by rewrite app_nil_r |].
  split; [by exists [] | done].
Qed.

Lemma only_trans (ok : Event L → bool) (key : string) fr1 fr2 fr3 :
  only ok key fr1 fr2 → only ok key fr2 fr3 → only ok key fr1 fr3.
Proof.
  intros ((evs1 & Ht1 & Hok1) & (ds1 & Hp1 & Hd1) & Hk1)
         ((evs2 & Ht2 & Hok2) & (ds2 & Hp2 & Hd2) & Hk2).
  split; [| split].
  - exists (evs1 ++ evs2)%list. rewrite Ht2, Ht1, app_assoc.
    split; [done | by apply Forall_app].
  - exists (ds2 ++ ds1)%list. rewrite Hp2, Hp1, app_assoc.
    split; [done | by apply Forall_app].
  - intros k Hk. by rewrite Hk2, Hk1.
Qed.

Lemma keeps_ret {R A} ok (key : string) (a : A) :
  keeps ok key (mret a : Handler L R A).
Proof. intros fr. apply only_refl. Qed.

Lemma keeps_bind {R A B} ok (key : string) (m : Handler L R A)
    (k : A → Handler L R B) :
  keeps ok key m → (∀ a, keeps ok key (k a)) → keeps ok key (mbind k m).
Proof.
  intros Hm Hk fr. unfold mbind, Handler_bind. specialize (Hm fr).
  destruct (m fr) as [[a | r | msg] fr']; cbn in *; [| done | done].
  eapply only_trans; [exact Hm | apply Hk].
Qed.

Lemma keeps_Return {R A} ok (key : string) (r : R) :
  keeps ok key (Return r : Handler L R A).
Proof. intros fr. apply only_refl. Qed.

Lemma keeps_panic {R A} ok (key : string) (msg : string) :
  keeps ok key (panic msg : Handler L R A).
Proof. intros fr. apply only_refl. Qed.

Lemma keeps_emit {R} (ok : Event L → bool) (key : string) (e : Event L) :
  ok e = true → keeps ok key (emit e : Handler L R unit).
Proof.
  intros He fr. split; [| split].
  - exists [e]. split; [done | by constructor].
  - by exists [].
  - done.
Qed.

Lemma keeps_defer {R} (ok : Event L → bool) (key : string) (d : Deferred L) :
  deferredWithin ok d = true → keeps ok key (defer d : Handler L R unit).
Proof.
  intros Hd fr. split; [| split].
  - exists []. by rewrite app_nil_r.
  - exists [d]. split; [done | by constructor].
  - done.
Qed.

Lemma keeps_when {R} ok (key : string) (b : bool) (h : Handler L R unit) :
  keeps ok key h → keeps ok key (when b h).
Proof. destruct b; [done | intros _; apply keeps_ret]. Qed.

Lemma keeps_if_err {R} ok (key : string) (err : option error)
    (h : error → Handler L R unit) :
  (∀ e, keeps ok key (h e)) → keeps ok key (if_err err h).
Proof. destruct err; [intros Hh; apply Hh | intros _; apply keeps_ret]. Qed.

Lemma keeps_Sleep {R} ok (key : string) (d : Duration) :
  keeps ok key (Sleep d : Handler L R unit).
Proof.
  intros fr. split; [exists []; cbn; by rewrite app_nil_r |].
  split; [by exists [] | done].
Qed.

Lemma keeps_GetString {R} (ok : Event L → bool) env (key k : string) :
  ok (RedisGetString k) = true →
  keeps ok key (GetString env k : Handler L R _).
Proof.
  intros He fr. unfold GetString. exec_unfold. cbn.
  destruct (redis_GetString_err env); cbn;
    (split; [exists [RedisGetString k]; split; [done | by constructor] |]);
    (split; [by exists [] | done]).
Qed.

Lemma keeps_SetAndExpire {R} (ok : Event L → bool) env (key val : string)
    (expire : Duration) :
  ok (RedisSetAndExpire key val expire) = true →
  keeps ok key (SetAndExpire env key val expire : Handler L R _).
Proof.
  intros He fr. unfold SetAndExpire. exec_unfold. cbn.
  destruct (redis_SetAndExpire_err env); cbn;
    (split; [eexists [_]; split; [done | by constructor] |]);
    (split; [by exists [] |]); [done |].
  intros k Hk. unfold Redis.SetAndExpire. cbn. by rewrite lookup_insert_ne.
Qed.

Lemma keeps_Del {R} (ok : Event L → bool) env (key : string) :
  ok (RedisDel key) = true →
  keeps ok key (Del env key : Handler L R _).
Proof.
  intros He fr. unfold Del. exec_unfold. cbn.
  destruct (redis_Del_err env); cbn;
    (split; [eexists [_]; split; [done | by constructor] |]);
    (split; [by exists [] |]); [done |].
  intros k Hk. unfold Redis.Del. cbn. by rewrite lookup_delete_ne.
Qed.

(** Unwinding deferred calls that are within [ok] adds calls within [ok]. *)
Lemma unwind_within (ok : Event L → bool) (p : bool) (ds : list (Deferred L)) :
  Forall (λ d, deferredWithin ok d = true) ds →
  ∀ tr : list (Event L),
    ∃ evs : list (Event L),
      unwind p ds tr = (tr ++ evs)%list ∧ Forall (λ e, ok e = true) evs.
Proof.
  induction 1 as [| d ds Hd _ IH]; intros tr.
  - exists []. by rewrite app_nil_r.
  - destruct d as [e |]; cbn in *.
    + destruct (IH (tr ++ [e])%list) as (evs & -> & Hevs).
      exists (e :: evs). rewrite <- app_assoc. split; [done | by constructor].
    + destruct p.
      * destruct (IH (tr ++ [TxRollback])%list) as (evs & -> & Hevs).
        exists (TxRollback :: evs). rewrite <- app_assoc.
        split; [done | by constructor].
      * apply IH.
Qed.

(** A function whose statements stay within [ok] and [key], run to its end:
    all its calls are within [ok], and the store differs at most under
    [key]. *)
Lemma keeps_run {R} (ok : Event L → bool) (key : string)
    (body : Handler L R R) w :
  keeps ok key body →
  Forall (λ e, ok e = true) (calls body w)
  ∧ ∀ k : string, k ≠ key → redis (run body w).2 !! k = redis w !! k.
Proof.
  intros Hk. unfold calls, run, finish.
  destruct (Hk {| world := w; pending := [] |})
    as ((evs & Ht & Hok) & (ds & Hp & Hd) & Hkeys).
  destruct (body {| world := w; pending := [] |}) as [f fr]. cbn in *.
  rewrite app_nil_r in Hp. subst ds.
  assert (Hend : ∀ p, ∃ evs' : list (Event L),
            unwind p (pending fr) (trace (world fr)) = (trace w ++ evs')%list
            ∧ Forall (λ e, ok e = true) evs').
  { intros p.
    destruct (unwind_within ok p (pending fr) Hd (trace (world fr)))
      as (evs' & -> & Hevs').
    exists (evs ++ evs')%list. rewrite Ht, app_assoc.
    split; [done | by apply Forall_app]. }
  destruct f as [r | r | msg]; cbn;
    [destruct (Hend false) as (evs' & -> & Hevs')
    | destruct (Hend false) as (evs' & -> & Hevs')
    | destruct (Hend true) as (evs' & -> & Hevs')];
    by rewrite drop_app_length.
Qed.

Lemma keeps_call {R R'} (ok : Event L → bool) (key : string)
    (body : Handler L R' R') :
  keeps ok key body → keeps ok key (call body : Handler L R R').
Proof.
  intros Hk fr. unfold call.
  destruct (keeps_run ok key body (world fr) Hk) as [Hcalls Hkeys].
  unfold calls in Hcalls.
  assert (Ht : trace (run body (world fr)).2
               = (trace (world fr)
                  ++ drop (length (trace (world fr)))
                       (trace (run body (world fr)).2))%list).
  { unfold run, finish.
    destruct (Hk {| world := world fr; pending := [] |})
      as ((evs & Ht & _) & (ds & Hp & Hd) & _).
    destruct (body {| world := world fr; pending := [] |}) as [f fr'].
    cbn in *. rewrite app_nil_r in Hp. subst ds.
    assert (Hend : ∀ p, ∃ evs' : list (Event L),
              unwind p (pending fr') (trace (world fr'))
              = (trace (world fr) ++ evs')%list).
    { intros p.
      destruct (unwind_within ok p (pending fr') Hd (trace (world fr')))
        as (evs' & -> & _).
      exists (evs ++ evs')%list. by rewrite Ht, app_assoc. }
    destruct f as [r | r | msg]; cbn;
      [destruct (Hend false) as (evs' & ->)
      | destruct (Hend false) as (evs' & ->)
      | destruct (Hend true) as (evs' & ->)];
      by rewrite drop_app_length. }
  destruct (run body (world fr)) as [[r | msg] w']; cbn in *;
    (split; [eexists; split; [exact Ht | exact Hcalls] |]);
    (split; [by exists [] | done]).
Qed.

Ltac keeps_step :=
  first
    [ apply keeps_ret | apply keeps_Return | apply keeps_panic
    | apply keeps_emit; reflexivity
    | apply keeps_defer; reflexivity
    | apply keeps_Sleep
    | apply keeps_when
    | apply keeps_if_err; intros ?
    | apply keeps_GetString; reflexivity
    | apply keeps_SetAndExpire; reflexivity
    | apply keeps_Del; reflexivity
    | apply keeps_call
    | apply keeps_bind; [| intros ?]
    | match goal with
      | |- keeps _ _ (match ?x with _ => _ end) => destruct x
      | |- keeps _ _ (if ?b then _ else _) => destruct b
      end
    | progress cbv beta zeta
    | progress unfold ResponseError, Response, String_ ].

Ltac keeps_all := repeat keeps_step.

Lemma keeps_requestGiteeAccessToken env (key code : string) :
  keeps callbackCall key (requestGiteeAccessToken env code).
Proof. unfold requestGiteeAccessToken. keeps_all. Qed.

Lemma keeps_requestGiteeUserInfo env (key accessToken : string) :
  keeps callbackCall key (requestGiteeUserInfo env accessToken).
Proof. unfold requestGiteeUserInfo. keeps_all. Qed.

Lemma keeps_requestMallAccessToken env (key code env_ : string) :
  keeps callbackCall key (requestMallAccessToken env code env_).
Proof. unfold requestMallAccessToken. keeps_all. Qed.

Lemma keeps_fetchAvatar env (key url uid : string) model :
  keeps callbackCall key (fetchAvatar env url uid model : Handler L unit _).
Proof. unfold fetchAvatar. keeps_all. Qed.

Lemma keeps_provision env (key provider : string) row model :
  keeps callbackCall key (provision env provider row model).
Proof.
  unfold provision, createUserWithRespAndTx, commitCallback. keeps_all.
Qed.

Lemma keeps_loginExisting env (key : string) userInfoM (deviceFlag : Z) :
  keeps callbackCall key (loginExisting env userInfoM deviceFlag).
Proof. unfold loginExisting. keeps_all. Qed.

Lemma keeps_storeLoginResult env (authcode : string) (loginResp : option L) :
  keeps callbackCall (ThirdAuthcodePrefix ++ authcode)
    (storeLoginResult env authcode loginResp).
Proof. unfold storeLoginResult. keeps_all. Qed.

Lemma keeps_giteeOAuth env c :
  keeps callbackCall (authKey (Query c "state")) (giteeOAuth env c).
Proof.
  unfold giteeOAuth, authKey.
  repeat first
    [ apply keeps_requestGiteeAccessToken | apply keeps_requestGiteeUserInfo
    | apply keeps_fetchAvatar | apply keeps_provision
    | apply keeps_loginExisting | apply keeps_storeLoginResult
    | keeps_step ].
Qed.

Lemma keeps_mallOAuth env c :
  keeps callbackCall (authKey (Query c "state")) (mallOAuth env c).
Proof.
  unfold mallOAuth, authKey.
  repeat first
    [ apply keeps_requestMallAccessToken
    | apply keeps_fetchAvatar | apply keeps_provision
    | apply keeps_loginExisting | apply keeps_storeLoginResult
    | keeps_step ].
Qed.

Lemma keeps_pushToServers env (key uid content : string) servers :
  ∀ n : nat, keeps pushCall key (pushToServers env key uid content n servers).
Proof.
  induction servers as [| server rest IH]; intros n; cbn [pushToServers].
  - apply keeps_ret.
  - repeat first [ apply IH | keeps_step ].
Qed.

Lemma keeps_Push env (serverAddresses uid content : string) :
  keeps pushCall (ECHOOO_PUSH_UID ++ uid) (Push env serverAddresses uid content).
Proof.
  unfold Push. repeat first [ apply keeps_pushToServers | keeps_step ].
Qed.

(** *** More on polling *)

Lemma thirdAuthcode_run env c w :
  run (thirdAuthcode env c) w =
    match redis_SetAndExpire_err env with
    | Some _ =>
        (Finished tt,
         logged [RedisSetAndExpire (authKey (util_GenerUUID env)) "1" (Minute * 5);
                 Log "redis set error";
                 Respond (ReplyError "redis set error")] w)
    | None =>
        (Finished tt,
         {| clock := clock w;
            redis := <[authKey (util_GenerUUID env)
                         := Redis.Entry "1" (clock w + Minute * 5)]> (redis w);
            trace := trace w ++
              [RedisSetAndExpire (authKey (util_GenerUUID env)) "1" (Minute * 5);
               Respond (ReplyJSON (H_authcode (util_GenerUUID env)))] |})
    end.
Proof.
  unfold run, thirdAuthcode, logged, authKey. exec_unfold. cbn.
  destruct (redis_SetAndExpire_err env); cbn; rewrite <- !app_assoc;
    reflexivity.
Qed.

(** X1. A handshake that is begun and never completed is gone after five
    minutes: a poll for its token, on any world in which the key still holds
    what the begin wrote, answers "expired" and leaves the store as it is. *)
Theorem pending_entry_expires env c w env' c' w' :
  redis_SetAndExpire_err env = None →
  redis_GetString_err env' = None →
  Query c' "authcode" = util_GenerUUID env →
  redis w' !! authKey (util_GenerUUID env)
    = redis (run (thirdAuthcode env c) w).2 !! authKey (util_GenerUUID env) →
  (clock w + 5 * Minute <= clock w')%Z →
  run (thirdAuthStatus env' c') w' =
    (Finished tt,
     logged [RedisGetString (authKey (util_GenerUUID env));
             Respond (ReplyError "登录状态已过期！")] w').
Proof.
  intros Hset Hget Hq Hkey Hlate.
  rewrite thirdAuthcode_run, Hset in Hkey. cbn in Hkey.
  rewrite lookup_insert_eq in Hkey.
  rewrite <- Hq. apply thirdAuthStatus_NotFound; [done |]. rewrite Hq.
  apply (GetString_expired _ _ _ _ _ Hkey). unfold Minute, Second in *. lia.
Qed.

(** X2. Whatever the store holds and whether or not Redis fails, a poll ends
    without a panic after exactly one answer; it calls nothing but the
    logger, the response and the store's read and delete; the clock does
    not move, and the store is as before or has lost the polled key. *)
Theorem poll_answers_exactly_once env c w :
  let polled := run (thirdAuthStatus env c) w in
  polled.1 = Finished tt
  ∧ length (replies (calls (thirdAuthStatus env c) w)) = 1%nat
  ∧ Forall (λ e, pollCall e = true) (calls (thirdAuthStatus env c) w)
  ∧ clock polled.2 = clock w
  ∧ (redis polled.2 = redis w
     ∨ redis polled.2 = delete (authKey (Query c "authcode")) (redis w)).
Proof.
  intros polled. subst polled.
  destruct (redis_GetString_err env) as [e |] eqn:Hget.
  { pose proof (thirdAuthStatus_GetString_error env c w e Hget) as Hrun.
    rewrite (calls_logged _ _ _ _ Hrun), Hrun. cbn.
    repeat split; [repeat constructor | by left]. }
  destruct (Redis.GetString (clock w) (redis w) (authKey (Query c "authcode")))
    as [| a v] eqn:Hv.
  { pose proof (thirdAuthStatus_NotFound env c w Hget Hv) as Hrun.
    rewrite (calls_logged _ _ _ _ Hrun), Hrun. cbn.
    repeat split; [repeat constructor | by left]. }
  destruct (decide (String a v = "1")) as [H1 | H1].
  { rewrite H1 in Hv.
    pose proof (thirdAuthStatus_Pending env c w Hget Hv) as Hrun.
    rewrite (calls_logged _ _ _ _ Hrun), Hrun. cbn.
    repeat split; [repeat constructor | by left]. }
  destruct (decide (String a v = "0")) as [H0 | H0].
  { rewrite H0 in Hv.
    pose proof (thirdAuthStatus_Failed env c w Hget Hv) as Hrun.
    rewrite (calls_logged _ _ _ _ Hrun), Hrun. cbn.
    repeat split; [repeat constructor | by left]. }
  pose proof (thirdAuthStatus_result env c w (String a v) Hget Hv
                ltac:(discriminate) H1 H0) as Hrun.
  rewrite (calls_trace _ _ _ _ _ Hrun eq_refl), Hrun. cbn.
  destruct (redis_Del_err env); cbn;
    (repeat split; [repeat constructor | (by left) || (by right)]).
Qed.

(** X3. The single use of a login result rests on the delete: when the delete
    fails, the poll still answers with the result (the failure is only
    logged), the entry stays, and until it expires another poll is answered
    with the same result. *)
Theorem failed_delete_allows_replay env env' c w (r : L) (e : error) d :
  redis_GetString_err env = None →
  redis_Del_err env = Some e →
  redis_GetString_err env' = None →
  Redis.GetString (clock w) (redis w) (authKey (Query c "authcode")) = ToJson r →
  Redis.GetString (clock w + d) (redis w) (authKey (Query c "authcode")) = ToJson r →
  ReadJsonByByte (ToJson r) = Ok (Some r) →
  ToJson r ≠ "" → ToJson r ≠ "1" → ToJson r ≠ "0" →
  let polled := run (thirdAuthStatus env c) w in
  calls (thirdAuthStatus env c) w
    = [RedisGetString (authKey (Query c "authcode"));
       RedisDel (authKey (Query c "authcode"));
       Log "redis del error";
       Respond (ReplyJSON (H_status_result 1 (Some r)))]
  ∧ redis polled.2 = redis w
  ∧ replies (calls (thirdAuthStatus env' c) (advance d polled.2))
    = [ReplyJSON (H_status_result 1 (Some r))].
Proof.
  intros Hget Hdel Hget' Hv Hv' Hrt H0 H1 H2 polled. subst polled.
  pose proof (thirdAuthStatus_result env c w _ Hget Hv H0 H1 H2) as Hrun.
  rewrite Hdel, Hrt in Hrun.
  rewrite (calls_trace _ _ _ _ _ Hrun eq_refl), Hrun.
  split; [done |]. split; [done |].
  match goal with |- context [calls _ ?w1] =>
    pose proof (thirdAuthStatus_result env' c w1 _ Hget' Hv' H0 H1 H2) as Hrun'
  end.
  rewrite Hrt in Hrun'.
  rewrite (calls_trace _ _ _ _ _ Hrun' eq_refl).
  destruct (redis_Del_err env'); reflexivity.
Qed.

(** X4. An entry that is neither a sentinel nor a decodable login result is
    consumed all the same: the poll deletes it, answers with the decoding
    error, and the next poll answers "expired". *)
Theorem undecodable_entry_is_consumed env env' c w (v : string) (e : error) d :
  redis_GetString_err env = None →
  redis_Del_err env = None →
  redis_GetString_err env' = None →
  Redis.GetString (clock w) (redis w) (authKey (Query c "authcode")) = v →
  v ≠ "" → v ≠ "1" → v ≠ "0" →
  ReadJsonByByte (A := L) v = Err e →
  let polled := run (thirdAuthStatus env c) w in
  calls (thirdAuthStatus env c) w
    = [RedisGetString (authKey (Query c "authcode"));
       RedisDel (authKey (Query c "authcode"));
       Respond (ReplyError e)]
  ∧ redis polled.2 = delete (authKey (Query c "authcode")) (redis w)
  ∧ replies (calls (thirdAuthStatus env' c) (advance d polled.2))
    = [ReplyError "登录状态已过期！"].
Proof.
  intros Hget Hdel Hget' Hv H0 H1 H2 Hbad polled. subst polled.
  pose proof (thirdAuthStatus_result env c w _ Hget Hv H0 H1 H2) as Hrun.
  rewrite Hdel, Hbad in Hrun.
  rewrite (calls_trace _ _ _ _ _ Hrun eq_refl), Hrun.
  split; [done |]. split; [done |].
  erewrite calls_logged; [| apply thirdAuthStatus_NotFound; [done |]; cbn;
                             apply GetString_Del].
  reflexivity.
Qed.

(** *** What the callbacks and the push never do *)

(** X5. On every path, a panic included, a callback neither reads nor deletes
    from the store and sends no push, and the store differs afterwards at
    most under the key of the request's [state]. *)
Theorem callback_touches_only_its_entry env c w
    (callback : Context → Handler L unit unit) :
  callback = giteeOAuth env ∨ callback = mallOAuth env →
  Forall (λ e, callbackCall e = true) (calls (callback c) w)
  ∧ ∀ k : string, k ≠ authKey (Query c "state") →
      redis (run (callback c) w).2 !! k = redis w !! k.
Proof.
  intros [-> | ->]; apply keeps_run;
    [apply keeps_giteeOAuth | apply keeps_mallOAuth].
Qed.

(** X6. On every path, a panic included, a push calls nothing but the logger,
    the store's read and write, the POST and the close of a response body,
    and the store differs afterwards at most under the key of the uid. *)
Theorem push_touches_only_its_marker env (serverAddresses uid content : string) w :
  Forall (λ e, pushCall e = true) (calls (Push env serverAddresses uid content) w)
  ∧ ∀ k : string, k ≠ ECHOOO_PUSH_UID ++ uid →
      redis (run (Push env serverAddresses uid content) w).2 !! k = redis w !! k.
Proof. apply keeps_run, keeps_Push. Qed.

(** *** The login of an account that exists *)

Lemma not_one_eqb (z : Z) : z ≠ 1 → Z.eqb z 1 = false.
Proof. intros Hz. by apply Z.eqb_neq. Qed.

(** A callback on a profile linked to an account that is not destroyed, by
    what [execLogin] and the write to the store answer. *)
Lemma callback_logs_in env c w callback p m :
  Resolves env c w callback p →
  db_queryWithGiteeUID env (login p) = Ok (Some m) →
  Model.IsDestroy m ≠ 1 →
  ∃ (pre : list (Event L)) (span : string),
    (∀ e, e ∈ pre → phase e = Resolution)
    ∧ run (callback c) w =
        match user_execLogin env m (config_APP env) with
        | Err e =>
            (Finished tt,
             logged (pre ++ [ExecLogin m (config_APP env);
                             Respond (ReplyError e); SpanFinish span]) w)
        | Ok loginResp =>
            let str := match loginResp with Some r => ToJson r | None => "0" end in
            match redis_SetAndExpire_err env with
            | Some _ =>
                (Finished tt,
                 logged (pre ++
                   [ExecLogin m (config_APP env);
                    GoSentWelcomeMsg (util_GetClientPublicIP env) (Model.UID m);
                    RedisSetAndExpire (authKey (Query c "state")) str (Minute * 1);
                    Log "redis set error";
                    Respond (ReplyError "redis set error");
                    SpanFinish span]) w)
            | None =>
                (Finished tt,
                 {| clock := clock w + Second * 3;
                    redis := <[authKey (Query c "state")
                                 := Redis.Entry str (clock w + Minute * 1)]>
                               (redis w);
                    trace := trace w ++ pre ++
                      [ExecLogin m (config_APP env);
                       GoSentWelcomeMsg (util_GetClientPublicIP env) (Model.UID m);
                       RedisSetAndExpire (authKey (Query c "state")) str
                         (Minute * 1);
                       Respond (ReplyString 200 "登录失败！");
                       SpanFinish span] |})
            end
        end.
Proof.
  intros Hres Hq Hd. apply not_one_eqb in Hd.
  destruct Hres as [tok userInfo Hc Hx Hp | userInfo Hc Hm]; cbn in Hq;
    unfold returns in *.
  - rewrite requestGiteeAccessToken_run in Hx.
    rewrite requestGiteeUserInfo_run in Hp. cbn in Hx, Hp.
    exists [HttpPostForm exchangeURL (exchangeForm env (Query c "code"));
            HttpGet (profileURL tok);
            DBQueryWithGiteeUID (giteeUserInfo.Login userInfo);
            SpanStart "giteelogin";
            SpanSetTag "username" (giteeUserInfo.Login userInfo)],
           "giteelogin".
    split; cycle 1.
    + unfold giteeOAuth, logged, authKey. rewrite (is_empty_false _ Hc).
      unfold run at 1. exec. rewrite Hx. exec. rewrite Hp. exec.
      rewrite Hq. unfold loginExisting, storeLoginResult. exec.
      rewrite Hd. exec.
      destruct (user_execLogin env m (config_APP env)) as [loginResp | e];
        exec; [destruct (redis_SetAndExpire_err env); exec |];
        rewrite <- !app_assoc; reflexivity.
    + intros e He. in_list He; reflexivity.
  - apply mall_returns_Ok in Hm as (resp & Hdo & Hm).
    exists [HttpDo "GET" (mallURL (Query c "env")) (mallHeader (Query c "token"));
            CloseBody;
            DBQueryWithGiteeUID (MallUser.UserID userInfo);
            SpanStart "malllogin";
            SpanSetTag "username" (MallUser.UserID userInfo)],
           "malllogin".
    split; cycle 1.
    + unfold mallOAuth, logged, authKey. rewrite (is_empty_false _ Hc).
      unfold run at 1. exec. rewrite Hdo. exec. rewrite Hm. exec.
      rewrite Hq. unfold loginExisting, storeLoginResult. exec.
      rewrite Hd. exec.
      destruct (user_execLogin env m (config_APP env)) as [loginResp | e];
        exec; [destruct (redis_SetAndExpire_err env); exec |];
        rewrite <- !app_assoc; reflexivity.
    + intros e He. in_list He; reflexivity.
Qed.

(** Calls of the resolution phase write nothing on the response. *)
Lemma replies_resolution (pre : list (Event L)) :
  (∀ e, e ∈ pre → phase e = Resolution) → replies pre = [].
Proof.
  induction pre as [| e pre IH]; intros Hpre; [done |].
  unfold replies in *. cbn.
  assert (He : phase e = Resolution) by (apply Hpre; left).
  rewrite IH; [| intros e' He'; apply Hpre; by right].
  by destruct e.
Qed.

Lemma replies_app (l1 l2 : list (Event L)) :
  replies (l1 ++ l2) = (replies l1 ++ replies l2)%list.
Proof. unfold replies. apply omap_app. Qed.

(** X7. A callback that logs an existing account in delivers the session once:
    it calls [execLogin], starts the welcome message and stores the result
    for a minute; the next poll for the request's [state], in that minute,
    answers status 1 with exactly that result; the poll after it answers
    "expired".  The callback does not ask whether the handshake was begun. *)
Theorem existing_login_is_delivered_once env env1 env2 c c' w callback p m
    (r : L) d d' :
  Resolves env c w callback p →
  db_queryWithGiteeUID env (login p) = Ok (Some m) →
  Model.IsDestroy m ≠ 1 →
  user_execLogin env m (config_APP env) = Ok (Some r) →
  redis_SetAndExpire_err env = None →
  ReadJsonByByte (ToJson r) = Ok (Some r) →
  ToJson r ≠ "" → ToJson r ≠ "1" → ToJson r ≠ "0" →
  Query c' "authcode" = Query c "state" →
  redis_GetString_err env1 = None → redis_Del_err env1 = None →
  redis_GetString_err env2 = None →
  Second * 3 + d < Minute * 1 →
  let done := (run (callback c) w).2 in
  let polled := (run (thirdAuthStatus env1 c') (advance d done)).2 in
  ExecLogin m (config_APP env) ∈ calls (callback c) w
  ∧ GoSentWelcomeMsg (util_GetClientPublicIP env) (Model.UID m)
      ∈ calls (callback c) w
  ∧ replies (calls (callback c) w) = [ReplyString 200 "登录失败！"]
  ∧ replies (calls (thirdAuthStatus env1 c') (advance d done))
    = [ReplyJSON (H_status_result 1 (Some r))]
  ∧ replies (calls (thirdAuthStatus env2 c') (advance d' polled))
    = [ReplyError "登录状态已过期！"].
Proof.
  intros Hres Hq Hd Hlogin Hset Hrt H0 H1 H2 Hc' Hget1 Hdel1 Hget2 Hd1
    done polled.
  destruct (callback_logs_in env c w callback p m Hres Hq Hd)
    as (pre & span & Hpre & Hrun).
  rewrite Hlogin, Hset in Hrun. cbn zeta in Hrun.
  subst polled done.
  rewrite (calls_trace _ _ _ _ _ Hrun eq_refl), Hrun.
  split; [in_app |]. split; [in_app |].
  split; [by rewrite replies_app, (replies_resolution _ Hpre) |].
  assert (Hv : Redis.GetString (clock w + Second * 3 + d)
                 (<[authKey (Query c "state")
                      := Redis.Entry (ToJson r) (clock w + Minute * 1)]> (redis w))
                 (authKey (Query c' "authcode")) = ToJson r).
  { rewrite Hc'. eapply GetString_entry; [apply lookup_insert_eq | lia]. }
  match goal with |- context [calls _ ?w1] =>
    pose proof (thirdAuthStatus_result env1 c' w1 _ Hget1 Hv H0 H1 H2) as Hrun1
  end.
  rewrite Hdel1, Hrt in Hrun1.
  rewrite (calls_trace _ _ _ _ _ Hrun1 eq_refl), Hrun1.
  split; [done |].
  erewrite calls_logged; [| apply thirdAuthStatus_NotFound; [done |]; cbn;
                             apply GetString_Del].
  reflexivity.
Qed.

(** X8. When [execLogin] returns an error, the callback answers with it and
    stops: no welcome message, nothing written to the store, the clock as
    before. *)
Theorem failed_login_writes_nothing env c w callback p m (e : error) :
  Resolves env c w callback p →
  db_queryWithGiteeUID env (login p) = Ok (Some m) →
  Model.IsDestroy m ≠ 1 →
  user_execLogin env m (config_APP env) = Err e →
  (run (callback c) w).1 = Finished tt
  ∧ replies (calls (callback c) w) = [ReplyError e]
  ∧ (∀ ip uid, GoSentWelcomeMsg ip uid ∉ calls (callback c) w)
  ∧ (∀ key val expire, RedisSetAndExpire key val expire ∉ calls (callback c) w)
  ∧ redis (run (callback c) w).2 = redis w
  ∧ clock (run (callback c) w).2 = clock w.
Proof.
  intros Hres Hq Hd Hlogin.
  destruct (callback_logs_in env c w callback p m Hres Hq Hd)
    as (pre & span & Hpre & Hrun).
  rewrite Hlogin in Hrun.
  rewrite (calls_logged _ _ _ _ Hrun), Hrun.
  split; [done |].
  split; [by rewrite replies_app, (replies_resolution _ Hpre) |].
  split; [| split; [| done]].
  - intros ip uid [Hin | Hin]%elem_of_app;
      [apply Hpre in Hin; discriminate Hin | in_list Hin].
  - intros key val expire [Hin | Hin]%elem_of_app;
      [apply Hpre in Hin; discriminate Hin | in_list Hin].
Qed.

(** X9. The failure sentinel: when [execLogin] returns neither a result nor an
    error, the callback stores "0" for a minute, and a poll in that minute
    answers status 2. *)
Theorem login_without_result_stores_the_sentinel env env' c c' w callback p m d :
  Resolves env c w callback p →
  db_queryWithGiteeUID env (login p) = Ok (Some m) →
  Model.IsDestroy m ≠ 1 →
  user_execLogin env m (config_APP env) = Ok None →
  redis_SetAndExpire_err env = None →
  Query c' "authcode" = Query c "state" →
  redis_GetString_err env' = None →
  Second * 3 + d < Minute * 1 →
  let done := (run (callback c) w).2 in
  redis done = <[authKey (Query c "state")
                   := Redis.Entry "0" (clock w + Minute * 1)]> (redis w)
  ∧ replies (calls (thirdAuthStatus env' c') (advance d done))
    = [ReplyJSON (H_status 2)].
Proof.
  intros Hres Hq Hd Hlogin Hset Hc' Hget Hd1 done. subst done.
  destruct (callback_logs_in env c w callback p m Hres Hq Hd)
    as (pre & span & Hpre & Hrun).
  rewrite Hlogin, Hset in Hrun. cbn zeta in Hrun. rewrite Hrun.
  split; [done |].
  erewrite calls_logged; [| apply thirdAuthStatus_Failed; [done |]; cbn;
                             rewrite Hc'; eapply GetString_entry;
                             [apply lookup_insert_eq | lia]].
  reflexivity.
Qed.

(** X10. With a read that succeeds, a poll answers status 0 exactly when it reads
    "1" and status 2 exactly when it reads "0". *)
Theorem poll_status_follows_the_entry env c w :
  redis_GetString_err env = None →
  let v := Redis.GetString (clock w) (redis w) (authKey (Query c "authcode")) in
  (replies (calls (thirdAuthStatus env c) w) = [ReplyJSON (H_status 0)]
   ↔ v = "1")
  ∧ (replies (calls (thirdAuthStatus env c) w) = [ReplyJSON (H_status 2)]
     ↔ v = "0").
Proof.
  intros Hget v.
  destruct v as [| a s] eqn:Hv; subst v.
  { rewrite (calls_logged _ _ _ _ (thirdAuthStatus_NotFound env c w Hget Hv)).
    split; split; discriminate. }
  destruct (decide (String a s = "1")) as [H1 | H1].
  { rewrite H1 in *.
    rewrite (calls_logged _ _ _ _ (thirdAuthStatus_Pending env c w Hget Hv)).
    split; split; done. }
  destruct (decide (String a s = "0")) as [H0 | H0].
  { rewrite H0 in *.
    rewrite (calls_logged _ _ _ _ (thirdAuthStatus_Failed env c w Hget Hv)).
    split; split; done. }
  pose proof (thirdAuthStatus_result env c w _ Hget Hv ltac:(discriminate) H1 H0)
    as Hrun.
  rewrite (calls_trace _ _ _ _ _ Hrun eq_refl).
  destruct (redis_Del_err env), (ReadJsonByByte (String a s));
    split; split; done.
Qed.

(** X11. A callback without [state] is not refused: the session goes under the
    bare prefix, where a poll without [authcode] finds it. *)
Theorem callback_without_state_is_served env env' c c' w callback p m (r : L) d :
  Resolves env c w callback p →
  db_queryWithGiteeUID env (login p) = Ok (Some m) →
  Model.IsDestroy m ≠ 1 →
  user_execLogin env m (config_APP env) = Ok (Some r) →
  redis_SetAndExpire_err env = None →
  ReadJsonByByte (ToJson r) = Ok (Some r) →
  ToJson r ≠ "" → ToJson r ≠ "1" → ToJson r ≠ "0" →
  params c !! "state" = None →
  params c' !! "authcode" = None →
  redis_GetString_err env' = None →
  Second * 3 + d < Minute * 1 →
  let done := (run (callback c) w).2 in
  redis done !! ThirdAuthcodePrefix
    = Some (Redis.Entry (ToJson r) (clock w + Minute * 1))
  ∧ replies (calls (thirdAuthStatus env' c') (advance d done))
    = [ReplyJSON (H_status_result 1 (Some r))].
Proof.
  intros Hres Hq Hd Hlogin Hset Hrt H0 H1 H2 Hstate Hcode Hget Hd1 done.
  subst done.
  assert (Hs : Query c "state" = "") by (unfold Query; by rewrite Hstate).
  assert (Ha : Query c' "authcode" = "") by (unfold Query; by rewrite Hcode).
  assert (Hk : authKey "" = ThirdAuthcodePrefix) by reflexivity.
  destruct (callback_logs_in env c w callback p m Hres Hq Hd)
    as (pre & span & Hpre & Hrun).
  rewrite Hlogin, Hset, Hs, Hk in Hrun. cbn zeta in Hrun. rewrite Hrun.
  split; [apply lookup_insert_eq |].
  assert (Hv : Redis.GetString (clock w + Second * 3 + d)
                 (<[ThirdAuthcodePrefix
                      := Redis.Entry (ToJson r) (clock w + Minute * 1)]> (redis w))
                 (authKey (Query c' "authcode")) = ToJson r).
  { rewrite Ha, Hk. eapply GetString_entry; [apply lookup_insert_eq | lia]. }
  match goal with |- context [calls _ ?w1] =>
    pose proof (thirdAuthStatus_result env' c' w1 _ Hget Hv H0 H1 H2) as Hrun1
  end.
  rewrite Hrt in Hrun1.
  rewrite (calls_trace _ _ _ _ _ Hrun1 eq_refl).
  destruct (redis_Del_err env'); reflexivity.
Qed.

(** X12. A login result that nobody polls is gone a minute after the callback
    wrote it: a poll on any world in which the key still holds what the
    callback wrote, a minute or more after the write, answers "expired". *)
Theorem unpolled_result_expires env env' (authcode : string)
    (loginResp : option L) c' w w' :
  redis_SetAndExpire_err env = None →
  redis_GetString_err env' = None →
  Query c' "authcode" = authcode →
  redis w' !! authKey authcode
    = redis (run (storeLoginResult env authcode loginResp) w).2
        !! authKey authcode →
  (clock w + Minute * 1 <= clock w')%Z →
  run (thirdAuthStatus env' c') w' =
    (Finished tt,
     logged [RedisGetString (authKey authcode);
             Respond (ReplyError "登录状态已过期！")] w').
Proof.
  intros Hset Hget Hq Hkey Hlate.
  rewrite storeLoginResult_run, Hset in Hkey. cbn in Hkey.
  rewrite lookup_insert_eq in Hkey.
  rewrite <- Hq. apply thirdAuthStatus_NotFound; [done |]. rewrite Hq.
  by apply (GetString_expired _ _ _ _ _ Hkey).
Qed.

(** *** The transaction of a new account, case by case *)

Lemma hasAvatar_guard (url : string) :
  negb (url =? "") && negb (HasSuffix url "no_portrait.png") = hasAvatar url.
Proof. reflexivity. Qed.

(** Short of a panic, the avatar pipeline hands on the account with
    [IsUploadAvatar] 0 or 1. *)
Lemma fetchAvatar_continues env (p : Profile) :
  avatarSettles env (avatar p) →
  ∃ (flag : Z) (evsA : list (Event L)) (dsA : list (Deferred L)),
    (flag = 0 ∨ flag = 1)
    ∧ (∀ fr, fetchAvatar env (avatar p) (util_GenerUUID env)
               (newAccount env p 0) fr
             = (Continue (newAccount env p flag),
                {| world := logged evsA (world fr);
                   pending := dsA ++ pending fr |}))
    ∧ (∀ e, e ∈ evsA → phase e = AvatarFetch)
    ∧ (∀ d, d ∈ dsA → d = DeferCall CloseImage).
Proof.
  intros Hsettles. unfold fetchAvatar, logged. rewrite hasAvatar_guard.
  destruct (hasAvatar (avatar p)) eqn:Hguard.
  - destruct (fileService_DownloadImage env (avatar p)) as [img |] eqn:Hdown.
    + destruct Hsettles as [Hs | [Hs | Hs]]; [congruence | congruence |].
      apply Z.eqb_neq in Hs.
      destruct (fileService_UploadFile env
                  (avatarPath env (util_GenerUUID env)) "image/png" img)
        as [e |] eqn:Hup.
      * exists 0, [DownloadImage (avatar p) (5 * Second);
                   UploadFile (avatarPath env (util_GenerUUID env))
                     "image/png" img],
               [DeferCall CloseImage].
        split; [by left |]. split; [| split].
        -- intros fr. exec_unfold. cbn. rewrite Hs. cbn.
           unfold avatarPath in Hup. rewrite Hup.
           by rewrite <- !app_assoc.
        -- intros ? Hin; in_list Hin; reflexivity.
        -- intros ? Hin; in_list Hin; reflexivity.
      * exists 1, [DownloadImage (avatar p) (5 * Second);
                   UploadFile (avatarPath env (util_GenerUUID env))
                     "image/png" img],
               [DeferCall CloseImage].
        split; [by right |]. split; [| split].
        -- intros fr. exec_unfold. cbn. rewrite Hs. cbn.
           unfold avatarPath in Hup. rewrite Hup.
           by rewrite <- !app_assoc.
        -- intros ? Hin; in_list Hin; reflexivity.
        -- intros ? Hin; in_list Hin; reflexivity.
    + exists 0, [DownloadImage (avatar p) (5 * Second)], [].
      split; [by left |]. split; [| split].
      * intros fr. exec_unfold. reflexivity.
      * intros ? Hin; in_list Hin; reflexivity.
      * intros ? Hin; in_list Hin.
  - exists 0, [], []. split; [by left |]. split; [| split].
    + intros [[] ?]. cbn. by rewrite app_nil_r.
    + intros ? Hin; in_list Hin.
    + intros ? Hin; in_list Hin.
Qed.

Section Exact.
#[local] Arguments fetchAvatar : simpl never.
#[local] Arguments provision : simpl never.
#[local] Arguments storeLoginResult : simpl never.

(** A callback on a profile that is not linked yet, when the avatar pipeline
    and the transaction are known: its calls, its clock and its store. *)
Lemma provisioning_outline_exact env c w callback p model
    (evsA evsT : list (Event L)) (dsA : list (Deferred L))
    (f : Flow unit unit) (clk : Z → Z)
    (upd : Z → gmap string Redis.entry → gmap string Redis.entry) :
  Resolves env c w callback p →
  db_queryWithGiteeUID env (login p) = Ok None →
  (∀ fr, fetchAvatar env (avatar p) (util_GenerUUID env) (newAccount env p 0) fr
         = (Continue model,
            {| world := logged evsA (world fr); pending := dsA ++ pending fr |})) →
  (∀ d, d ∈ dsA → d = DeferCall CloseImage) →
  f = Continue tt ∨ f = Returned tt →
  (∀ fr, provisionAndStore env (provider p) (row p) model (Query c "state") fr
         = (f, {| world := {| clock := clk (clock (world fr));
                              redis := upd (clock (world fr)) (redis (world fr));
                              trace := trace (world fr) ++ evsT |};
                  pending := DeferRecoverRollback :: pending fr |})) →
  ∃ pre post : list (Event L),
    run (callback c) w
      = (Finished tt,
         {| clock := clk (clock w); redis := upd (clock w) (redis w);
            trace := trace w ++ pre ++ evsA ++ evsT ++ post |})
    ∧ (∀ e, e ∈ pre → phase e = Resolution)
    ∧ (∀ e, e ∈ post → phase e = Closing).
Proof.
  intros Hres Hq Havatar HdsA Hf Htail.
  destruct (callback_provisions env c w callback p Hres Hq)
    as (pre & span & Hpre & ->).
  unfold provisionWithAvatar. exec_unfold. rewrite Havatar. cbn.
  match goal with
  | |- context [provision _ _ _ _ ?fr1] => specialize (Htail fr1)
  end.
  unfold provisionAndStore in Htail. exec_unfold. cbn in Htail.
  rewrite Htail.
  assert (Hend : ∃ post : list (Event L),
            unwind false (dsA ++ [DeferCall (SpanFinish span)])
              (((trace w ++ pre) ++ evsA) ++ evsT)
            = (trace w ++ pre ++ evsA ++ evsT ++ post)%list
            ∧ ∀ e, e ∈ post → phase e = Closing).
  { destruct (unwind_extends false (dsA ++ [DeferCall (SpanFinish span)])
                (((trace w ++ pre) ++ evsA) ++ evsT))
      as (post & Hpost & Hclosing).
    exists post. split; [by rewrite Hpost, <- !app_assoc |].
    intros e He. destruct (Hclosing e He) as [(? & _) | Hd]; [done |].
    apply elem_of_app in Hd as [Hd | Hd].
    - apply HdsA in Hd. by injection Hd as ->.
    - apply list_elem_of_singleton in Hd. by injection Hd as ->. }
  destruct Hend as (post & Hpost & Hclosing).
  exists pre, post. split; [| done].
  destruct Hf as [-> | ->]; cbn; by rewrite Hpost.
Qed.
End Exact.

(** The transaction when it fails before the commit. *)
Lemma provisionAndStore_fails env (p : Profile) (flag : Z) (authcode : string)
    (msg : error) (rolled : bool) :
  StorageFails env p msg rolled →
  ∃ evsT : list (Event L),
    (∀ fr, provisionAndStore env (provider p) (row p) (newAccount env p flag)
             authcode fr
           = (Returned tt,
              {| world := {| clock := clock (world fr);
                             redis := redis (world fr);
                             trace := trace (world fr) ++ evsT |};
                 pending := DeferRecoverRollback :: pending fr |}))
    ∧ replies evsT = [ReplyError msg]
    ∧ (TxRollback ∈ evsT ↔ rolled = true)
    ∧ (∀ e, e ∈ evsT → phase e = Rest)
    ∧ (∀ e, e ∈ evsT → e ≠ TxCommit ∧ ∀ k v t, e ≠ RedisSetAndExpire k v t).
Proof.
  intros Hfail.
  unfold provisionAndStore, provision, storeLoginResult,
    createUserWithRespAndTx, commitCallback.
  destruct Hfail as [e Hb | e Hb Hi | e Hb Hi Hc].
  - eexists [_; _; _]. split; [| split; [| split; [| split]]].
    + intros fr. exec_unfold. cbn. rewrite Hb. cbn.
      rewrite <- !app_assoc. reflexivity.
    + reflexivity.
    + split; [intros Hin; in_list Hin | discriminate].
    + intros ? Hin; in_list Hin; reflexivity.
    + intros ? Hin; in_list Hin; done.
  - eexists [_; _; _; _; _]. split; [| split; [| split; [| split]]].
    + intros fr. exec_unfold. cbn. rewrite Hb. cbn. rewrite Hi. cbn.
      rewrite <- !app_assoc. reflexivity.
    + reflexivity.
    + split; [done | intros _; in_app].
    + intros ? Hin; in_list Hin; reflexivity.
    + intros ? Hin; in_list Hin; done.
  - eexists [_; _; _; _; _]. split; [| split; [| split; [| split]]].
    + intros fr. exec_unfold. cbn. rewrite Hb. cbn. rewrite Hi. cbn.
      rewrite (Hc flag). cbn. rewrite <- !app_assoc. reflexivity.
    + reflexivity.
    + split; [done | intros _; in_app].
    + intros ? Hin; in_list Hin; reflexivity.
    + intros ? Hin; in_list Hin; done.
Qed.

(** The transaction when the account is created, by what the commit and the
    write to the store answer. *)
Lemma provisionAndStore_creates env (p : Profile) (flag : Z) (authcode : string)
    (r : L) fr :
  CreatesAccount env p r →
  provisionAndStore env (provider p) (row p) (newAccount env p flag) authcode fr
  = (match redis_SetAndExpire_err env with
     | Some _ => Returned tt
     | None => Continue tt
     end,
     {| world :=
          {| clock := match redis_SetAndExpire_err env with
                      | Some _ => clock (world fr)
                      | None => clock (world fr) + Second * 3
                      end;
             redis := match redis_SetAndExpire_err env with
                      | Some _ => redis (world fr)
                      | None =>
                          <[authKey authcode
                              := Redis.Entry (ToJson r)
                                   (clock (world fr) + Minute * 1)]>
                            (redis (world fr))
                      end;
             trace := trace (world fr) ++
               [TxBegin; TxInsertGitee (row p);
                CreateUserWithRespAndTx (newAccount env p flag)
                  (util_GetClientPublicIP env) "";
                TxCommit]
               ++ match tx_Commit env with
                  | Some _ => [TxRollback; Log "数据库事物提交失败";
                               Respond (ReplyError "数据库事物提交失败")]
                  | None => []
                  end
               ++ [RedisSetAndExpire (authKey authcode) (ToJson r) (Minute * 1)]
               ++ match redis_SetAndExpire_err env with
                  | Some _ => [Log "redis set error";
                               Respond (ReplyError "redis set error")]
                  | None => [Respond (ReplyString 200 "登录失败！")]
                  end |};
        pending := DeferRecoverRollback :: pending fr |}).
Proof.
  intros (Hb & Hi & Hc).
  unfold provisionAndStore, provision, storeLoginResult,
    createUserWithRespAndTx, commitCallback, authKey.
  exec_unfold. cbn. rewrite Hb. cbn. rewrite Hi. cbn. rewrite (Hc flag). cbn.
  destruct (tx_Commit env); cbn;
    destruct (redis_SetAndExpire_err env); cbn;
    rewrite <- !app_assoc; reflexivity.
Qed.

Lemma replies_silent (l : list (Event L)) :
  (∀ e, e ∈ l → phase e ≠ Rest) → replies l = [].
Proof.
  induction l as [| e l IH]; intros Hl; [done |].
  unfold replies in *. cbn.
  assert (He : phase e ≠ Rest) by (apply Hl; left).
  rewrite IH; [| intros e' He'; apply Hl; by right].
  by destruct e.
Qed.

Lemma phase_in (l : list (Event L)) (ph : Phase) (e : Event L) :
  (∀ e', e' ∈ l → phase e' = ph) → phase e ≠ ph → e ∉ l.
Proof. intros Hl He Hin. by apply He, Hl. Qed.

(** X13. A callback whose transaction fails before the commit answers the
    provider's redirect with that one error: the transaction is rolled back
    unless it could not even begin, nothing is committed, and the store and
    the clock are as they were, so that the poll for the handshake goes on
    seeing what it saw. *)
Theorem failed_transaction_is_reported env c w callback p msg rolled :
  Resolves env c w callback p →
  db_queryWithGiteeUID env (login p) = Ok None →
  avatarSettles env (avatar p) →
  StorageFails env p msg rolled →
  returns (callback c) w tt
  ∧ replies (calls (callback c) w) = [ReplyError msg]
  ∧ (TxRollback ∈ calls (callback c) w ↔ rolled = true)
  ∧ (TxCommit ∉ calls (callback c) w)
  ∧ (∀ k v t, RedisSetAndExpire k v t ∉ calls (callback c) w)
  ∧ redis (run (callback c) w).2 = redis w
  ∧ clock (run (callback c) w).2 = clock w.
Proof.
  intros Hres Hq Hsettles Hfail.
  destruct (fetchAvatar_continues env p Hsettles)
    as (flag & evsA & dsA & _ & Havatar & HevsA & HdsA).
  destruct (provisionAndStore_fails env p flag (Query c "state") msg rolled
              Hfail) as (evsT & Htail & Hreplies & Hrolled & HevsT & Hnever).
  destruct (provisioning_outline_exact env c w callback p
              (newAccount env p flag) evsA evsT dsA (Returned tt)
              (λ t, t) (λ _ r, r) Hres Hq Havatar HdsA
              (or_intror eq_refl) Htail)
    as (pre & post & Hrun & Hpre & Hpost).
  rewrite (calls_trace _ _ _ _ _ Hrun eq_refl). unfold returns.
  rewrite Hrun. cbn.
  split; [done |]. split; [| split; [| split; [| split]]]; [| | | | done].
  - rewrite !replies_app, Hreplies.
    rewrite (replies_resolution pre Hpre).
    rewrite (replies_silent evsA), (replies_silent post); [done | |].
    + intros e He. by rewrite (Hpost e He).
    + intros e He. by rewrite (HevsA e He).
  - rewrite <- Hrolled. rewrite !elem_of_app.
    pose proof (phase_in pre Resolution TxRollback Hpre) as H1.
    pose proof (phase_in evsA AvatarFetch TxRollback HevsA) as H2.
    pose proof (phase_in post Closing TxRollback Hpost) as H3.
    cbn in H1, H2, H3. split; [| tauto].
    intros [? | [? | [? | ?]]]; [by destruct H1 | by destruct H2 | done
                                | by destruct H3].
  - rewrite !elem_of_app.
    pose proof (phase_in pre Resolution TxCommit Hpre) as H1.
    pose proof (phase_in evsA AvatarFetch TxCommit HevsA) as H2.
    pose proof (phase_in post Closing TxCommit Hpost) as H3.
    cbn in H1, H2, H3.
    intros [? | [? | [Hin | ?]]]; [by destruct H1 | by destruct H2 |
                                  | by destruct H3].
    by destruct (Hnever _ Hin) as [Hne _].
  - intros k v t. rewrite !elem_of_app.
    pose proof (phase_in pre Resolution (RedisSetAndExpire k v t) Hpre) as H1.
    pose proof (phase_in evsA AvatarFetch (RedisSetAndExpire k v t) HevsA)
      as H2.
    pose proof (phase_in post Closing (RedisSetAndExpire k v t) Hpost) as H3.
    cbn in H1, H2, H3.
    intros [? | [? | [Hin | ?]]]; [by destruct H1 | by destruct H2 |
                                  | by destruct H3].
    destruct (Hnever _ Hin) as [_ Hne]. by apply (Hne k v t).
Qed.

(** X14. A callback that creates the account stores its session whatever the
    commit answers.  A commit that fails is rolled back and reported, and the
    callback goes on: it writes the session of that account under the
    handshake's key and answers the request a second time.  Only the write
    to the store decides how the callback ends. *)
Theorem session_is_stored_whatever_the_commit env c w callback p (r : L) :
  Resolves env c w callback p →
  db_queryWithGiteeUID env (login p) = Ok None →
  avatarSettles env (avatar p) →
  CreatesAccount env p r →
  returns (callback c) w tt
  ∧ replies (calls (callback c) w)
    = (match tx_Commit env with
       | Some _ => [ReplyError "数据库事物提交失败"]
       | None => []
       end
       ++ [match redis_SetAndExpire_err env with
           | Some _ => ReplyError "redis set error"
           | None => ReplyString 200 "登录失败！"
           end])%list
  ∧ (TxRollback ∈ calls (callback c) w ↔ tx_Commit env ≠ None)
  ∧ RedisSetAndExpire (authKey (Query c "state")) (ToJson r) (Minute * 1)
      ∈ calls (callback c) w
  ∧ redis (run (callback c) w).2
    = match redis_SetAndExpire_err env with
      | Some _ => redis w
      | None => <[authKey (Query c "state")
                    := Redis.Entry (ToJson r) (clock w + Minute * 1)]> (redis w)
      end
  ∧ clock (run (callback c) w).2
    = match redis_SetAndExpire_err env with
      | Some _ => clock w
      | None => clock w + Second * 3
      end.
Proof.
  intros Hres Hq Hsettles Hcreates.
  destruct (fetchAvatar_continues env p Hsettles)
    as (flag & evsA & dsA & _ & Havatar & HevsA & HdsA).
  pose proof (λ fr, provisionAndStore_creates env p flag (Query c "state") r fr
                      Hcreates) as Htail.
  match type of Htail with
  | ∀ fr, _ = (?f, {| world := {| trace := _ ++ ?evsT |} |}) =>
      destruct (provisioning_outline_exact env c w callback p
                  (newAccount env p flag) evsA evsT dsA f
                  (λ t, match redis_SetAndExpire_err env with
                        | Some _ => t
                        | None => t + Second * 3
                        end)
                  (λ t rds, match redis_SetAndExpire_err env with
                            | Some _ => rds
                            | None =>
                                <[authKey (Query c "state")
                                    := Redis.Entry (ToJson r) (t + Minute * 1)]>
                                  rds
                            end)
                  Hres Hq Havatar HdsA)
        as (pre & post & Hrun & Hpre & Hpost);
        [by destruct (redis_SetAndExpire_err env); [right | left]
        | exact Htail |]
  end.
  rewrite (calls_trace _ _ _ _ _ Hrun eq_refl). unfold returns.
  rewrite Hrun. cbn [fst snd redis clock].
  split; [done |]. split; [| split; [| split; [| done]]].
  - rewrite !replies_app.
    rewrite (replies_resolution pre Hpre).
    rewrite (replies_silent evsA), (replies_silent post); cycle 1.
    { intros e He. by rewrite (Hpost e He). }
    { intros e He. by rewrite (HevsA e He). }
    by destruct (tx_Commit env), (redis_SetAndExpire_err env).
  - pose proof (phase_in pre Resolution TxRollback Hpre) as H1.
    pose proof (phase_in evsA AvatarFetch TxRollback HevsA) as H2.
    pose proof (phase_in post Closing TxRollback Hpost) as H3.
    cbn in H1, H2, H3. rewrite !elem_of_app. split.
    + intros [? | [? | [Hin | ?]]]; [by destruct H1 | by destruct H2 |
                                    | by destruct H3].
      destruct (tx_Commit env); [done |].
      destruct Hin as [Hin | [Hin | [Hin | Hin]]]; [in_list Hin ..|].
      destruct (redis_SetAndExpire_err env); in_list Hin.
    + intros Hcommit. right; right; left.
      destruct (tx_Commit env); [| done]. in_app.
  - rewrite !elem_of_app. right; right; left.
    destruct (tx_Commit env); in_app.
Qed.

(** *** Panics of the callbacks *)

Section Panics.
#[local] Arguments fetchAvatar : simpl never.
#[local] Arguments provision : simpl never.
#[local] Arguments storeLoginResult : simpl never.

Lemma fetchAvatar_panics env (url uid : string) model img fr :
  hasAvatar url = true →
  fileService_DownloadImage env url = Some img →
  uint32 (Avatar_Partition (cfg env)) = 0 →
  fetchAvatar env url uid model fr
  = (Panicked "runtime error: integer divide by zero",
     {| world := logged [DownloadImage url (5 * Second)] (world fr);
        pending := pending fr |}).
Proof.
  intros Hguard Hdown Hzero. unfold fetchAvatar, logged.
  rewrite hasAvatar_guard, Hguard. exec_unfold. cbn.
  by rewrite Hdown, Hzero.
Qed.

Lemma fetchAvatar_stores env (url uid : string) model img fr :
  avatarStored env url uid img →
  fetchAvatar env url uid model fr
  = (Continue (createUserModel.set_IsUploadAvatar 1 model),
     {| world := logged [DownloadImage url (5 * Second);
                         UploadFile (avatarPath env uid) "image/png" img]
                   (world fr);
        pending := DeferCall CloseImage :: pending fr |}).
Proof.
  intros (Hguard & Hdown & Hpart & Hup). unfold fetchAvatar, logged.
  rewrite hasAvatar_guard, Hguard. exec_unfold. cbn.
  rewrite Hdown. apply Z.eqb_neq in Hpart. rewrite Hpart. cbn.
  unfold avatarPath in Hup. rewrite Hup. by rewrite <- !app_assoc.
Qed.

(** X15. With an avatar to fetch, a download that gives an image and a partition
    count that is zero as a [uint32], the callback panics on the division
    that shards the avatar: it has answered nothing, has uploaded nothing,
    has begun no transaction and has not touched the store, and the image it
    downloaded is never closed; the span of the login is still finished. *)
Theorem zero_partitions_panic env c w callback p img :
  Resolves env c w callback p →
  db_queryWithGiteeUID env (login p) = Ok None →
  hasAvatar (avatar p) = true →
  fileService_DownloadImage env (avatar p) = Some img →
  uint32 (Avatar_Partition (cfg env)) = 0 →
  (run (callback c) w).1 = Panic "runtime error: integer divide by zero"
  ∧ replies (calls (callback c) w) = []
  ∧ (∀ e, e ∈ calls (callback c) w → phase e ≠ Rest)
  ∧ DownloadImage (avatar p) (5 * Second) ∈ calls (callback c) w
  ∧ (∀ path ct i, UploadFile path ct i ∉ calls (callback c) w)
  ∧ (CloseImage ∉ calls (callback c) w)
  ∧ (∃ span, last (calls (callback c) w) = Some (SpanFinish span))
  ∧ redis (run (callback c) w).2 = redis w.
Proof.
  intros Hres Hq Hguard Hdown Hzero.
  destruct (callback_provisions env c w callback p Hres Hq)
    as (pre & span & Hpre & Hrun).
  assert (Hrun' : run (callback c) w
                  = (Panic "runtime error: integer divide by zero",
                     logged (pre ++ [DownloadImage (avatar p) (5 * Second);
                                     SpanFinish span]) w)).
  { rewrite Hrun. unfold provisionWithAvatar, logged. exec_unfold.
    rewrite (fetchAvatar_panics _ _ _ _ img); [| done ..]. cbn.
    by rewrite <- !app_assoc. }
  rewrite (calls_logged _ _ _ _ Hrun'), Hrun'. cbn.
  assert (Hphase : ∀ e, e ∈ (pre ++ [DownloadImage (avatar p) (5 * Second);
                                     SpanFinish span])%list →
                        phase e ≠ Rest).
  { intros e [He | He]%elem_of_app; [by rewrite (Hpre e He) |].
    in_list He; done. }
  split; [done |]. split; [by apply replies_silent |].
  split; [done |]. split; [in_app |].
  split; [| split; [| split; [| done]]].
  - intros path ct i [He | He]%elem_of_app; [| in_list He].
    by apply Hpre in He.
  - intros [He | He]%elem_of_app; [| in_list He].
    by apply Hpre in He.
  - exists span. rewrite last_app. reflexivity.
Qed.

(** X16. An avatar that is downloaded and uploaded is recorded on the account:
    the upload goes under the shard of the new uid, which is below the
    partition count, the account is created with [IsUploadAvatar] 1 once the
    transaction gets there, and the image is closed when the callback
    ends. *)
Theorem stored_avatar_is_flagged env c w callback p img :
  Resolves env c w callback p →
  db_queryWithGiteeUID env (login p) = Ok None →
  avatarStored env (avatar p) (util_GenerUUID env) img →
  let shard := ChecksumIEEE (util_GenerUUID env)
               mod uint32 (Avatar_Partition (cfg env)) in
  0 ≤ shard < uint32 (Avatar_Partition (cfg env))
  ∧ UploadFile ("avatar/" ++ fmt_d shard ++ "/" ++ util_GenerUUID env ++ ".png")
      "image/png" img ∈ calls (callback c) w
  ∧ (∀ m ip iv, CreateUserWithRespAndTx m ip iv ∈ calls (callback c) w →
       m = newAccount env p 1)
  ∧ (db_Begin env = None → giteeDB_insertTx env (row p) = None →
       CreateUserWithRespAndTx (newAccount env p 1)
         (util_GetClientPublicIP env) "" ∈ calls (callback c) w)
  ∧ CloseImage ∈ calls (callback c) w.
Proof.
  intros Hres Hq Hstored shard.
  destruct (callback_provisions env c w callback p Hres Hq)
    as (pre & span & Hpre & Hrun0).
  assert (Hrun : ∃ (evsT : list (Event L)) clock' redis',
    run (callback c) w =
      (Finished tt,
       {| clock := clock'; redis := redis';
          trace := trace w ++ pre ++
            [DownloadImage (avatar p) (5 * Second);
             UploadFile (avatarPath env (util_GenerUUID env)) "image/png" img]
            ++ evsT ++ [CloseImage; SpanFinish span] |})
    ∧ TailFacts env (row p) (newAccount env p 1) (Query c "state")
        (clock w) (redis w) evsT clock' redis').
  { rewrite Hrun0. unfold provisionWithAvatar. exec_unfold.
    rewrite (fetchAvatar_stores _ _ _ _ img); [| done]. cbn.
    match goal with
    | |- context [provision _ _ _ ?m ?fr1] =>
        destruct (provisionAndStore_facts env (provider p) (row p) m
                    (Query c "state") fr1)
          as (f & evsT & clock' & redis' & Htail & Hf & Hfacts)
    end.
    unfold provisionAndStore in Htail. exec_unfold. cbn in Htail, Hfacts.
    rewrite Htail. exists evsT, clock', redis'. split; [| exact Hfacts].
    destruct Hf as [-> | ->]; cbn; by rewrite <- !app_assoc. }
  destruct Hrun as (evsT & clock' & redis' & Hrun & Hfacts).
  destruct Hfacts as (_ & Honly & HevsT & Hcreate & _).
  split.
  { destruct Hstored as (_ & _ & Hpart & _). subst shard.
    apply Z.mod_pos_bound. unfold uint32 in *.
    pose proof (Z.mod_pos_bound (Avatar_Partition (cfg env)) (2 ^ 32)). lia. }
  rewrite (calls_trace _ _ _ _ _ Hrun eq_refl).
  split; [unfold avatarPath; in_app |]. split; [| split].
  - intros m ip iv. rewrite !elem_of_app.
    intros [He | [He | [He | He]]].
    + by apply Hpre in He.
    + in_list He.
    + by apply (Honly m ip iv).
    + in_list He.
  - intros Hb Hi. specialize (Hcreate Hb Hi). in_app.
  - in_app.
Qed.
End Panics.

Section Lookup.
#[local] Arguments fetchAvatar : simpl never.
#[local] Arguments provision : simpl never.
#[local] Arguments storeLoginResult : simpl never.

(** X17. A token of the exchange that is there and is not a string makes the
    gitee callback panic on the type assertion, right after the exchange: it
    answers nothing, asks for no profile and leaves the store alone. *)
Theorem malformed_token_panics env c w result :
  Query c "code" ≠ "" →
  network_PostForWWWForm env exchangeURL (exchangeForm env (Query c "code"))
    = Ok result →
  is_nil (index result "access_token") = false →
  (∀ s, index result "access_token" ≠ IString s) →
  ∃ msg,
    run (giteeOAuth env c) w
    = (Panic msg,
       logged [HttpPostForm exchangeURL (exchangeForm env (Query c "code"))] w).
Proof.
  intros Hc Hx Hnil Hstr.
  exists ("interface conversion: interface {} is "
          ++ typeName (index result "access_token") ++ ", not string").
  unfold giteeOAuth, logged. rewrite (is_empty_false _ Hc).
  unfold run at 1. exec. rewrite Hx.
  destruct (index result "access_token") eqn:Hv; try done;
    [by destruct (Hstr _ eq_refl) | ..]; reflexivity.
Qed.

(** X18. A callback that gets through the provider and cannot look the login up
    logs and answers its own message, not the error of the database: it
    starts no span, begins no transaction, and leaves the store alone. *)
Theorem failed_lookup_is_reported env c w callback p e :
  Resolves env c w callback p →
  db_queryWithGiteeUID env (login p) = Err e →
  returns (callback c) w tt
  ∧ replies (calls (callback c) w)
    = [ReplyError ("查询" ++ provider p ++ "用户信息失败！")]
  ∧ Log ("查询" ++ provider p ++ "用户信息失败！") ∈ calls (callback c) w
  ∧ last (calls (callback c) w)
    = Some (Respond (ReplyError ("查询" ++ provider p ++ "用户信息失败！")))
  ∧ (∀ e', e' ∈ calls (callback c) w →
       phase e' = Resolution ∨ (∃ msg, e' = Log msg) ∨ ∃ r, e' = Respond r)
  ∧ (∀ s, SpanStart s ∉ calls (callback c) w)
  ∧ (run (callback c) w).2 = logged (calls (callback c) w) w.
Proof.
  intros Hres Hq.
  destruct Hres as [tok userInfo Hc Hx Hp | userInfo Hc Hm]; cbn in Hq;
    unfold returns in *.
  - rewrite requestGiteeAccessToken_run in Hx.
    rewrite requestGiteeUserInfo_run in Hp. cbn in Hx, Hp.
    assert (Hrun : run (giteeOAuth env c) w
              = (Finished tt,
                 logged [HttpPostForm exchangeURL
                           (exchangeForm env (Query c "code"));
                         HttpGet (profileURL tok);
                         DBQueryWithGiteeUID (giteeUserInfo.Login userInfo);
                         Log "查询gitee用户信息失败！";
                         Respond (ReplyError "查询gitee用户信息失败！")] w)).
    { unfold giteeOAuth, logged. rewrite (is_empty_false _ Hc).
      unfold run at 1. exec. rewrite Hx. exec. rewrite Hp. exec.
      rewrite Hq. exec. by rewrite <- !app_assoc. }
    rewrite (calls_logged _ _ _ _ Hrun), Hrun. cbn.
    split; [done |]. split; [done |]. split; [in_app |]. split; [done |].
    split; [| split; [| done]].
    + intros e' He'. in_list He'; eauto.
    + intros s He'. in_list He'.
  - apply mall_returns_Ok in Hm as (resp & Hdo & Hm).
    assert (Hrun : run (mallOAuth env c) w
              = (Finished tt,
                 logged [HttpDo "GET" (mallURL (Query c "env"))
                           (mallHeader (Query c "token"));
                         CloseBody;
                         DBQueryWithGiteeUID (MallUser.UserID userInfo);
                         Log "查询mall用户信息失败！";
                         Respond (ReplyError "查询mall用户信息失败！")] w)).
    { unfold mallOAuth, logged. rewrite (is_empty_false _ Hc).
      unfold run at 1. exec. rewrite Hdo. exec. rewrite Hm. exec.
      rewrite Hq. exec. by rewrite <- !app_assoc. }
    rewrite (calls_logged _ _ _ _ Hrun), Hrun. cbn.
    split; [done |]. split; [done |]. split; [in_app |]. split; [done |].
    split; [| split; [| done]].
    + intros e' He'. in_list He'; eauto.
    + intros s He'. in_list He'.
Qed.
End Lookup.

(** *** The requests to the providers *)

(** X19. The fetch of the gitee profile makes one request and returns; it never
    returns a profile together with an error, and it returns a profile only
    for a response of status 200 whose body decodes to it. *)
Theorem profile_needs_status_200 env (accessToken : string) w info err :
  returns (requestGiteeUserInfo env accessToken) w (info, err) →
  calls (requestGiteeUserInfo env accessToken) w
    = [HttpGet ("https://gitee.com/api/v5/user?access_token=" ++ accessToken)]
  ∧ (info = None ∨ err = None)
  ∧ (err = None → 
       ∃ resp, network_Get env (profileURL accessToken) = Ok resp
               ∧ StatusCode resp = 200
               ∧ json_giteeUserInfo env (Body resp) = Ok info).
Proof.
  unfold returns. intros Hrun.
  rewrite (calls_logged _ _ _ _ (requestGiteeUserInfo_run env accessToken w)).
  rewrite requestGiteeUserInfo_run in Hrun. cbn in Hrun.
  split; [done |].
  destruct (network_Get env (profileURL accessToken)) as [resp | e];
    [| injection Hrun as <- <-; split; [by left | done]].
  destruct (Z.eqb (StatusCode resp) 200) eqn:Hstatus;
    [| injection Hrun as <- <-; split; [by left | done]].
  apply Z.eqb_eq in Hstatus.
  destruct (json_giteeUserInfo env (Body resp)) as [u | e] eqn:Hjson;
    injection Hrun as <- <-; (split; [by auto |]); [| done].
  intros _. by exists resp.
Qed.

(** X20. The request of the mall's user returns exactly one of a user and an
    error, so that the callback's test for a user that is nil without an
    error never holds; it asks the production or the staging host only for
    the environments "prd" and "stage", and the development host for every
    other name; it closes the body exactly when it got a response. *)
Theorem mall_request_returns_user_or_error env (code env_ : string) w user err :
  returns (requestMallAccessToken env code env_) w (user, err) →
  (user = None ↔ err ≠ None)
  ∧ (env_ ≠ "prd" → env_ ≠ "stage" →
       mallURL env_ = "https://mall-api.valleysound.xyz/user-service/user/get")
  ∧ head (calls (requestMallAccessToken env code env_) w)
    = Some (HttpDo "GET" (mallURL env_) (mallHeader code))
  ∧ (CloseBody ∈ calls (requestMallAccessToken env code env_) w
     ↔ ∃ resp, http_Do env (mallURL env_) (mallHeader code) = Ok resp)
  ∧ (∀ u, user = Some u →
       ∃ body response,
         http_Do env (mallURL env_) (mallHeader code) = Ok (Ok body)
         ∧ json_MallResponse env body = Ok response
         ∧ MallResponse.Code response = 200
         ∧ u = MallResponse.Data response).
Proof.
  unfold returns, calls. intros Hrun.
  rewrite requestMallAccessToken_run in Hrun |- *.
  split; [| split; [| split; [| split]]].
  - destruct (http_Do env _ _) as [[body | e] | e]; cbn in Hrun;
      [| by injection Hrun as <- <- ..].
    destruct (json_MallResponse env body) as [response | e];
      [| by injection Hrun as <- <-].
    destruct (Z.eqb (MallResponse.Code response) 200);
      by injection Hrun as <- <-.
  - intros Hprd Hstage. unfold mallURL.
    apply String.eqb_neq in Hprd, Hstage. rewrite Hprd, Hstage.
    by destruct (String.eqb env_ "dev").
  - destruct (http_Do env _ _); cbn; by rewrite drop_app_length.
  - destruct (http_Do env _ _) as [resp | e]; cbn; rewrite drop_app_length.
    + split; [by eauto | intros _; in_app].
    + split; [intros Hin; in_list Hin | by intros (? & ?)].
  - intros u ->.
    destruct (http_Do env _ _) as [[body | e] | e]; cbn in Hrun;
      [| done ..].
    destruct (json_MallResponse env body) as [response | e] eqn:Hjson;
      [| done].
    destruct (Z.eqb (MallResponse.Code response) 200) eqn:Hcode; [| done].
    apply Z.eqb_eq in Hcode. injection Hrun as <-. by exists body, response.
Qed.

(** *** The link between the account and the provider's login *)

Ltac rows_case :=
  cbn; do 4 eexists;
  split; [rewrite <- ?app_assoc; cbn; reflexivity |];
  split; [first [left; reflexivity | right; reflexivity] |];
  split; [intros rw Hin; in_list Hin; done |];
  intros ev Hin; in_list Hin; reflexivity.

(** The transaction inserts no other record than the one it is given. *)
Lemma provisionAndStore_rows env provider row model authcode fr :
  ∃ (f : Flow unit unit) (evs : list (Event L)) clock' redis',
    provisionAndStore env provider row model authcode fr
      = (f, {| world := {| clock := clock'; redis := redis';
                           trace := trace (world fr) ++ evs |};
               pending := DeferRecoverRollback :: pending fr |})
    ∧ (f = Continue tt ∨ f = Returned tt)
    ∧ (∀ rw, TxInsertGitee rw ∈ evs → rw = row)
    ∧ (∀ e, e ∈ evs → phase e = Rest).
Proof.
  unfold provisionAndStore, provision, storeLoginResult,
    createUserWithRespAndTx, commitCallback, authKey. exec_unfold. cbn.
  destruct (db_Begin env) as [e|]; [rows_case |].
  destruct (giteeDB_insertTx env row) as [e|]; [rows_case |].
  destruct (user_createUserWithRespAndTx env model (util_GetClientPublicIP env))
    as [commits [[r|]|e]]; destruct commits; cbn;
    destruct (tx_Commit env) as [e1|]; cbn;
    destruct (redis_SetAndExpire_err env) as [e2|]; rows_case.
Qed.

(** What a resolved profile says of the record and of the name. *)
Lemma Resolves_profile env c w callback p :
  Resolves env c w callback p →
  gitUserInfoModel.Login (row p) = login p
  ∧ gitUserInfoModel.AvatarURL (row p) = avatar p
  ∧ (TrimSpace (name p) = "" → name p = login p).
Proof.
  intros [tok userInfo _ _ _ | userInfo _ _]; cbn; [| done].
  split; [done |]. split; [done |].
  destruct (String.eqb (TrimSpace (giteeUserInfo.Name userInfo)) "") eqn:Hn;
    [done |].
  apply String.eqb_neq in Hn. done.
Qed.

Section Link.
#[local] Arguments fetchAvatar : simpl never.
#[local] Arguments provision : simpl never.
#[local] Arguments storeLoginResult : simpl never.

(** X21. A callback that creates an account links it by the login it has looked
    up: the one query to the table, the record it inserts and the account it
    asks to create all carry that login, so that the next callback for the
    same login finds what this one wrote.  The record keeps the avatar's URL
    of the profile, and the account is named after the profile, or after the
    login when the profile's name is blank. *)
Theorem account_is_linked_by_the_login env c w callback p :
  Resolves env c w callback p →
  db_queryWithGiteeUID env (login p) = Ok None →
  avatarSettles env (avatar p) →
  (∀ l, DBQueryWithGiteeUID l ∈ calls (callback c) w → l = login p)
  ∧ (∀ rw, TxInsertGitee rw ∈ calls (callback c) w →
       gitUserInfoModel.Login rw = login p
       ∧ gitUserInfoModel.AvatarURL rw = avatar p)
  ∧ (∀ m ip iv, CreateUserWithRespAndTx m ip iv ∈ calls (callback c) w →
       createUserModel.GiteeUID m = login p
       ∧ createUserModel.UID m = util_GenerUUID env
       ∧ (TrimSpace (createUserModel.Name m) = "" →
            createUserModel.Name m = login p)).
Proof.
  intros Hres Hq Hsettles.
  destruct (fetchAvatar_continues env p Hsettles)
    as (flag & evsA & dsA & _ & Havatar & HevsA & HdsA).
  destruct (Resolves_profile env c w callback p Hres)
    as (Hlogin & Hurl & Hname).
  assert (Hpre : ∃ pre, (∀ e, e ∈ pre → phase e = Resolution)
                        ∧ (∀ l, DBQueryWithGiteeUID l ∈ pre → l = login p)
                        ∧ ∃ span,
                            run (callback c) w
                            = finish (provisionWithAvatar env p (Query c "state")
                                       {| world := logged pre w;
                                          pending := [DeferCall (SpanFinish span)] |})).
  { destruct Hres as [tok userInfo Hc Hx Hp | userInfo Hc Hm]; cbn in Hq;
      unfold returns in *.
    - rewrite requestGiteeAccessToken_run in Hx.
      rewrite requestGiteeUserInfo_run in Hp. cbn in Hx, Hp.
      exists [HttpPostForm exchangeURL (exchangeForm env (Query c "code"));
              HttpGet (profileURL tok);
              DBQueryWithGiteeUID (giteeUserInfo.Login userInfo);
              SpanStart "giteelogin";
              SpanSetTag "username" (giteeUserInfo.Login userInfo)].
      split; [intros e He; in_list He; reflexivity |].
      split; [intros l He; in_list He; reflexivity |].
      exists "giteelogin".
      unfold giteeOAuth, provisionWithAvatar, logged.
      rewrite (is_empty_false _ Hc).
      unfold run at 1. exec. rewrite Hx. exec. rewrite Hp. exec.
      rewrite Hq. exec. rewrite <- !app_assoc. cbn. reflexivity.
    - apply mall_returns_Ok in Hm as (resp & Hdo & Hm).
      exists [HttpDo "GET" (mallURL (Query c "env"))
                (mallHeader (Query c "token"));
              CloseBody;
              DBQueryWithGiteeUID (MallUser.UserID userInfo);
              SpanStart "malllogin";
              SpanSetTag "username" (MallUser.UserID userInfo)].
      split; [intros e He; in_list He; reflexivity |].
      split; [intros l He; in_list He; reflexivity |].
      exists "malllogin".
      unfold mallOAuth, provisionWithAvatar, logged.
      rewrite (is_empty_false _ Hc).
      unfold run at 1. exec. rewrite Hdo. exec. rewrite Hm. exec.
      rewrite Hq. exec. rewrite <- !app_assoc. cbn. rewrite if_same.
      reflexivity. }
  destruct Hpre as (pre & Hpre & Hquery & span & Hrun0).
  assert (Hrun : ∃ (evsT post : list (Event L)) clock' redis',
    run (callback c) w
      = (Finished tt,
         {| clock := clock'; redis := redis';
            trace := trace w ++ pre ++ evsA ++ evsT ++ post |})
    ∧ (∀ e, e ∈ post → phase e = Closing)
    ∧ (∀ rw, TxInsertGitee rw ∈ evsT → rw = row p)
    ∧ (∀ e, e ∈ evsT → phase e = Rest)
    ∧ TailFacts env (row p) (newAccount env p flag) (Query c "state")
        (clock w) (redis w) evsT clock' redis').
  { rewrite Hrun0. unfold provisionWithAvatar. exec_unfold.
    rewrite Havatar. cbn.
    match goal with
    | |- context [provision _ _ _ _ ?fr1] =>
        destruct (provisionAndStore_rows env (provider p) (row p)
                    (newAccount env p flag) (Query c "state") fr1)
          as (f & evsT & clock' & redis' & Htail & Hf & Hrows & Hrest);
        destruct (provisionAndStore_facts env (provider p) (row p)
                    (newAccount env p flag) (Query c "state") fr1)
          as (f2 & evsT2 & clock2 & redis2 & Htail2 & _ & Hfacts)
    end.
    rewrite Htail in Htail2. injection Htail2 as _ <- <- Heq.
    apply app_inv_head in Heq as <-.
    unfold provisionAndStore in Htail. exec_unfold. cbn in Htail, Hfacts.
    rewrite Htail.
    destruct (unwind_extends false (dsA ++ [DeferCall (SpanFinish span)])
                (((trace w ++ pre) ++ evsA) ++ evsT))
      as (post & Hpost & Hclosing).
    exists evsT, post, clock', redis'.
    split; [| split; [| done]].
    - destruct Hf as [-> | ->]; cbn; by rewrite Hpost, <- !app_assoc.
    - intros e He. destruct (Hclosing e He) as [(? & _) | Hd]; [done |].
      apply elem_of_app in Hd as [Hd | Hd].
      + apply HdsA in Hd. by injection Hd as ->.
      + apply list_elem_of_singleton in Hd. by injection Hd as ->. }
  destruct Hrun as (evsT & post & clock' & redis' & Hrun & Hpost & Hrows
                    & Hrest & Hfacts).
  destruct Hfacts as (_ & Honly & _).
  rewrite (calls_trace _ _ _ _ _ Hrun eq_refl).
  split; [| split].
  - intros l. rewrite !elem_of_app. intros [He | [He | [He | He]]].
    + by apply Hquery.
    + by apply HevsA in He.
    + by apply Hrest in He.
    + by apply Hpost in He.
  - intros rw. rewrite !elem_of_app. intros [He | [He | [He | He]]].
    + by apply Hpre in He.
    + by apply HevsA in He.
    + by rewrite (Hrows rw He).
    + by apply Hpost in He.
  - intros m ip iv. rewrite !elem_of_app. intros [He | [He | [He | He]]].
    + by apply Hpre in He.
    + by apply HevsA in He.
    + rewrite (Honly m ip iv He). cbn. done.
    + by apply Hpost in He.
Qed.
End Link.

(** *** [Push], server by server *)

Lemma unwind_calls (p : bool) (n : nat) (e : Event L) (tr : list (Event L)) :
  unwind p (replicate n (DeferCall e)) tr = (tr ++ replicate n e)%list.
Proof.
  revert tr. induction n as [| n IH]; intros tr; cbn.
  - by rewrite app_nil_r.
  - by rewrite IH, <- app_assoc.
Qed.

(** What has expired, or was never there, does not come back with time. *)
Lemma GetString_stays_empty (now : Z) (db : gmap string Redis.entry)
    (k : string) (d : Duration) :
  Redis.GetString now db k = "" → (0 <= d)%Z →
  Redis.GetString (now + d) db k = "".
Proof.
  unfold Redis.GetString, Redis.live. intros Hv Hd.
  destruct (db !! k) as [[v t] |]; cbn in *; [| done].
  destruct (Z.ltb_spec now t), (Z.ltb_spec (now + d) t); try done; lia.
Qed.

Lemma replicate_middle {A} (n : nat) (x : A) (l : list A) :
  (replicate n x ++ x :: l = x :: replicate n x ++ l)%list.
Proof. induction n as [| n IH]; cbn; [done | by rewrite IH]. Qed.

Lemma posted_app (l1 l2 : list (Event L)) :
  posted (l1 ++ l2) = (posted l1 ++ posted l2)%list.
Proof. unfold posted. apply omap_app. Qed.

Lemma posted_failedAttempts (uid content : string) (servers : list string) :
  posted (failedAttempts (L:=L) uid content servers) = map pushURL servers.
Proof.
  induction servers as [| s servers IH]; [done |].
  cbn. f_equal. exact IH.
Qed.

Lemma posted_CloseBody (n : nat) : posted (replicate n (@CloseBody L)) = [].
Proof. induction n as [| n IH]; [done | exact IH]. Qed.

(** The loop over the servers goes past every server that answers with a
    response and an error: it has logged and posted once for each, and has
    deferred the closing of each body to the end of [Push]. *)
Lemma pushToServers_skips env (key uid content : string)
    (failing rest : list string) :
  ∀ (n : nat) fr,
    (∀ (j : nat) sj, failing !! j = Some sj →
       ∃ r e, http_Post env (n + j) (pushURL sj) "application/json"
                (pushRequest uid content) = (Some r, Some e)) →
    pushToServers env key uid content n (failing ++ rest) fr
    = pushToServers env key uid content (n + length failing) rest
        {| world := logged (failedAttempts uid content failing) (world fr);
           pending := replicate (length failing) (DeferCall CloseBody)
                      ++ pending fr |}.
Proof.
  induction failing as [| s failing IH]; intros n fr Hfail.
  - cbn. rewrite Nat.add_0_r. unfold logged. rewrite app_nil_r.
    by destruct fr as [[] ?].
  - destruct (Hfail 0%nat s eq_refl) as (r & e & Hs).
    rewrite Nat.add_0_r in Hs.
    cbn [app pushToServers]. exec_unfold. cbn. rewrite Hs. cbn.
    rewrite IH; cycle 1.
    { intros j sj Hj. rewrite Nat.add_succ_l, <- Nat.add_succ_r.
      by apply (Hfail (S j)). }
    rewrite Nat.add_succ_l, <- Nat.add_succ_r. f_equal.
    unfold logged. cbn. rewrite <- !app_assoc. cbn.
    by rewrite replicate_middle.
Qed.

(** [Push] up to its loop. *)
Lemma Push_loop env (serverAddresses uid content : string) w :
  redis_GetString_err env = None →
  Redis.GetString (clock w) (redis w) (ECHOOO_PUSH_UID ++ uid) = "" →
  serverAddresses ≠ "" →
  run (Push env serverAddresses uid content) w
  = finish
      (let '(f, fr) :=
         pushToServers env (ECHOOO_PUSH_UID ++ uid) uid content 0
           (Split_comma serverAddresses)
           {| world := logged [Log "EchoooPush serverAddresses";
                               RedisGetString (ECHOOO_PUSH_UID ++ uid)] w;
              pending := [] |} in
       (match f with
        | Continue _ => Returned None
        | Returned r => Returned r
        | Panicked msg => Panicked msg
        end, fr)).
Proof.
  intros Hget Hv Hsa. unfold run, Push, logged. exec_unfold. cbn.
  rewrite Hget. cbn. rewrite Hv.
  rewrite (not_empty_false "" eq_refl), (not_empty_true _ Hsa). cbn.
  rewrite <- !app_assoc. cbn.
  by destruct (pushToServers _ _ _ _ _ _ _) as [[] ?].
Qed.

(** The servers of [Push] up to the [k]-th, all answering with a response
    and an error. *)
Lemma failing_prefix env (uid content : string) (servers : list string)
    (k : nat) :
  (∀ (j : nat) sj, (j < k)%nat → servers !! j = Some sj →
     ∃ r e, http_Post env j (pushURL sj) "application/json"
              (pushRequest uid content) = (Some r, Some e)) →
  ∀ (j : nat) sj, take k servers !! j = Some sj →
    ∃ r e, http_Post env (0 + j) (pushURL sj) "application/json"
             (pushRequest uid content) = (Some r, Some e).
Proof.
  intros Hbefore j sj Hj. apply lookup_take_Some in Hj as [Hj Hlt].
  by apply Hbefore.
Qed.

(** X22. When a server accepts the request after the servers before it have
    answered with a response and an error, [Push] has posted to the servers
    up to that one, in order and once each, and to no server after it; it
    writes the marker and logs the success whether or not the write goes
    through; the bodies are closed only when [Push] returns, all of them
    after every other call. *)
Theorem push_stops_at_the_first_acceptance env
    (serverAddresses uid content : string) w (k : nat) (server : string) :
  redis_GetString_err env = None →
  Redis.GetString (clock w) (redis w) (ECHOOO_PUSH_UID ++ uid) = "" →
  serverAddresses ≠ "" →
  Split_comma serverAddresses !! k = Some server →
  (∀ (j : nat) sj, (j < k)%nat → Split_comma serverAddresses !! j = Some sj →
     ∃ r e, http_Post env j (pushURL sj) "application/json"
              (pushRequest uid content) = (Some r, Some e)) →
  (∃ r, http_Post env k (pushURL server) "application/json"
          (pushRequest uid content) = (Some r, None)) →
  let key := ECHOOO_PUSH_UID ++ uid in
  let push := Push env serverAddresses uid content in
  returns push w None
  ∧ calls push w
    = ([Log "EchoooPush serverAddresses"; RedisGetString key]
       ++ failedAttempts uid content (take k (Split_comma serverAddresses))
       ++ attempt uid content server
       ++ [RedisSetAndExpire key "1" (Minute * 5);
           Log "echooo inner Push success server"]
       ++ replicate (S k) CloseBody)%list
  ∧ posted (calls push w)
    = map pushURL (take (S k) (Split_comma serverAddresses))
  ∧ redis (run push w).2
    = match redis_SetAndExpire_err env with
      | Some _ => redis w
      | None => <[key := Redis.Entry "1" (clock w + Minute * 5)]> (redis w)
      end.
Proof.
  intros Hget Hv Hsa Hk Hbefore (r & Hok) key push.
  pose proof (take_drop_middle _ _ _ Hk) as Hsplit.
  assert (Hlen : length (take k (Split_comma serverAddresses)) = k).
  { apply length_take_le. apply lookup_lt_Some in Hk. lia. }
  assert (Hrun : run push w
    = (Finished None,
       {| clock := clock w;
          redis := match redis_SetAndExpire_err env with
                   | Some _ => redis w
                   | None => <[key := Redis.Entry "1" (clock w + Minute * 5)]>
                               (redis w)
                   end;
          trace := trace w ++
            [Log "EchoooPush serverAddresses"; RedisGetString key]
            ++ failedAttempts uid content (take k (Split_comma serverAddresses))
            ++ attempt uid content server
            ++ [RedisSetAndExpire key "1" (Minute * 5);
                Log "echooo inner Push success server"]
            ++ replicate (S k) CloseBody |})).
  { subst push. rewrite Push_loop by done. rewrite <- Hsplit at 1.
    rewrite pushToServers_skips by (by apply failing_prefix).
    rewrite Hlen. cbn [pushToServers Nat.add]. exec_unfold. cbn.
    rewrite Hok. cbn. fold key.
    destruct (redis_SetAndExpire_err env); cbn;
      rewrite app_nil_r, unwind_calls, <- !app_assoc; reflexivity. }
  rewrite (calls_trace _ _ _ _ _ Hrun eq_refl). unfold returns.
  rewrite Hrun. cbn [fst snd redis].
  split; [done |]. split; [done |]. split; [| done].
  rewrite !posted_app, posted_failedAttempts, posted_CloseBody.
  cbn. rewrite (take_S_r _ _ _ Hk), map_app. reflexivity.
Qed.

(** X23. When every server answers with a response and an error, [Push] has
    posted once to each of them, in order, returns nil and leaves no marker:
    the store is as it was, and the next [Push] for the uid asks the servers
    again. *)
Theorem push_without_acceptance_leaves_no_marker env
    (serverAddresses uid content : string) w :
  redis_GetString_err env = None →
  Redis.GetString (clock w) (redis w) (ECHOOO_PUSH_UID ++ uid) = "" →
  serverAddresses ≠ "" →
  (∀ (j : nat) sj, Split_comma serverAddresses !! j = Some sj →
     ∃ r e, http_Post env j (pushURL sj) "application/json"
              (pushRequest uid content) = (Some r, Some e)) →
  let key := ECHOOO_PUSH_UID ++ uid in
  let push := Push env serverAddresses uid content in
  run push w
  = (Finished None,
     logged ([Log "EchoooPush serverAddresses"; RedisGetString key]
             ++ failedAttempts uid content (Split_comma serverAddresses)
             ++ replicate (length (Split_comma serverAddresses)) CloseBody) w)
  ∧ posted (calls push w) = map pushURL (Split_comma serverAddresses)
  ∧ ∀ d : Duration, (0 <= d)%Z →
      posted (calls push (advance d (run push w).2))
      = map pushURL (Split_comma serverAddresses).
Proof.
  intros Hget Hv Hsa Hall key push.
  assert (Hrun : ∀ w', Redis.GetString (clock w') (redis w') key = "" →
    run push w'
    = (Finished None,
       logged ([Log "EchoooPush serverAddresses"; RedisGetString key]
               ++ failedAttempts uid content (Split_comma serverAddresses)
               ++ replicate (length (Split_comma serverAddresses)) CloseBody)
         w')).
  { intros w' Hv'. subst push. rewrite Push_loop by done.
    rewrite <- (app_nil_r (Split_comma serverAddresses)) at 1.
    rewrite pushToServers_skips by (intros j sj Hj; by apply Hall).
    cbn [pushToServers]. exec_unfold. cbn.
    rewrite app_nil_r, unwind_calls. unfold logged.
    by rewrite <- !app_assoc. }
  assert (Hposted : ∀ w', Redis.GetString (clock w') (redis w') key = "" →
    posted (calls push w') = map pushURL (Split_comma serverAddresses)).
  { intros w' Hv'. rewrite (calls_logged _ _ _ _ (Hrun w' Hv')).
    rewrite !posted_app, posted_failedAttempts, posted_CloseBody.
    cbn. by rewrite app_nil_r. }
  split; [by apply Hrun |]. split; [by apply Hposted |].
  intros d Hd. apply Hposted. rewrite (Hrun w Hv). cbn.
  by apply GetString_stays_empty.
Qed.

(** X24. When a server gives no response after the servers before it have
    answered with a response and an error, [Push] panics on the deferred
    closing of the body, whatever the error that came with it: it has posted
    to that server, goes to no other, writes no marker, and the bodies of the
    servers before are closed as the panic unwinds. *)
Theorem push_panics_without_a_response env
    (serverAddresses uid content : string) w (k : nat) (server : string) :
  redis_GetString_err env = None →
  Redis.GetString (clock w) (redis w) (ECHOOO_PUSH_UID ++ uid) = "" →
  serverAddresses ≠ "" →
  Split_comma serverAddresses !! k = Some server →
  (∀ (j : nat) sj, (j < k)%nat → Split_comma serverAddresses !! j = Some sj →
     ∃ r e, http_Post env j (pushURL sj) "application/json"
              (pushRequest uid content) = (Some r, Some e)) →
  (∃ err, http_Post env k (pushURL server) "application/json"
            (pushRequest uid content) = (None, err)) →
  run (Push env serverAddresses uid content) w
  = (Panic "runtime error: invalid memory address or nil pointer dereference",
     logged ([Log "EchoooPush serverAddresses";
              RedisGetString (ECHOOO_PUSH_UID ++ uid)]
             ++ failedAttempts uid content (take k (Split_comma serverAddresses))
             ++ attempt uid content server
             ++ replicate k CloseBody) w).
Proof.
  intros Hget Hv Hsa Hk Hbefore (err & Hnone).
  pose proof (take_drop_middle _ _ _ Hk) as Hsplit.
  assert (Hlen : length (take k (Split_comma serverAddresses)) = k).
  { apply length_take_le. apply lookup_lt_Some in Hk. lia. }
  rewrite Push_loop by done. rewrite <- Hsplit at 1.
  rewrite pushToServers_skips by (by apply failing_prefix).
  rewrite Hlen. cbn [pushToServers Nat.add]. exec_unfold. cbn.
  rewrite Hnone. cbn. unfold logged. cbn.
  by rewrite app_nil_r, unwind_calls, <- !app_assoc.
Qed.

(** The loop over the servers never returns from [Push] by itself: it falls
    through or panics. *)
Lemma pushToServers_flow env (key uid content : string) (servers : list string) :
  ∀ (n : nat) fr,
    ∃ f fr', pushToServers env key uid content n servers fr = (f, fr')
             ∧ (f = Continue tt ∨ ∃ msg, f = Panicked msg).
Proof.
  induction servers as [| s servers IH]; intros n fr.
  - eexists _, _. split; [reflexivity | by left].
  - cbn [pushToServers]. exec_unfold. cbn.
    destruct (http_Post env n (pushURL s) "application/json"
                (pushRequest uid content)) as [[resp |] [e |]]; cbn.
    + apply IH.
    + destruct (redis_SetAndExpire_err env); cbn; eexists _, _;
        (split; [reflexivity | by left]).
    + eexists _, _. split; [reflexivity | right; by eexists].
    + eexists _, _. split; [reflexivity | right; by eexists].
Qed.

(** X25. The only error [Push] returns is the error of its read of the marker:
    what it returns is what that read answered, whatever the servers do.
    When the read fails, [Push] has posted nothing and written nothing. *)
Theorem push_returns_only_the_read_error env
    (serverAddresses uid content : string) w (r : option error) :
  returns (Push env serverAddresses uid content) w r →
  r = redis_GetString_err env
  ∧ (r ≠ None →
       run (Push env serverAddresses uid content) w
       = (Finished r,
          logged [Log "EchoooPush serverAddresses";
                  RedisGetString (ECHOOO_PUSH_UID ++ uid);
                  Log "pushToEchoooApi to get cache key error"] w)).
Proof.
  unfold returns, run, Push, logged. exec_unfold. cbn.
  destruct (redis_GetString_err env) as [e |]; cbn.
  - intros [= <-]. split; [done |]. intros _. by rewrite <- !app_assoc.
  - destruct (not_empty (Redis.GetString _ _ _)); cbn;
      [intros [= <-]; by split |].
    destruct (not_empty serverAddresses); cbn; [| intros [= <-]; by split].
    match goal with
    | |- context [pushToServers _ _ _ _ ?n ?l ?fr] =>
        destruct (pushToServers_flow env (ECHOOO_PUSH_UID ++ uid) uid content
                    l n fr) as (f & fr' & -> & [-> | (msg & ->)])
    end; cbn; [intros [= <-]; by split | done].
Qed.

End Properties.

(** * The login result and its JSON text *)

(** ** Strings, UTF-8 and JSON string literals *)

Section Text.
#[local] Arguments String.append !_ _ / : simpl nomatch.



Lemma append_nil_r (a : string) : a ++ "" = a.
Proof. induction a as [| x a IH]; simpl; [done | by f_equal]. Qed.






Lemma byte_range (c : ascii) : (0 <= Utf8.byte c < 256)%Z.
Proof.
  unfold Utf8.byte. pose proof (N_ascii_bounded c). lia.
Qed.















End Text.





(** ** The properties on the concrete instance *)

Lemma begin_then_poll_is_pending_witness :
  run (thirdAuthStatus Demo.fair (Demo.request [("authcode", "abc123")]))
      (advance (4 * Minute)
         (snd (run (thirdAuthcode Demo.fair (Demo.request [])) Demo.nothing)))
  = (Finished tt,
     logged [RedisGetString (authKey "abc123");
             Respond (ReplyJSON (H_status 0))]
       (advance (4 * Minute)
          (snd (run (thirdAuthcode Demo.fair (Demo.request [])) Demo.nothing)))).
Proof.
  pose proof (begin_then_poll_is_pending Demo.fair (Demo.request []) Demo.nothing)
    as Hc.
  cbn in Hc. destruct Hc as [_ Hpoll].
  apply Hpoll; [reflexivity | reflexivity | reflexivity | vm_compute; reflexivity].
Defined.

Lemma failed_poll_keeps_entry_witness :
  let poll := thirdAuthStatus Demo.fair (Demo.request [("authcode", "abc123")]) in
  let w := Demo.holding "0" (1 * Minute) in
  calls poll w = [RedisGetString (authKey "abc123");
                  Respond (ReplyJSON (H_status 2))]
  ∧ redis (snd (run poll w)) = redis w
  ∧ replies (calls poll (advance (30 * Second) (snd (run poll w))))
    = [ReplyJSON (H_status 2)].
Proof.
  intros poll w.
  destruct (failed_poll_keeps_entry Demo.fair
              (Demo.request [("authcode", "abc123")]) w)
    as (Hcalls & Hredis & Hagain); [reflexivity | reflexivity |].
  split; [exact Hcalls |]. split; [exact Hredis |].
  apply Hagain; reflexivity.
Defined.

Lemma empty_code_leaves_handshake_witness :
  run (giteeOAuth Demo.fair (Demo.request [("code", ""); ("state", "abc123")]))
      (Demo.holding "1" (5 * Minute))
  = (Finished tt,
     logged [Respond (ReplyError "code不能为空")] (Demo.holding "1" (5 * Minute)))
  ∧ run (mallOAuth Demo.fair (Demo.request [("state", "abc123")]))
        (Demo.holding "1" (5 * Minute))
    = (Finished tt,
       logged [Respond (ReplyError "电商token不能为空")]
         (Demo.holding "1" (5 * Minute))).
Proof.
  split.
  - apply (empty_code_leaves_handshake Demo.fair _ _ (giteeOAuth Demo.fair) "code");
      [left; done | reflexivity].
  - apply (empty_code_leaves_handshake Demo.fair _ _ (mallOAuth Demo.fair) "token");
      [right; done | reflexivity].
Defined.


Lemma destroyed_account_gets_no_session_witness :
  let env := Demo.with_linked (Model.Build "u1" 1) Demo.fair in
  let c := Demo.request [("code", "X"); ("state", "abc123")] in
  let c' := Demo.request [("token", "T"); ("env", "prd"); ("state", "abc123")] in
  let w := Demo.holding "1" (5 * Minute) in
  (replies (calls (giteeOAuth env c) w) = [ReplyError "用户不存在"]
   ∧ (∀ m' flag, ExecLogin m' flag ∉ calls (giteeOAuth env c) w)
   ∧ redis (snd (run (giteeOAuth env c) w)) = redis w)
  ∧ (replies (calls (mallOAuth env c') w) = [ReplyError "用户不存在"]
     ∧ (∀ m' flag, ExecLogin m' flag ∉ calls (mallOAuth env c') w)
     ∧ redis (snd (run (mallOAuth env c') w)) = redis w).
Proof.
  intros env c c' w. split.
  - destruct (destroyed_account_gets_no_session env c w (giteeOAuth env)
                (giteeProfile Demo.alice) (Model.Build "u1" 1))
      as (_ & Hreply & Hlogin & _ & Hredis).
    + by apply (Resolves_gitee env c w "tok" Demo.alice).
    + reflexivity.
    + reflexivity.
    + auto.
  - destruct (destroyed_account_gets_no_session env c' w (mallOAuth env)
                (mallProfile Demo.bob) (Model.Build "u1" 1))
      as (_ & Hreply & Hlogin & _ & Hredis).
    + by apply (Resolves_mall env c' w Demo.bob).
    + reflexivity.
    + reflexivity.
    + auto.
Defined.

Lemma provider_failure_leaves_handshake_witness :
  let env := Demo.with_profile (Ok {| StatusCode := 500; Body := "" |}) Demo.fair in
  let c := Demo.request [("code", "X"); ("state", "abc123")] in
  let w := Demo.holding "1" (5 * Minute) in
  replies (calls (giteeOAuth env c) w)
    = [ReplyError "获取gitee用户信息失败，状态码：500"]
  ∧ redis (snd (run (giteeOAuth env c) w)) = redis w
  ∧ replies (calls (thirdAuthStatus Demo.fair
                      (Demo.request [("authcode", "abc123")]))
                   (advance (10 * Second) (snd (run (giteeOAuth env c) w))))
    = [ReplyJSON (H_status 0)].
Proof.
  intros env c w.
  destruct (provider_failure_leaves_handshake env c w (giteeOAuth env)
              "获取gitee用户信息失败，状态码：500")
    as (_ & Hreply & _ & Hredis & Hpoll).
  - by apply (ProfileFails env c w "tok" None).
  - split; [exact Hreply |]. split; [exact Hredis |].
    apply Hpoll; reflexivity.
Defined.

(** C2 as the specification has it fails: with a token exchange that fails,
    the callback leaves the pending entry as it is, and the poll that
    follows answers status 0, not status 2. *)
Lemma exchange_failure_is_not_Failed :
  let env := Demo.with_exchange (Err "connection refused") Demo.fair in
  let c := Demo.request [("code", "X"); ("state", "abc123")] in
  let w := Demo.holding "1" (5 * Minute) in
  let w' := snd (run (giteeOAuth env c) w) in
  let poll := thirdAuthStatus Demo.fair (Demo.request [("authcode", "abc123")]) in
  calls (giteeOAuth env c) w
    = [HttpPostForm exchangeURL (exchangeForm env "X");
       Respond (ReplyError "connection refused")]
  ∧ redis w' !! authKey "abc123" = Some (Redis.Entry "1" (5 * Minute))
  ∧ replies (calls poll w') = [ReplyJSON (H_status 0)]
  ∧ replies (calls poll w') ≠ [ReplyJSON (H_status 2)].
Proof. vm_compute. repeat split; discriminate. Qed.

Lemma exchange_errs_only_with_the_request_witness :
  returns (requestGiteeAccessToken
             (Demo.with_exchange (Ok (<["expires_in" := IFloat64 86400 0]> ∅))
                Demo.fair) "X")
          Demo.nothing ("", None).
Proof.
  destruct (exchange_errs_only_with_the_request
              (Demo.with_exchange (Ok (<["expires_in" := IFloat64 86400 0]> ∅))
                 Demo.fair) "X" Demo.nothing)
    as (_ & Hnil & _).
  apply (Hnil (<["expires_in" := IFloat64 86400 0]> ∅)); reflexivity.
Defined.

(** C7 as the specification has it fails: an answer without [access_token]
    makes [requestGiteeAccessToken] return the empty token with a nil error,
    not an error. *)
Lemma exchange_without_token_returns_no_error :
  let env := Demo.with_exchange (Ok ∅) Demo.fair in
  fst (run (requestGiteeAccessToken env "X") Demo.nothing) = Finished ("", None)
  ∧ ¬ ∃ tok e, returns (requestGiteeAccessToken env "X") Demo.nothing
                       (tok, Some e).
Proof.
  split; [reflexivity |]. intros (tok & e & Hr). vm_compute in Hr. discriminate.
Qed.

Lemma push_is_deduplicated_witness :
  let servers := "10.0.0.1:8080,10.0.0.2:8080" in
  let first := run (Push Demo.second_server_up servers "u9" "hello") Demo.nothing in
  HttpPost (pushURL "10.0.0.2:8080") "application/json" (pushRequest "u9" "hello")
    ∈ calls (Push Demo.second_server_up servers "u9" "hello") Demo.nothing
  ∧ run (Push Demo.fair servers "u9" "again") (advance (4 * Minute) (snd first))
    = (Finished None,
       logged [Log "EchoooPush serverAddresses";
               RedisGetString (ECHOOO_PUSH_UID ++ "u9");
               Log ("uid " ++ "u9" ++ " has push in five minutes. ")]
         (advance (4 * Minute) (snd first))).
Proof.
  intros servers first.
  destruct (push_is_deduplicated Demo.second_server_up servers "u9" "hello"
              Demo.nothing eq_refl) as [_ Hsend].
  destruct (Hsend eq_refl ltac:(discriminate) 1%nat "10.0.0.2:8080" eq_refl)
    as (_ & Hpost & _ & Hmarked).
  - intros j sj Hj Hsj. assert (j = 0%nat) as -> by lia.
    injection Hsj as <-. by eexists _, _.
  - by eexists.
  - split; [exact Hpost |].
    destruct (Hmarked eq_refl) as [_ Hagain].
    apply Hagain; [reflexivity | vm_compute; reflexivity].
Defined.

Lemma avatar_failure_never_aborts_witness :
  let c := Demo.request [("code", "X"); ("state", "abc123")] in
  let timeout := Demo.with_avatar None None Demo.fair in
  let full := Demo.with_avatar (Some "PNG") (Some "no space left") Demo.fair in
  let model := newAccount Demo.fair (giteeProfile Demo.alice) 0 in
  (CreateUserWithRespAndTx model "203.0.113.5" ""
     ∈ calls (giteeOAuth timeout c) Demo.nothing
   ∧ redis (snd (run (giteeOAuth timeout c) Demo.nothing))
     = <[authKey "abc123"
           := Redis.Entry (ToJson (Demo.Session "abc123" "t1")) (0 + Minute * 1)]>
         ∅)
  ∧ (CreateUserWithRespAndTx model "203.0.113.5" ""
       ∈ calls (giteeOAuth full c) Demo.nothing
     ∧ redis (snd (run (giteeOAuth full c) Demo.nothing))
       = <[authKey "abc123"
             := Redis.Entry (ToJson (Demo.Session "abc123" "t1")) (0 + Minute * 1)]>
           ∅).
Proof.
  intros c timeout full model. split.
  - destruct (avatar_failure_never_aborts timeout c Demo.nothing
                (giteeOAuth timeout) (giteeProfile Demo.alice))
      as (_ & _ & _ & Hcreate & Hdone).
    + by apply (Resolves_gitee timeout c Demo.nothing "tok" Demo.alice).
    + reflexivity.
    + left. reflexivity.
    + split; [by apply Hcreate |].
      by apply (Hdone eq_refl eq_refl (Demo.Session "abc123" "t1")).
  - destruct (avatar_failure_never_aborts full c Demo.nothing
                (giteeOAuth full) (giteeProfile Demo.alice))
      as (_ & _ & _ & Hcreate & Hdone).
    + by apply (Resolves_gitee full c Demo.nothing "tok" Demo.alice).
    + reflexivity.
    + right. exists "PNG", "no space left". by repeat split.
    + split; [by apply Hcreate |].
      by apply (Hdone eq_refl eq_refl (Demo.Session "abc123" "t1")).
Defined.

Lemma placeholder_avatar_is_not_fetched_witness :
  let env := Demo.with_profile_of Demo.faceless Demo.photoless Demo.fair in
  let gitee := giteeOAuth env (Demo.request [("code", "X"); ("state", "abc123")]) in
  let mall := mallOAuth env (Demo.request [("token", "T"); ("state", "abc123")]) in
  ((∀ url t, DownloadImage url t ∉ calls gitee Demo.nothing)
   ∧ CreateUserWithRespAndTx (newAccount env (giteeProfile Demo.faceless) 0)
       "203.0.113.5" "" ∈ calls gitee Demo.nothing)
  ∧ ((∀ url t, DownloadImage url t ∉ calls mall Demo.nothing)
     ∧ CreateUserWithRespAndTx (newAccount env (mallProfile Demo.photoless) 0)
         "203.0.113.5" "" ∈ calls mall Demo.nothing).
Proof.
  intros env gitee mall. split.
  - destruct (placeholder_avatar_is_not_fetched env
                (Demo.request [("code", "X"); ("state", "abc123")])
                Demo.nothing (giteeOAuth env) (giteeProfile Demo.faceless))
      as (Hdown & _ & _ & Hcreate).
    + by apply (Resolves_gitee env _ Demo.nothing "tok" Demo.faceless).
    + reflexivity.
    + right. reflexivity.
    + split; [exact Hdown | by apply Hcreate].
  - destruct (placeholder_avatar_is_not_fetched env
                (Demo.request [("token", "T"); ("state", "abc123")])
                Demo.nothing (mallOAuth env) (mallProfile Demo.photoless))
      as (Hdown & _ & _ & Hcreate).
    + by apply (Resolves_mall env _ Demo.nothing Demo.photoless).
    + reflexivity.
    + left. reflexivity.
    + split; [exact Hdown | by apply Hcreate].
Defined.

(** The whole handshake on the concrete instance: begin, poll (pending),
    callback for a new gitee user, poll (the login result), poll (expired). *)
Example handshake_scenario :
  let poll := thirdAuthStatus Demo.fair (Demo.request [("authcode", "abc123")]) in
  let w1 := snd (run (thirdAuthcode Demo.fair (Demo.request [])) Demo.nothing) in
  let w2 := snd (run poll w1) in
  let w3 := snd (run (giteeOAuth Demo.fair
                        (Demo.request [("code", "X"); ("state", "abc123")])) w2) in
  let w4 := snd (run poll w3) in
  replies (calls poll w1) = [ReplyJSON (H_status 0)]
  ∧ replies (calls poll w3)
    = [ReplyJSON (H_status_result 1 (Some (Demo.Session "abc123" "t1")))]
  ∧ replies (calls poll w4) = [ReplyError "登录状态已过期！"].
Proof. vm_compute. repeat split. Qed.

(** The callback for a gitee user whose account exists: the poll answers
    with the session of that account, once. *)
Example existing_account_scenario :
  let env := Demo.with_linked (Model.Build "u1" 0) Demo.fair in
  let poll := thirdAuthStatus Demo.fair (Demo.request [("authcode", "abc123")]) in
  let w1 := snd (run (thirdAuthcode Demo.fair (Demo.request [])) Demo.nothing) in
  let w2 := snd (run (giteeOAuth env
                        (Demo.request [("code", "X"); ("state", "abc123")])) w1) in
  let w3 := snd (run poll w2) in
  ExecLogin (Model.Build "u1" 0) 0 ∈ calls (giteeOAuth env
                        (Demo.request [("code", "X"); ("state", "abc123")])) w1
  ∧ replies (calls poll w2)
    = [ReplyJSON (H_status_result 1 (Some (Demo.Session "u1" "t0")))]
  ∧ replies (calls poll w3) = [ReplyError "登录状态已过期！"].
Proof. vm_compute. repeat split. set_solver. Qed.


(** ** The other properties on concrete instances *)

Lemma pending_entry_expires_witness :
  let begun := (run (thirdAuthcode Demo.fair (Demo.request [])) Demo.nothing).2 in
  run (thirdAuthStatus Demo.fair (Demo.request [("authcode", "abc123")]))
      (advance (5 * Minute) begun)
  = (Finished tt,
     logged [RedisGetString (authKey "abc123");
             Respond (ReplyError "登录状态已过期！")]
       (advance (5 * Minute) begun)).
Proof.
  intros begun.
  apply (pending_entry_expires Demo.fair (Demo.request []) Demo.nothing
           Demo.fair (Demo.request [("authcode", "abc123")])
           (advance (5 * Minute) begun));
    [reflexivity | reflexivity | reflexivity | reflexivity
    | vm_compute; discriminate].
Defined.

Lemma failed_delete_allows_replay_witness :
  let env := Cases.with_redis None None (Some "connection lost") Demo.fair in
  let r := Demo.Session "u1" "t0" in
  let poll e := thirdAuthStatus e (Demo.request [("authcode", "abc123")]) in
  let w := Demo.holding (ToJson r) (1 * Minute) in
  redis (run (poll env) w).2 = redis w
  ∧ replies (calls (poll Demo.fair)
               (advance (10 * Second) (run (poll env) w).2))
    = [ReplyJSON (H_status_result 1 (Some r))].
Proof.
  intros env r poll w.
  destruct (failed_delete_allows_replay env Demo.fair
              (Demo.request [("authcode", "abc123")]) w r "connection lost"
              (10 * Second))
    as (_ & Hredis & Hagain).
  - reflexivity.
  - reflexivity.
  - reflexivity.
  - reflexivity.
  - reflexivity.
  - reflexivity.
  - discriminate.
  - discriminate.
  - discriminate.
  - split; [exact Hredis | exact Hagain].
Defined.

Lemma undecodable_entry_is_consumed_witness :
  let poll := thirdAuthStatus Demo.fair (Demo.request [("authcode", "abc123")]) in
  let w := Demo.holding "{oops" (1 * Minute) in
  calls poll w
    = [RedisGetString (authKey "abc123"); RedisDel (authKey "abc123");
       Respond (ReplyError "invalid character")]
  ∧ replies (calls poll (advance 0 (run poll w).2))
    = [ReplyError "登录状态已过期！"].
Proof.
  intros poll w.
  destruct (undecodable_entry_is_consumed Demo.fair Demo.fair
              (Demo.request [("authcode", "abc123")]) w "{oops"
              "invalid character" 0)
    as (Hcalls & _ & Hagain).
  - reflexivity.
  - reflexivity.
  - reflexivity.
  - reflexivity.
  - discriminate.
  - discriminate.
  - discriminate.
  - reflexivity.
  - split; [exact Hcalls | exact Hagain].
Defined.

Lemma callback_touches_only_its_entry_witness :
  let c := Demo.request [("token", "T"); ("env", "prd"); ("state", "abc123")] in
  let w := Demo.holding "1" (5 * Minute) in
  Forall (λ e, callbackCall e = true) (calls (mallOAuth Demo.fair c) w)
  ∧ ∀ k : string, k ≠ authKey "abc123" →
      redis (run (mallOAuth Demo.fair c) w).2 !! k = redis w !! k.
Proof.
  intros c w.
  apply (callback_touches_only_its_entry Demo.fair c w (mallOAuth Demo.fair)).
  right. reflexivity.
Defined.

Lemma existing_login_is_delivered_once_witness :
  let env := Demo.with_linked (Model.Build "u1" 0) Demo.fair in
  let c := Demo.request [("code", "X"); ("state", "abc123")] in
  let poll := thirdAuthStatus Demo.fair (Demo.request [("authcode", "abc123")]) in
  let w := Demo.holding "1" (5 * Minute) in
  let done := (run (giteeOAuth env c) w).2 in
  let polled := (run poll (advance (10 * Second) done)).2 in
  replies (calls (giteeOAuth env c) w) = [ReplyString 200 "登录失败！"]
  ∧ replies (calls poll (advance (10 * Second) done))
    = [ReplyJSON (H_status_result 1 (Some (Demo.Session "u1" "t0")))]
  ∧ replies (calls poll (advance 0 polled))
    = [ReplyError "登录状态已过期！"].
Proof.
  intros env c poll w done polled.
  destruct (existing_login_is_delivered_once env Demo.fair Demo.fair c
              (Demo.request [("authcode", "abc123")]) w (giteeOAuth env)
              (giteeProfile Demo.alice) (Model.Build "u1" 0)
              (Demo.Session "u1" "t0") (10 * Second) 0)
    as (_ & _ & Hreply & Hpoll & Hagain).
  - by apply (Resolves_gitee env c w "tok" Demo.alice).
  - reflexivity.
  - discriminate.
  - reflexivity.
  - reflexivity.
  - reflexivity.
  - discriminate.
  - discriminate.
  - discriminate.
  - reflexivity.
  - reflexivity.
  - reflexivity.
  - reflexivity.
  - reflexivity.
  - split; [exact Hreply |]. split; [exact Hpoll | exact Hagain].
Defined.

Lemma failed_login_writes_nothing_witness :
  let env := Cases.with_login (Err "locked")
               (Demo.with_linked (Model.Build "u1" 0) Demo.fair) in
  let c := Demo.request [("token", "T"); ("env", "prd"); ("state", "abc123")] in
  let w := Demo.holding "1" (5 * Minute) in
  replies (calls (mallOAuth env c) w) = [ReplyError "locked"]
  ∧ redis (run (mallOAuth env c) w).2 = redis w.
Proof.
  intros env c w.
  destruct (failed_login_writes_nothing env c w (mallOAuth env)
              (mallProfile Demo.bob) (Model.Build "u1" 0) "locked")
    as (_ & Hreply & _ & _ & Hredis & _).
  - by apply (Resolves_mall env c w Demo.bob).
  - reflexivity.
  - discriminate.
  - reflexivity.
  - split; [exact Hreply | exact Hredis].
Defined.

Lemma login_without_result_stores_the_sentinel_witness :
  let env := Cases.with_login (Ok None)
               (Demo.with_linked (Model.Build "u1" 0) Demo.fair) in
  let c := Demo.request [("code", "X"); ("state", "abc123")] in
  let w := Demo.holding "1" (5 * Minute) in
  replies (calls (thirdAuthStatus Demo.fair
                    (Demo.request [("authcode", "abc123")]))
             (advance (10 * Second) (run (giteeOAuth env c) w).2))
  = [ReplyJSON (H_status 2)].
Proof.
  intros env c w.
  destruct (login_without_result_stores_the_sentinel env Demo.fair c
              (Demo.request [("authcode", "abc123")]) w (giteeOAuth env)
              (giteeProfile Demo.alice) (Model.Build "u1" 0) (10 * Second))
    as (_ & Hpoll).
  - by apply (Resolves_gitee env c w "tok" Demo.alice).
  - reflexivity.
  - discriminate.
  - reflexivity.
  - reflexivity.
  - reflexivity.
  - reflexivity.
  - reflexivity.
  - exact Hpoll.
Defined.

Lemma poll_status_follows_the_entry_witness :
  replies (calls (thirdAuthStatus Demo.fair
                    (Demo.request [("authcode", "abc123")]))
             (Demo.holding "0" (1 * Minute)))
  = [ReplyJSON (H_status 2)].
Proof.
  destruct (poll_status_follows_the_entry Demo.fair
              (Demo.request [("authcode", "abc123")])
              (Demo.holding "0" (1 * Minute)) eq_refl)
    as (_ & _ & Hfailed).
  apply Hfailed. reflexivity.
Defined.

Lemma callback_without_state_is_served_witness :
  let env := Demo.with_linked (Model.Build "u1" 0) Demo.fair in
  let c := Demo.request [("code", "X")] in
  replies (calls (thirdAuthStatus Demo.fair (Demo.request []))
             (advance (10 * Second) (run (giteeOAuth env c) Demo.nothing).2))
  = [ReplyJSON (H_status_result 1 (Some (Demo.Session "u1" "t0")))].
Proof.
  intros env c.
  destruct (callback_without_state_is_served env Demo.fair c (Demo.request [])
              Demo.nothing (giteeOAuth env) (giteeProfile Demo.alice)
              (Model.Build "u1" 0) (Demo.Session "u1" "t0") (10 * Second))
    as (_ & Hpoll).
  - by apply (Resolves_gitee env c Demo.nothing "tok" Demo.alice).
  - reflexivity.
  - discriminate.
  - reflexivity.
  - reflexivity.
  - reflexivity.
  - discriminate.
  - discriminate.
  - discriminate.
  - reflexivity.
  - reflexivity.
  - reflexivity.
  - reflexivity.
  - exact Hpoll.
Defined.

Lemma unpolled_result_expires_witness :
  let stored := (run (storeLoginResult Demo.fair "abc123"
                        (Some (Demo.Session "u1" "t0"))) Demo.nothing).2 in
  run (thirdAuthStatus Demo.fair (Demo.request [("authcode", "abc123")]))
      (advance (1 * Minute) stored)
  = (Finished tt,
     logged [RedisGetString (authKey "abc123");
             Respond (ReplyError "登录状态已过期！")]
       (advance (1 * Minute) stored)).
Proof.
  intros stored.
  apply (unpolled_result_expires Demo.fair Demo.fair "abc123"
           (Some (Demo.Session "u1" "t0"))
           (Demo.request [("authcode", "abc123")]) Demo.nothing
           (advance (1 * Minute) stored));
    [reflexivity | reflexivity | reflexivity | reflexivity
    | vm_compute; discriminate].
Defined.

Lemma failed_transaction_is_reported_witness :
  let env := Cases.with_storage None (Some "duplicate entry") None Demo.fair in
  let c := Demo.request [("code", "X"); ("state", "abc123")] in
  let w := Demo.holding "1" (5 * Minute) in
  replies (calls (giteeOAuth env c) w) = [ReplyError "插入gitee user失败！"]
  ∧ TxRollback ∈ calls (giteeOAuth env c) w
  ∧ redis (run (giteeOAuth env c) w).2 = redis w.
Proof.
  intros env c w.
  destruct (failed_transaction_is_reported env c w (giteeOAuth env)
              (giteeProfile Demo.alice) "插入gitee user失败！" true)
    as (_ & Hreply & Hrolled & _ & _ & Hredis & _).
  - by apply (Resolves_gitee env c w "tok" Demo.alice).
  - reflexivity.
  - right; right. vm_compute. discriminate.
  - apply (InsertFails env (giteeProfile Demo.alice) "duplicate entry");
      reflexivity.
  - split; [exact Hreply |]. split; [by apply Hrolled | exact Hredis].
Defined.

Lemma session_is_stored_whatever_the_commit_witness :
  let env := Cases.with_storage None None (Some "deadlock") Demo.fair in
  let c := Demo.request [("token", "T"); ("env", "prd"); ("state", "abc123")] in
  let w := Demo.holding "1" (5 * Minute) in
  replies (calls (mallOAuth env c) w)
    = [ReplyError "数据库事物提交失败"; ReplyString 200 "登录失败！"]
  ∧ TxRollback ∈ calls (mallOAuth env c) w
  ∧ redis (run (mallOAuth env c) w).2
    = <[authKey "abc123"
          := Redis.Entry (ToJson (Demo.Session "abc123" "t1")) (0 + Minute * 1)]>
        (redis w).
Proof.
  intros env c w.
  destruct (session_is_stored_whatever_the_commit env c w (mallOAuth env)
              (mallProfile Demo.bob) (Demo.Session "abc123" "t1"))
    as (_ & Hreply & Hrolled & _ & Hredis & _).
  - by apply (Resolves_mall env c w Demo.bob).
  - reflexivity.
  - right; right. vm_compute. discriminate.
  - split; [reflexivity |]. split; [reflexivity |]. intros flag. reflexivity.
  - split; [exact Hreply |]. split; [by apply Hrolled | exact Hredis].
Defined.

Lemma zero_partitions_panic_witness :
  let env := Cases.with_partition (2 ^ 32) Demo.fair in
  let c := Demo.request [("code", "X"); ("state", "abc123")] in
  let w := Demo.holding "1" (5 * Minute) in
  (run (giteeOAuth env c) w).1 = Panic "runtime error: integer divide by zero"
  ∧ replies (calls (giteeOAuth env c) w) = []
  ∧ redis (run (giteeOAuth env c) w).2 = redis w.
Proof.
  intros env c w.
  destruct (zero_partitions_panic env c w (giteeOAuth env)
              (giteeProfile Demo.alice) "PNG")
    as (Hpanic & Hreply & _ & _ & _ & _ & _ & Hredis).
  - by apply (Resolves_gitee env c w "tok" Demo.alice).
  - reflexivity.
  - reflexivity.
  - reflexivity.
  - reflexivity.
  - split; [exact Hpanic |]. split; [exact Hreply | exact Hredis].
Defined.

Lemma stored_avatar_is_flagged_witness :
  let c := Demo.request [("code", "X"); ("state", "abc123")] in
  let w := Demo.holding "1" (5 * Minute) in
  CreateUserWithRespAndTx (newAccount Demo.fair (giteeProfile Demo.alice) 1)
    "203.0.113.5" "" ∈ calls (giteeOAuth Demo.fair c) w
  ∧ CloseImage ∈ calls (giteeOAuth Demo.fair c) w.
Proof.
  intros c w.
  destruct (stored_avatar_is_flagged Demo.fair c w (giteeOAuth Demo.fair)
              (giteeProfile Demo.alice) "PNG")
    as (_ & _ & _ & Hcreate & Hclose).
  - by apply (Resolves_gitee Demo.fair c w "tok" Demo.alice).
  - reflexivity.
  - split; [reflexivity |]. split; [reflexivity |].
    split; [vm_compute; discriminate | reflexivity].
  - split; [by apply Hcreate | exact Hclose].
Defined.

Lemma malformed_token_panics_witness :
  let env := Demo.with_exchange (Ok (<["access_token" := IFloat64 42 0]> ∅))
               Demo.fair in
  let c := Demo.request [("code", "X"); ("state", "abc123")] in
  ∃ msg,
    run (giteeOAuth env c) (Demo.holding "1" (5 * Minute))
    = (Panic msg,
       logged [HttpPostForm exchangeURL (exchangeForm env "X")]
         (Demo.holding "1" (5 * Minute))).
Proof.
  intros env c.
  apply (malformed_token_panics env c (Demo.holding "1" (5 * Minute))
           (<["access_token" := IFloat64 42 0]> ∅)).
  - discriminate.
  - reflexivity.
  - reflexivity.
  - intros s. vm_compute. discriminate.
Defined.

Lemma failed_lookup_is_reported_witness :
  let env := Cases.with_lookup (Err "too many connections") Demo.fair in
  let c := Demo.request [("token", "T"); ("env", "prd"); ("state", "abc123")] in
  let w := Demo.holding "1" (5 * Minute) in
  replies (calls (mallOAuth env c) w) = [ReplyError "查询mall用户信息失败！"]
  ∧ ∀ s, SpanStart s ∉ calls (mallOAuth env c) w.
Proof.
  intros env c w.
  destruct (failed_lookup_is_reported env c w (mallOAuth env)
              (mallProfile Demo.bob) "too many connections")
    as (_ & Hreply & _ & _ & _ & Hspan & _).
  - by apply (Resolves_mall env c w Demo.bob).
  - reflexivity.
  - split; [exact Hreply | exact Hspan].
Defined.

Lemma profile_needs_status_200_witness :
  ∃ resp, network_Get Demo.fair (profileURL "tok") = Ok resp
          ∧ StatusCode resp = 200
          ∧ json_giteeUserInfo Demo.fair (Body resp) = Ok (Some Demo.alice).
Proof.
  destruct (profile_needs_status_200 Demo.fair "tok" Demo.nothing
              (Some Demo.alice) None eq_refl)
    as (_ & _ & Hresp).
  by apply Hresp.
Defined.

Lemma mall_request_returns_user_or_error_witness :
  CloseBody ∈ calls (requestMallAccessToken Demo.fair "T" "qa") Demo.nothing
  ∧ head (calls (requestMallAccessToken Demo.fair "T" "qa") Demo.nothing)
    = Some (HttpDo "GET"
              "https://mall-api.valleysound.xyz/user-service/user/get"
              (mallHeader "T")).
Proof.
  destruct (mall_request_returns_user_or_error Demo.fair "T" "qa" Demo.nothing
              (Some Demo.bob) None eq_refl)
    as (_ & _ & Hhead & Hclose & _).
  split; [| exact Hhead].
  apply Hclose. by eexists.
Defined.

Lemma account_is_linked_by_the_login_witness :
  let c := Demo.request [("code", "X"); ("state", "abc123")] in
  let w := Demo.holding "1" (5 * Minute) in
  Forall (λ e, match e with
               | TxInsertGitee rw =>
                   gitUserInfoModel.Login rw = "alice"
                   ∧ gitUserInfoModel.AvatarURL rw
                     = "https://gitee.example/alice.png"
               | DBQueryWithGiteeUID l => l = "alice"
               | _ => True
               end)
    (calls (giteeOAuth Demo.fair c) w).
Proof.
  intros c w.
  destruct (account_is_linked_by_the_login Demo.fair c w (giteeOAuth Demo.fair)
              (giteeProfile Demo.alice))
    as (Hquery & Hrow & _).
  - by apply (Resolves_gitee Demo.fair c w "tok" Demo.alice).
  - reflexivity.
  - right; right. vm_compute. discriminate.
  - apply Forall_forall. intros e He.
    destruct e; try exact I; [by apply Hquery | by apply Hrow].
Defined.

Lemma push_stops_at_the_first_acceptance_witness :
  let push := Push Demo.second_server_up "a:1,b:2,c:3" "u1" "hello" in
  posted (calls push Demo.nothing)
    = ["http://a:1/inner/push/sendNotice"; "http://b:2/inner/push/sendNotice"]
  ∧ redis (run push Demo.nothing).2
    = <[ECHOOO_PUSH_UID ++ "u1" := Redis.Entry "1" (0 + Minute * 5)]> ∅.
Proof.
  intros push.
  destruct (push_stops_at_the_first_acceptance Demo.second_server_up
              "a:1,b:2,c:3" "u1" "hello" Demo.nothing 1 "b:2")
    as (_ & _ & Hposted & Hredis).
  - reflexivity.
  - reflexivity.
  - discriminate.
  - reflexivity.
  - intros j sj Hj _. destruct j as [| j]; [| lia].
    eexists _, _. reflexivity.
  - eexists. reflexivity.
  - split; [exact Hposted | exact Hredis].
Defined.

Lemma push_without_acceptance_leaves_no_marker_witness :
  let env := Demo.with_post
               (λ _, (Some {| StatusCode := 502; Body := "" |},
                      Some "stopped after 10 redirects")) Demo.fair in
  let push := Push env "a:1,b:2" "u1" "hello" in
  posted (calls push Demo.nothing)
    = ["http://a:1/inner/push/sendNotice"; "http://b:2/inner/push/sendNotice"]
  ∧ posted (calls push (advance (1 * Second) (run push Demo.nothing).2))
    = ["http://a:1/inner/push/sendNotice"; "http://b:2/inner/push/sendNotice"].
Proof.
  intros env push.
  destruct (push_without_acceptance_leaves_no_marker env "a:1,b:2" "u1" "hello"
              Demo.nothing)
    as (_ & Hposted & Hagain).
  - reflexivity.
  - reflexivity.
  - discriminate.
  - intros j sj _. eexists _, _. reflexivity.
  - split; [exact Hposted |]. apply Hagain. vm_compute. discriminate.
Defined.

Lemma push_panics_without_a_response_witness :
  let env := Demo.with_post (λ _, (None, Some "connection refused"))
               Demo.fair in
  run (Push env "a:1,b:2" "u1" "hello") Demo.nothing
  = (Panic "runtime error: invalid memory address or nil pointer dereference",
     logged [Log "EchoooPush serverAddresses";
             RedisGetString (ECHOOO_PUSH_UID ++ "u1");
             Log "echooo inner Push server";
             HttpPost "http://a:1/inner/push/sendNotice" "application/json"
               (pushRequest "u1" "hello")] Demo.nothing).
Proof.
  intros env.
  apply (push_panics_without_a_response env "a:1,b:2" "u1" "hello"
           Demo.nothing 0 "a:1").
  - reflexivity.
  - reflexivity.
  - discriminate.
  - reflexivity.
  - intros j sj Hj. lia.
  - eexists. reflexivity.
Defined.

Lemma push_returns_only_the_read_error_witness :
  let env := Cases.with_redis (Some "connection lost") None None Demo.fair in
  run (Push env "a:1,b:2" "u1" "hello") Demo.nothing
  = (Finished (Some "connection lost"),
     logged [Log "EchoooPush serverAddresses";
             RedisGetString (ECHOOO_PUSH_UID ++ "u1");
             Log "pushToEchoooApi to get cache key error"] Demo.nothing).
Proof.
  intros env.
  destruct (push_returns_only_the_read_error env "a:1,b:2" "u1" "hello"
              Demo.nothing (Some "connection lost") eq_refl)
    as (_ & Hrun).
  apply Hrun. discriminate.
Defined.

(** ** The login result's text on examples *)

Example Marshal_example :
  LoginResult.Marshal (LoginResult.Build "u1" "t0")
  = "{" ++ LoginResult.key "uid" ++ ":" ++ LoginResult.key "u1" ++ ","
    ++ LoginResult.key "token" ++ ":" ++ LoginResult.key "t0" ++ "}".
Proof. vm_compute. reflexivity. Qed.

Example appendString_examples :
  let q := String EncodingJson.dquote "" in
  EncodingJson.appendString ("a" ++ q ++ "b\c")
    = q ++ "a\" ++ q ++ "b\\c" ++ q
  ∧ EncodingJson.appendString ("<&>" ++ Utf8.bytes [10; 8; 1; 127])
    = q ++ "\u003c\u0026\u003e\n\b\u0001" ++ Utf8.bytes [127] ++ q
  ∧ EncodingJson.appendString (Utf8.bytes [255; 226; 128; 168; 195; 169; 195])
    = q ++ "\ufffd\u2028" ++ Utf8.bytes [195; 169] ++ "\ufffd" ++ q.
Proof. vm_compute. repeat split; reflexivity. Qed.

Example readString_examples :
  let q := String EncodingJson.dquote "" in
  EncodingJson.readString
    (q ++ "\ud83d\ude00\ud83dx\u00e9\/" ++ q ++ "rest")
    = Some (Utf8.bytes [240; 159; 152; 128; 239; 191; 189; 120; 195; 169; 47],
            "rest")
  ∧ EncodingJson.readString (q ++ "a" ++ Utf8.bytes [10] ++ q) = None
  ∧ EncodingJson.readString (q ++ "\x" ++ q) = None
  ∧ EncodingJson.readString (q ++ "abc") = None.
Proof. vm_compute. repeat split; reflexivity. Qed.

